(** * Anthropic <-> OpenAI translation layer of copilot-api

    A shallow embedding of
    - [services/anthropic/converters.ts]: request, tool, tool-choice and
      response translation,
    - [services/anthropic/streaming.ts]: the streaming transcoder,
    - [lib/tokenizer.ts]: the token estimator,
    - [services/copilot/create-chat-completions.ts]: what is done to the
      messages before they are sent,
    - the streaming branch and the choice of the model of
      [routes/anthropic/handler.ts],
    followed by the properties established about them.

    Conventions.  A JavaScript string is a Rocq [string]; a number that the
    code only counts with is a [nat] or a [Z]; an optional field is an
    [option]; a thrown exception is an explicit result.  The generator of
    [streaming.ts] yields one SSE frame
    [event: <type>\ndata: <JSON of the event>\n\n] per event: the embedding
    keeps the event object and leaves the framing out. *)

From stdpp Require Import gmap strings list pretty.

Open Scope string_scope.
Open Scope list_scope.

(** ** JavaScript values and built-ins *)

(** What [JSON.parse] can return, and what a field typed [any] or
    [Record<string, any>] can hold.  The code under study builds and
    passes such values on and never computes with the numbers in them;
    [JNum] carries the integers. *)
#[warnings="-register-all"]
Inductive JSValue : Type :=
  | JNull
  | JBool (b : bool)
  | JNum (n : Z)
  | JStr (s : string)
  | JArr (items : list JSValue)
  | JObj (fields : list (string * JSValue)).

(** [typeof v === "object" && v !== null] *)
Definition isNonNullObject (v : JSValue) : bool :=
  match v with
  | JArr _ | JObj _ => true
  | _ => false
  end.

(** Truthiness of an optional string: [undefined], [null] and [""] are falsy. *)
Definition truthy (o : option string) : option string :=
  match o with
  | Some s => if String.eqb s "" then None else Some s
  | None => None
  end.

(** [a || b] on an optional string with a string default. *)
Definition orElse (o : option string) (d : string) : string :=
  match truthy o with
  | Some s => s
  | None => d
  end.

(** A place where the declared type has an object, as it can be at run
    time: the JSON text of a chunk, or a value typed [any], can have
    [null] there, or nothing at all. *)
Inductive Nullable (A : Type) : Type :=
  | IsNull
  | IsUndefined
  | Present (value : A).

Arguments IsNull {A}.
Arguments IsUndefined {A}.
Arguments Present {A} value.

(** The names of the properties of [Object.prototype] (ECMAScript, with the
    legacy accessors of its Annex B).  An object literal inherits them:
    reading one of these names on a table that has no own entry of that
    name gives the inherited member, a function or, for [__proto__], the
    prototype object; all of them are truthy. *)
Definition objectPrototypeKeys : list string :=
  ["constructor"; "hasOwnProperty"; "isPrototypeOf"; "propertyIsEnumerable";
   "toLocaleString"; "toString"; "valueOf"; "__defineGetter__";
   "__defineSetter__"; "__lookupGetter__"; "__lookupSetter__"; "__proto__"].

(** The value of a [stop_reason] field: a string, or the member of
    [Object.prototype] that a table lookup has returned in its place. *)
Inductive StopReason : Type :=
  | StopReasonString (reason : string)
  | InheritedMember (key : string).

Coercion StopReasonString : string >-> StopReason.

(** [table[key] || "end_turn"], where [table] holds the own entries of an
    object literal. *)
Definition lookupStopReason (table : gmap string string) (key : string)
    : StopReason :=
  match table !! key with
  | Some reason => StopReasonString (orElse (Some reason) "end_turn")
  | None =>
      if bool_decide (key ∈ objectPrototypeKeys) then InheritedMember key
      else StopReasonString "end_turn"
  end.

(** ** The OpenAI-side data model ([create-chat-completions.ts]) *)

Record ContentPart := {
  part_type : string;
  part_text : option string;
  part_image_url : option string
}.

Record ToolCallFunction := {
  fn_name : string;
  fn_arguments : string
}.

Record ToolCall := {
  tc_id : string;
  tc_type : string;
  tc_function : ToolCallFunction
}.

(** [content: string | Array<ContentPart> | null] *)
Inductive MessageContent : Type :=
  | ContentString (s : string)
  | ContentParts (parts : list ContentPart)
  | ContentNull.

Record Message := {
  msg_role : string;
  msg_content : MessageContent;
  msg_tool_calls : option (list ToolCall);
  msg_tool_call_id : option string;
  msg_name : option string
}.

Record ChoiceNonStreaming := {
  cns_message : Message;
  cns_finish_reason : string
}.

Record ChatCompletionResponse := {
  ccr_id : option string;
  ccr_choices : option (list ChoiceNonStreaming)
}.

(** The streamed chunk: [Delta], [DeltaToolCall], [Choice],
    [ChatCompletionChunk].  The objects that the transcoder reads
    properties of without a test, [choices[0]], its [delta] and the
    elements of [tool_calls], are [Nullable]. *)
Record DeltaFunction := {
  df_name : option string;
  df_arguments : option string
}.

Record DeltaToolCall := {
  dtc_index : Z;
  dtc_id : option string;
  dtc_function : option DeltaFunction
}.

Record Delta := {
  delta_content : option string;
  delta_tool_calls : option (list (Nullable DeltaToolCall))
}.

Record Choice := {
  choice_delta : Nullable Delta;
  choice_finish_reason : option string
}.

Record ChatCompletionChunk := {
  chunk_choices : option (list (Nullable Choice))
}.

(** [ChatMessage] of [tokenizer.ts]. *)
Record ChatMessage := {
  cm_role : string;
  cm_content : string
}.

(** The functions the translation layer calls but does not define. *)
Class Builtins := {
  (** [JSON.parse]; [None] when it throws a [SyntaxError]. *)
  JSON_parse : string → option JSValue;
  (** [JSON.parse] at the type its result is cast to in [streaming.ts]:
      [None] when it throws a [SyntaxError], [Some IsNull] when the text
      is that of [null]; a number, a string or a boolean has no [choices]
      and is a chunk without them. *)
  JSON_parse_chunk : string → option (Nullable ChatCompletionChunk);
  (** [countTokens] of gpt-tokenizer. *)
  countTokens : list ChatMessage → Z;
  (** The message of the [TypeError] raised when the given expression
      reads a property of [null] ([true]) or of [undefined] ([false]). *)
  typeErrorMessage : bool → string → string
}.

(** ** The Anthropic-side data model ([types/anthropic.ts]) *)

Record AnthropicToolChoice := {
  atc_type : string;
  atc_name : option string
}.

(** The return type ["auto" | "none" | ToolChoice] of the tool-choice
    translation. *)
Inductive OpenAIToolChoice : Type :=
  | ToolChoiceAuto
  | ToolChoiceNone
  | ToolChoiceFunction (name : string).

(** A block of a response's [content].  [text] holds whatever
    [message.content] was when it was truthy. *)
Inductive ContentBlock : Type :=
  | ContentBlockText (text : MessageContent)
  | ContentBlockToolUse (id name : string) (input : JSValue).

Record AnthropicUsage := {
  input_tokens : Z;
  output_tokens : Z
}.

Record AnthropicMessagesResponse := {
  amr_id : string;
  amr_type : string;
  amr_role : string;
  amr_model : string;
  amr_content : list ContentBlock;
  amr_stop_reason : StopReason;
  amr_usage : AnthropicUsage
}.

(** ** [converters.ts] *)

Definition convertAnthropicToolChoiceToOpenAI
    (anthropicChoice : option AnthropicToolChoice) : option OpenAIToolChoice :=
  match anthropicChoice with
  | None => None
  | Some choice =>
      if String.eqb (atc_type choice) "auto" then Some ToolChoiceAuto
      else if String.eqb (atc_type choice) "any" then Some ToolChoiceAuto
      else if String.eqb (atc_type choice) "tool" then
        match truthy (atc_name choice) with
        | Some name => Some (ToolChoiceFunction name)
        | None => Some ToolChoiceAuto
        end
      else Some ToolChoiceAuto
  end.

(** [handler.ts]: [if (openaiToolChoice) openaiPayload.tool_choice = ...];
    the result is the payload's [tool_choice] field, [None] when the field
    is not set. *)
Definition payloadToolChoice (tool_choice : option AnthropicToolChoice)
    : option OpenAIToolChoice :=
  let openaiToolChoice := convertAnthropicToolChoiceToOpenAI tool_choice in
  match openaiToolChoice with
  | Some choice => Some choice
  | None => None
  end.

(** The own entries of the table of [convertOpenAIToAnthropicResponse]. *)
Definition stopReasonMap : gmap string string :=
  {[ "stop" := "end_turn";
     "length" := "max_tokens";
     "tool_calls" := "tool_use";
     "function_call" := "tool_use";
     "content_filter" := "stop_sequence" ]}.

(** The [try]/[catch] around [JSON.parse(call.function.arguments)]. *)
Definition toolInputDict `{Builtins} (arguments : string) : JSValue :=
  match JSON_parse arguments with
  | Some parsedInput =>
      if isNonNullObject parsedInput then parsedInput
      else JObj [("value", parsedInput)]
  | None => JObj [("error_parsing_arguments", JStr arguments)]
  end.

(** One iteration of [for (const call of message.tool_calls)]: the blocks
    it pushes. *)
Definition toolUseBlocks `{Builtins} (call : ToolCall) : list ContentBlock :=
  if String.eqb (tc_type call) "function" then
    [ContentBlockToolUse (tc_id call) (fn_name (tc_function call))
       (toolInputDict (fn_arguments (tc_function call)))]
  else [].

(** [if (message.content)]: a non-empty string and every array are truthy. *)
Definition textBlocks (content : MessageContent) : list ContentBlock :=
  match content with
  | ContentString s => if String.eqb s "" then [] else [ContentBlockText content]
  | ContentParts _ => [ContentBlockText content]
  | ContentNull => []
  end.

(** [uuid] is the value of [randomUUID()]. *)
Definition convertOpenAIToAnthropicResponse `{Builtins}
    (openaiResponse : ChatCompletionResponse) (originalAnthropicModel : string)
    (requestId : option string) (uuid : string) : AnthropicMessagesResponse :=
  let '(anthropicContent, anthropicStopReason) :=
    match ccr_choices openaiResponse with
    | Some (choice :: _) =>
        let message := cns_message choice in
        let finishReason := cns_finish_reason choice in
        let mapped := lookupStopReason stopReasonMap finishReason in
        let text := textBlocks (msg_content message) in
        match msg_tool_calls message with
        | Some calls =>
            (text ++ concat (map toolUseBlocks calls),
             if String.eqb finishReason "tool_calls"
             then StopReasonString "tool_use"
             else mapped)
        | None => (text, mapped)
        end
    | _ => ([], StopReasonString "end_turn")
    end in
  let anthropicContent :=
    match anthropicContent with
    | [] => [ContentBlockText (ContentString "")]
    | _ => anthropicContent
    end in
  let responseId :=
    match truthy (ccr_id openaiResponse) with
    | Some id => "msg_" +:+ id
    | None => "msg_" +:+ orElse requestId uuid +:+ "_completed"
    end in
  {| amr_id := responseId;
     amr_type := "message";
     amr_role := "assistant";
     amr_model := originalAnthropicModel;
     amr_content := anthropicContent;
     amr_stop_reason := anthropicStopReason;
     amr_usage := {| input_tokens := 0; output_tokens := 0 |} |}.

(** ** [tokenizer.ts] *)

(** White space in the sense of [String.prototype.trim], among the
    characters a [string] holds. *)
Definition isWhiteSpace (c : Ascii.ascii) : bool :=
  let n := Ascii.nat_of_ascii c in
  bool_decide (n = 9 ∨ n = 10 ∨ n = 11 ∨ n = 12 ∨ n = 13 ∨ n = 32 ∨ n = 160).

(** [s.trim()] is the empty string. *)
Fixpoint trimsToEmpty (s : string) : bool :=
  match s with
  | EmptyString => true
  | String c rest => isWhiteSpace c && trimsToEmpty rest
  end.

Definition convertToTokenizerFormat (message : Message) : option ChatMessage :=
  let role :=
    if String.eqb (msg_role message) "tool" then "assistant"
    else msg_role message in
  match msg_content message with
  | ContentString content => Some {| cm_role := role; cm_content := content |}
  | ContentNull =>
      match msg_tool_calls message with
      | Some (toolCall :: more) =>
          let tool_calls := toolCall :: more in
          let toolCallsText :=
            String.concat " "
              (map (λ toolCall,
                      "Function call: " +:+ fn_name (tc_function toolCall)
                      +:+ "(" +:+ fn_arguments (tc_function toolCall) +:+ ")")
                   tool_calls) in
          Some {| cm_role := role; cm_content := toolCallsText |}
      | _ =>
          match String.eqb (msg_role message) "tool", truthy (msg_name message) with
          | true, Some name =>
              Some {| cm_role := "assistant";
                      cm_content := "Tool response from " +:+ name |}
          | _, _ => None
          end
      end
  | ContentParts parts =>
      let textContent :=
        String.concat " "
          (filter (λ text, text ≠ "")
             (map (λ part,
                     if String.eqb (part_type part) "input_text"
                     then orElse (part_text part) ""
                     else "")
                  parts)) in
      if trimsToEmpty textContent then None
      else Some {| cm_role := role; cm_content := textContent |}
  end.

(** The object [{ input, output }] that [getTokenCount] returns. *)
Record TokenCount := {
  input : Z;
  output : Z
}.

Definition getTokenCount `{Builtins} (messages : list Message) : TokenCount :=
  let convertedMessages := omap convertToTokenizerFormat messages in
  let input :=
    filter (λ m, cm_role m ≠ "assistant") convertedMessages in
  let output :=
    filter (λ m, cm_role m = "assistant") convertedMessages in
  {| input := countTokens input; output := countTokens output |}.

(** A [TokenCount] as the JavaScript value it is. *)
Definition tokenCountObject (count : TokenCount) : JSValue :=
  JObj [("input", JNum (input count)); ("output", JNum (output count))].

(** ** [streaming.ts] *)

(** The events the transcoder yields ([types/anthropic.ts]). *)
Inductive StartBlock : Type :=
  | StartText (text : string)
  | StartToolUse (id name : string) (input : JSValue).

Inductive BlockDelta : Type :=
  | TextDelta (text : string)
  | InputJsonDelta (partial_json : string).

Inductive AnthropicStreamEvent : Type :=
  | MessageStart (id model : string) (content : list ContentBlock)
      (usage_input_tokens : JSValue) (usage_output_tokens : nat)
  | Ping
  | ContentBlockStart (index : nat) (content_block : StartBlock)
  | ContentBlockDelta (index : nat) (delta : BlockDelta)
  | ContentBlockStop (index : nat)
  | MessageDelta (stop_reason : StopReason) (usage_output_tokens : nat)
  | MessageStop
  | ErrorEvent (type message : string).

(** What a [throw] carries: an [Error] with its message, or another value. *)
Inductive Thrown : Type :=
  | ThrownError (message : string)
  | ThrownOther.

(** An item of [openaiStream], typed [any]: the three cases the transcoder
    tells apart.  [ChunkWithData] is an object whose [data] is truthy: a
    non-empty string, or an object, taken as the chunk; [ChunkObject] is
    anything else, taken as the chunk itself: an object, or [null] or
    [undefined], or a value without [choices]. *)
Inductive RawChunk : Type :=
  | ChunkString (chunk : string)
  | ChunkWithData (data : string + ChatCompletionChunk)
  | ChunkObject (chunk : Nullable ChatCompletionChunk).

(** The upstream async iterable: it ends, or rejects, or yields a chunk and
    goes on. *)
Inductive Upstream : Type :=
  | Done
  | Rejected (error : Thrown)
  | Yield (chunk : RawChunk) (rest : Upstream).

(** The entries of the [toolStates] map. *)
Record ToolState := {
  ts_id : string;
  ts_name : string;
  ts_argumentsBuffer : string
}.

(** The local variables of [convertOpenAIStreamToAnthropic].
    [sentToolBlockStarts] is a [Set], iterated in insertion order. *)
Record TranscoderState := {
  nextAnthropicBlockIdx : nat;
  textBlockAnthropicIdx : option nat;
  openaiToolIdxToAnthropicBlockIdx : gmap Z nat;
  toolStates : gmap nat ToolState;
  sentToolBlockStarts : list nat;
  outputTokenCount : nat;
  finalAnthropicStopReason : StopReason
}.

Definition initialState : TranscoderState :=
  {| nextAnthropicBlockIdx := 0;
     textBlockAnthropicIdx := None;
     openaiToolIdxToAnthropicBlockIdx := ∅;
     toolStates := ∅;
     sentToolBlockStarts := [];
     outputTokenCount := 0;
     finalAnthropicStopReason := "end_turn" |}.

(** The own entries of the table of the transcoder: the same five. *)
Definition openaiToAnthropicStopReasonMap : gmap string string :=
  {[ "stop" := "end_turn";
     "length" := "max_tokens";
     "tool_calls" := "tool_use";
     "function_call" := "tool_use";
     "content_filter" := "stop_sequence" ]}.

(** [openaiToAnthropicStopReasonMap[reason] || "end_turn"] *)
Definition mapStopReason (reason : string) : StopReason :=
  lookupStopReason openaiToAnthropicStopReasonMap reason.


(** [Math.ceil(text.length / 4)] *)
Definition estimateTokenCount (text : string) : nat :=
  (String.length text + 3) / 4.

(** [chunk.match(/^data: (.+)$/)]: the captured group. *)
Fixpoint noLineTerminator (s : string) : bool :=
  match s with
  | EmptyString => true
  | String c rest =>
      negb (bool_decide (Ascii.nat_of_ascii c = 10 ∨ Ascii.nat_of_ascii c = 13))
      && noLineTerminator rest
  end.

Definition dataMatch (chunk : string) : option string :=
  if String.prefix "data: " chunk then
    let rest := String.substring 6 (String.length chunk - 6) chunk in
    if negb (String.eqb rest "") && noLineTerminator rest then Some rest
    else None
  else None.

(** The value of [parsedChunk] that the loop body works on; [None] where
    the body logs a warning and continues. *)
Definition parseChunk `{Builtins} (chunk : RawChunk)
    : option (Nullable ChatCompletionChunk) :=
  match chunk with
  | ChunkString chunk =>
      match dataMatch chunk with
      | Some payload => JSON_parse_chunk payload
      | None => JSON_parse_chunk chunk
      end
  | ChunkWithData (inl data) => JSON_parse_chunk data
  | ChunkWithData (inr data) => Some (Present data)
  | ChunkObject chunk => Some chunk
  end.

(** The object that [expression] reads a property of, or the [TypeError]
    that the read raises. *)
Definition present `{Builtins} {A : Type} (expression : string)
    (value : Nullable A) : Thrown + A :=
  match value with
  | IsNull => inl (ThrownError (typeErrorMessage true expression))
  | IsUndefined => inl (ThrownError (typeErrorMessage false expression))
  | Present value => inr value
  end.

(** [if (delta.content) { ... }] *)
Definition handleText (st : TranscoderState) (content : option string)
    : TranscoderState * list AnthropicStreamEvent :=
  match truthy content with
  | None => (st, [])
  | Some text =>
      let tokens := outputTokenCount st + estimateTokenCount text in
      match textBlockAnthropicIdx st with
      | None =>
          let idx := nextAnthropicBlockIdx st in
          ({| nextAnthropicBlockIdx := idx + 1;
              textBlockAnthropicIdx := Some idx;
              openaiToolIdxToAnthropicBlockIdx := openaiToolIdxToAnthropicBlockIdx st;
              toolStates := toolStates st;
              sentToolBlockStarts := sentToolBlockStarts st;
              outputTokenCount := tokens;
              finalAnthropicStopReason := finalAnthropicStopReason st |},
           [ContentBlockStart idx (StartText "");
            ContentBlockDelta idx (TextDelta text)])
      | Some idx =>
          ({| nextAnthropicBlockIdx := nextAnthropicBlockIdx st;
              textBlockAnthropicIdx := Some idx;
              openaiToolIdxToAnthropicBlockIdx := openaiToolIdxToAnthropicBlockIdx st;
              toolStates := toolStates st;
              sentToolBlockStarts := sentToolBlockStarts st;
              outputTokenCount := tokens;
              finalAnthropicStopReason := finalAnthropicStopReason st |},
           [ContentBlockDelta idx (TextDelta text)])
      end
  end.

(** The object stored by [toolStates.set] on the first sight of a tool
    index; the id is a placeholder when the delta brings none. *)
Definition newToolState (requestId : string) (currentAnthropicToolBlockIdx : nat)
    (toolDelta : DeltaToolCall) : ToolState :=
  {| ts_id :=
       orElse (dtc_id toolDelta)
         ("tool_ph_" +:+ requestId +:+ "_" +:+ pretty currentAnthropicToolBlockIdx);
     ts_name := "";
     ts_argumentsBuffer := "" |}.

(** [if (!openaiToolIdxToAnthropicBlockIdx.has(openaiTcIdx)) { ... }] *)
Definition allocateToolBlock (requestId : string) (st : TranscoderState)
    (toolDelta : DeltaToolCall) : TranscoderState :=
  match openaiToolIdxToAnthropicBlockIdx st !! dtc_index toolDelta with
  | Some _ => st
  | None =>
      let currentAnthropicToolBlockIdx := nextAnthropicBlockIdx st in
      {| nextAnthropicBlockIdx := currentAnthropicToolBlockIdx + 1;
         textBlockAnthropicIdx := textBlockAnthropicIdx st;
         openaiToolIdxToAnthropicBlockIdx :=
           <[dtc_index toolDelta := currentAnthropicToolBlockIdx]>
             (openaiToolIdxToAnthropicBlockIdx st);
         toolStates :=
           <[currentAnthropicToolBlockIdx :=
               newToolState requestId currentAnthropicToolBlockIdx toolDelta]>
             (toolStates st);
         sentToolBlockStarts := sentToolBlockStarts st;
         outputTokenCount := outputTokenCount st;
         finalAnthropicStopReason := finalAnthropicStopReason st |}
  end.

(** The fragment [toolDelta.function?.arguments] when it is truthy. *)
Definition argumentsOf (toolDelta : DeltaToolCall) : option string :=
  match dtc_function toolDelta with
  | Some function => truthy (df_arguments function)
  | None => None
  end.

(** "Update tool state": the new contents of the [toolState] object. *)
Definition updateToolState (toolDelta : DeltaToolCall) (toolState : ToolState)
    : ToolState :=
  let id :=
    match truthy (dtc_id toolDelta) with
    | Some id =>
        if String.prefix "tool_ph_" (ts_id toolState) then id
        else ts_id toolState
    | None => ts_id toolState
    end in
  let name :=
    match dtc_function toolDelta with
    | Some function => orElse (df_name function) (ts_name toolState)
    | None => ts_name toolState
    end in
  let argumentsBuffer :=
    match argumentsOf toolDelta with
    | Some arguments => ts_argumentsBuffer toolState +:+ arguments
    | None => ts_argumentsBuffer toolState
    end in
  {| ts_id := id; ts_name := name; ts_argumentsBuffer := argumentsBuffer |}.

(** [toolState.id && !toolState.id.startsWith("tool_ph_") && toolState.name] *)
Definition canStart (toolState : ToolState) : bool :=
  negb (String.eqb (ts_id toolState) "")
  && negb (String.prefix "tool_ph_" (ts_id toolState))
  && negb (String.eqb (ts_name toolState) "").

(** "Update tool state", "Send content_block_start if we have enough info
    and haven't sent it yet" and "Send delta if we have arguments and have
    started the block", for the block and the [toolState] object that the
    two [get(...)!] returned. *)
Definition emitToolDelta (st : TranscoderState)
    (currentAnthropicToolBlockIdx : nat) (toolState : ToolState)
    (toolDelta : DeltaToolCall)
    : TranscoderState * list AnthropicStreamEvent :=
  let toolState := updateToolState toolDelta toolState in
  let tokens :=
    match argumentsOf toolDelta with
    | Some arguments => outputTokenCount st + estimateTokenCount arguments
    | None => outputTokenCount st
    end in
  let starts :=
    negb (bool_decide (currentAnthropicToolBlockIdx ∈ sentToolBlockStarts st))
    && canStart toolState in
  let sent :=
    if starts
    then sentToolBlockStarts st ++ [currentAnthropicToolBlockIdx]
    else sentToolBlockStarts st in
  let startEvents :=
    if starts
    then [ContentBlockStart currentAnthropicToolBlockIdx
            (StartToolUse (ts_id toolState) (ts_name toolState) (JObj []))]
    else [] in
  let deltaEvents :=
    match argumentsOf toolDelta with
    | Some arguments =>
        if bool_decide (currentAnthropicToolBlockIdx ∈ sent)
        then [ContentBlockDelta currentAnthropicToolBlockIdx
                (InputJsonDelta arguments)]
        else []
    | None => []
    end in
  ({| nextAnthropicBlockIdx := nextAnthropicBlockIdx st;
      textBlockAnthropicIdx := textBlockAnthropicIdx st;
      openaiToolIdxToAnthropicBlockIdx := openaiToolIdxToAnthropicBlockIdx st;
      toolStates :=
        <[currentAnthropicToolBlockIdx := toolState]> (toolStates st);
      sentToolBlockStarts := sent;
      outputTokenCount := tokens;
      finalAnthropicStopReason := finalAnthropicStopReason st |},
   startEvents ++ deltaEvents).

(** One iteration of [for (const toolDelta of delta.tool_calls)].  The two
    [get(...)!] are reads of map entries: on a missing entry the first use
    of the result throws. *)
Definition handleToolDelta `{Builtins} (requestId : string) (st : TranscoderState)
    (toolDelta : DeltaToolCall)
    : Thrown + TranscoderState * list AnthropicStreamEvent :=
  let st := allocateToolBlock requestId st toolDelta in
  match openaiToolIdxToAnthropicBlockIdx st !! dtc_index toolDelta with
  | None => inl (ThrownError (typeErrorMessage false "toolState.id"))
  | Some currentAnthropicToolBlockIdx =>
      match toolStates st !! currentAnthropicToolBlockIdx with
      | None => inl (ThrownError (typeErrorMessage false "toolState.id"))
      | Some toolState =>
          inr (emitToolDelta st currentAnthropicToolBlockIdx toolState toolDelta)
      end
  end.

(** [for (const toolDelta of delta.tool_calls) { ... }]: the events yielded,
    and the state reached or the exception that ended the loop. *)
Fixpoint handleToolCalls `{Builtins} (requestId : string) (st : TranscoderState)
    (tool_calls : list (Nullable DeltaToolCall))
    : list AnthropicStreamEvent * (Thrown + TranscoderState) :=
  match tool_calls with
  | [] => ([], inr st)
  | toolDelta :: rest =>
      match present "toolDelta.index" toolDelta with
      | inl error => ([], inl error)
      | inr toolDelta =>
          match handleToolDelta requestId st toolDelta with
          | inl error => ([], inl error)
          | inr (st, events) =>
              let '(more, result) := handleToolCalls requestId st rest in
              (events ++ more, result)
          end
      end
  end.

(** How an iteration of the [for await] loop ends. *)
Inductive Flow : Type :=
  | Continue
  | Break.

(** "Handle finish reason" *)
Definition handleFinishReason (st : TranscoderState)
    (openaiFinishReason : option string) : TranscoderState * Flow :=
  match truthy openaiFinishReason with
  | Some reason =>
      ({| nextAnthropicBlockIdx := nextAnthropicBlockIdx st;
          textBlockAnthropicIdx := textBlockAnthropicIdx st;
          openaiToolIdxToAnthropicBlockIdx := openaiToolIdxToAnthropicBlockIdx st;
          toolStates := toolStates st;
          sentToolBlockStarts := sentToolBlockStarts st;
          outputTokenCount := outputTokenCount st;
          finalAnthropicStopReason :=
            if String.eqb reason "tool_calls" then StopReasonString "tool_use"
            else mapStopReason reason |},
       Break)
  | None => (st, Continue)
  end.

(** [parsedChunk.choices[0]] when the body goes past its first guard:
    [inr None] where the body continues with the next chunk, [inl] where
    reading [choices] of [parsedChunk], or [delta] of [choices[0]], raises
    a [TypeError]. *)
Definition firstChoice `{Builtins} (chunk : RawChunk) : Thrown + option Choice :=
  match parseChunk chunk with
  | Some parsedChunk =>
      match present "parsedChunk.choices" parsedChunk with
      | inl error => inl error
      | inr parsedChunk =>
          match chunk_choices parsedChunk with
          | Some (choice :: _) =>
              match present "parsedChunk.choices[0].delta" choice with
              | inl error => inl error
              | inr choice => inr (Some choice)
              end
          | _ => inr None
          end
      end
  | None => inr None
  end.

(** The body of the [for await] loop. *)
Definition handleChunk `{Builtins} (requestId : string) (st : TranscoderState)
    (chunk : RawChunk)
    : list AnthropicStreamEvent * (Thrown + TranscoderState * Flow) :=
  match firstChoice chunk with
  | inl error => ([], inl error)
  | inr None => ([], inr (st, Continue))
  | inr (Some choice) =>
      match present "delta.content" (choice_delta choice) with
      | inl error => ([], inl error)
      | inr delta =>
          let '(st, textEvents) := handleText st (delta_content delta) in
          let '(toolEvents, result) :=
            match delta_tool_calls delta with
            | Some tool_calls => handleToolCalls requestId st tool_calls
            | None => ([], inr st)
            end in
          match result with
          | inl error => (textEvents ++ toolEvents, inl error)
          | inr st =>
              (textEvents ++ toolEvents,
               inr (handleFinishReason st (choice_finish_reason choice)))
          end
      end
  end.

(** [for await (const chunk of openaiStream) { ... }] *)
Fixpoint forAwait `{Builtins} (requestId : string) (st : TranscoderState)
    (openaiStream : Upstream)
    : list AnthropicStreamEvent * (Thrown + TranscoderState) :=
  match openaiStream with
  | Done => ([], inr st)
  | Rejected error => ([], inl error)
  | Yield chunk rest =>
      match handleChunk requestId st chunk with
      | (events, inl error) => (events, inl error)
      | (events, inr (st, Break)) => (events, inr st)
      | (events, inr (st, Continue)) =>
          let '(more, result) := forAwait requestId st rest in
          (events ++ more, result)
      end
  end.

(** "Send content_block_stop events".  The [JSON.parse] of each argument
    buffer there only decides whether a warning is logged. *)
Definition stopEvents (st : TranscoderState) : list AnthropicStreamEvent :=
  match textBlockAnthropicIdx st with
  | Some idx => [ContentBlockStop idx]
  | None => []
  end
  ++ map ContentBlockStop (sentToolBlockStarts st).

(** [error instanceof Error ? error.message : "An unexpected error occurred"] *)
Definition errorMessage (error : Thrown) : string :=
  match error with
  | ThrownError message => message
  | ThrownOther => "An unexpected error occurred"
  end.

(** What the generator yields once the loop is left: the
    [content_block_stop] events, [message_delta] and [message_stop], or,
    from the [catch] block, the error event. *)
Definition afterLoop (result : Thrown + TranscoderState)
    : list AnthropicStreamEvent :=
  match result with
  | inr st =>
      stopEvents st
      ++ [MessageDelta (finalAnthropicStopReason st) (outputTokenCount st);
          MessageStop]
  | inl error => [ErrorEvent "api_error" (errorMessage error)]
  end.

(** The loop, run from the initial values of the local variables. *)
Definition streamLoop `{Builtins} (openaiStream : Upstream) (requestId : string)
    : list AnthropicStreamEvent * (Thrown + TranscoderState) :=
  forAwait requestId initialState openaiStream.

(** The generator, as the list of the events it yields.  [uuid] is the
    value of [randomUUID()]. *)
Definition convertOpenAIStreamToAnthropic `{Builtins} (openaiStream : Upstream)
    (originalAnthropicModel : string) (estimatedInputTokens : JSValue)
    (requestId : string) (uuid : string) : list AnthropicStreamEvent :=
  let anthropicMessageId :=
    "msg_stream_" +:+ requestId +:+ "_" +:+ String.substring 0 8 uuid in
  let '(events, result) := streamLoop openaiStream requestId in
  [MessageStart anthropicMessageId originalAnthropicModel [] estimatedInputTokens 0;
   Ping]
  ++ events
  ++ afterLoop result.

(** The [try] block ran to its end: no exception reached the [catch]. *)
Definition terminatesNormally `{Builtins} (openaiStream : Upstream)
    (requestId : string) : Prop :=
  ∃ st, (streamLoop openaiStream requestId).2 = inr st.

(** ** The streaming branch of [handleAnthropicMessages] ([handler.ts]) *)

(** [response] is the chunk stream, [openaiMessages] the translated message
    list; the result lists what is written to the SSE stream. *)
Definition streamAnthropicMessages `{Builtins} (openaiMessages : list Message)
    (response : Upstream) (model : string) (requestId : string) (uuid : string)
    : list AnthropicStreamEvent :=
  let estimatedInputTokens := getTokenCount openaiMessages in
  convertOpenAIStreamToAnthropic response model
    (tokenCountObject estimatedInputTokens) requestId uuid.

(** ** Vocabulary of the properties *)

(** The first choice of a chunk whose delta the loop goes on to handle. *)
Definition choiceOf `{Builtins} (chunk : RawChunk) : option Choice :=
  match firstChoice chunk with
  | inr (Some choice) => Some choice
  | _ => None
  end.

(** The [content] of the delta of a choice. *)
Definition contentOfChoice (choice : Choice) : option string :=
  match choice_delta choice with
  | Present delta => delta_content delta
  | _ => None
  end.

(** The deltas of [tool_calls] that the loop handles: those before the
    first one that is [null] or [undefined]. *)
Fixpoint handledToolCalls (tool_calls : list (Nullable DeltaToolCall))
    : list DeltaToolCall :=
  match tool_calls with
  | Present toolDelta :: rest => toolDelta :: handledToolCalls rest
  | _ => []
  end.

(** The [TypeError] that the loop over [tool_calls] raises on its first
    element that is [null] or [undefined]. *)
Fixpoint raisedByToolCalls `{Builtins} (tool_calls : list (Nullable DeltaToolCall))
    : option Thrown :=
  match tool_calls with
  | [] => None
  | toolDelta :: rest =>
      match present "toolDelta.index" toolDelta with
      | inl error => Some error
      | inr _ => raisedByToolCalls rest
      end
  end.

(** The [TypeError] that a chunk makes the loop body raise: its parsed
    value, its first choice, the delta of that choice or an element of
    [tool_calls] is [null] or [undefined]. *)
Definition raisedBy `{Builtins} (chunk : RawChunk) : option Thrown :=
  match firstChoice chunk with
  | inl error => Some error
  | inr None => None
  | inr (Some choice) =>
      match present "delta.content" (choice_delta choice) with
      | inl error => Some error
      | inr delta =>
          match delta_tool_calls delta with
          | Some tool_calls => raisedByToolCalls tool_calls
          | None => None
          end
      end
  end.

(** The finish reason that the first choice of a chunk carries. *)
Definition finishOf `{Builtins} (chunk : RawChunk) : option string :=
  match choiceOf chunk with
  | Some choice => truthy (choice_finish_reason choice)
  | None => None
  end.

(** The loop reads the next chunk after this one: the chunk raises no
    exception and brings no finish reason. *)
Definition goesOn `{Builtins} (chunk : RawChunk) : bool :=
  match raisedBy chunk, finishOf chunk with
  | None, None => true
  | _, _ => false
  end.

(** The choices whose deltas the loop handles, wholly or up to an
    exception: one per chunk that has a first choice, up to the chunk that
    ends the loop, by its finish reason or by an exception, or up to the
    end or the rejection of the upstream. *)
Fixpoint consumedChoices `{Builtins} (openaiStream : Upstream) : list Choice :=
  match openaiStream with
  | Done | Rejected _ => []
  | Yield chunk rest =>
      option_list (choiceOf chunk)
      ++ if goesOn chunk then consumedChoices rest else []
  end.

(** The upstream is exhausted ([Done]) and no chunk before that carried a
    finish reason. *)
Fixpoint endsWithoutFinishReason `{Builtins} (openaiStream : Upstream) : bool :=
  match openaiStream with
  | Done => true
  | Rejected _ => false
  | Yield chunk rest =>
      match finishOf chunk with
      | Some _ => false
      | None => endsWithoutFinishReason rest
      end
  end.

(** The chunks of an upstream. *)
Fixpoint chunksOf (openaiStream : Upstream) : list RawChunk :=
  match openaiStream with
  | Done | Rejected _ => []
  | Yield chunk rest => chunk :: chunksOf rest
  end.

(** The rejection the loop runs into, if any: the upstream rejects before
    a chunk ends the loop. *)
Fixpoint rejection `{Builtins} (openaiStream : Upstream) : option Thrown :=
  match openaiStream with
  | Done => None
  | Rejected error => Some error
  | Yield chunk rest => if goesOn chunk then rejection rest else None
  end.

(** The exception that ends the loop, if one does: the rejection of the
    upstream, or the [TypeError] that a chunk raises. *)
Fixpoint failure `{Builtins} (openaiStream : Upstream) : option Thrown :=
  match openaiStream with
  | Done => None
  | Rejected error => Some error
  | Yield chunk rest =>
      match raisedBy chunk with
      | Some error => Some error
      | None => if goesOn chunk then failure rest else None
      end
  end.

(** A content block of the output, named by what it is on the input side:
    the text block, or the tool call with a given OpenAI index. *)
Inductive BlockKey : Type :=
  | TextKey
  | ToolKey (openaiTcIdx : Z).

#[global] Instance BlockKey_eq_dec : EqDecision BlockKey.
Proof. solve_decision. Defined.

(** The tool-call deltas of a choice that the loop handles. *)
Definition toolDeltasOfChoice (choice : Choice) : list DeltaToolCall :=
  match choice_delta choice with
  | Present delta => handledToolCalls (default [] (delta_tool_calls delta))
  | _ => []
  end.

(** The blocks a choice uses, in the order the loop body meets them. *)
Definition usesOfChoice (choice : Choice) : list BlockKey :=
  match truthy (contentOfChoice choice) with
  | Some _ => [TextKey]
  | None => []
  end
  ++ map (λ toolDelta, ToolKey (dtc_index toolDelta)) (toolDeltasOfChoice choice).

Definition addFirstUse (keys : list BlockKey) (key : BlockKey) : list BlockKey :=
  if decide (key ∈ keys) then keys else keys ++ [key].

(** First-use order: the blocks of a stream, each once, in the order of
    their first use. *)
Definition firstUseOrder `{Builtins} (openaiStream : Upstream) : list BlockKey :=
  foldl addFirstUse [] (concat (map usesOfChoice (consumedChoices openaiStream))).

(** The tool-call deltas the loop handles for one OpenAI tool index. *)
Definition toolDeltasFor `{Builtins} (openaiStream : Upstream) (openaiTcIdx : Z)
    : list DeltaToolCall :=
  filter (λ toolDelta, dtc_index toolDelta = openaiTcIdx)
    (concat (map toolDeltasOfChoice (consumedChoices openaiStream))).

(** No delta brings a name. *)
Definition bringsNoName (toolDelta : DeltaToolCall) : Prop :=
  match dtc_function toolDelta with
  | Some function => truthy (df_name function) = None
  | None => True
  end.

(** No delta brings an id other than a placeholder. *)
Definition bringsNoConcreteId (toolDelta : DeltaToolCall) : Prop :=
  match truthy (dtc_id toolDelta) with
  | Some id => String.prefix "tool_ph_" id = true
  | None => True
  end.

(** Projections of the output. *)
Definition blockIndexOf (event : AnthropicStreamEvent) : option nat :=
  match event with
  | ContentBlockStart index _ | ContentBlockDelta index _
  | ContentBlockStop index => Some index
  | _ => None
  end.

Definition startIndexOf (event : AnthropicStreamEvent) : option nat :=
  match event with
  | ContentBlockStart index _ => Some index
  | _ => None
  end.

Definition stopIndexOf (event : AnthropicStreamEvent) : option nat :=
  match event with
  | ContentBlockStop index => Some index
  | _ => None
  end.

(** The [partial_json] payloads sent for a block, in order. *)
Definition inputJsonOf (index : nat) (event : AnthropicStreamEvent) : option string :=
  match event with
  | ContentBlockDelta i (InputJsonDelta partial_json) =>
      if decide (i = index) then Some partial_json else None
  | _ => None
  end.

Definition isContentBlockEvent (event : AnthropicStreamEvent) : Prop :=
  is_Some (blockIndexOf event).

(** How many [content_block_stop] events carry an index. *)
Definition stopCount (index : nat) (events : list AnthropicStreamEvent) : nat :=
  length (filter (λ i, i = index) (omap stopIndexOf events)).

(** The blocks the response translator takes from the message, before it
    looks whether there are any. *)
Definition producedBlocks `{Builtins} (response : ChatCompletionResponse)
    : list ContentBlock :=
  match ccr_choices response with
  | Some (choice :: _) =>
      textBlocks (msg_content (cns_message choice))
      ++ concat (map toolUseBlocks
                   (default [] (msg_tool_calls (cns_message choice))))
  | _ => []
  end.

(** The output-token estimate of what the loop handles. *)
Definition estimateOfText (content : option string) : nat :=
  match truthy content with
  | Some text => estimateTokenCount text
  | None => 0
  end.

Definition estimateOfToolDelta (toolDelta : DeltaToolCall) : nat :=
  match argumentsOf toolDelta with
  | Some arguments => estimateTokenCount arguments
  | None => 0
  end.

Definition estimateOfChoice (choice : Choice) : nat :=
  estimateOfText (contentOfChoice choice)
  + sum_list (map estimateOfToolDelta (toolDeltasOfChoice choice)).

(** The events that close a block or the message. *)
Definition isClosingEvent (event : AnthropicStreamEvent) : Prop :=
  match event with
  | ContentBlockStop _ | MessageDelta _ _ | MessageStop => True
  | _ => False
  end.

(** The output-token estimate of a whole stream. *)
Definition estimateOfStream `{Builtins} (openaiStream : Upstream) : nat :=
  sum_list (map estimateOfChoice (consumedChoices openaiStream)).

(** ** Invariants of the loop *)

(** The blocks whose [content_block_start] has been sent. *)
Definition opened (st : TranscoderState) : list nat :=
  option_list (textBlockAnthropicIdx st) ++ sentToolBlockStarts st.

(** [for (const toolDelta of delta.tool_calls) { ... }] over deltas that
    are all present: what [handleToolCalls] does before the first element
    that is [null] or [undefined]. *)
Fixpoint handleToolDeltas `{Builtins} (requestId : string) (st : TranscoderState)
    (toolDeltas : list DeltaToolCall)
    : list AnthropicStreamEvent * (Thrown + TranscoderState) :=
  match toolDeltas with
  | [] => ([], inr st)
  | toolDelta :: rest =>
      match handleToolDelta requestId st toolDelta with
      | inl error => ([], inl error)
      | inr (st, events) =>
          let '(more, result) := handleToolDeltas requestId st rest in
          (events ++ more, result)
      end
  end.

(** An event the loop may have yielded by the time it is in state [st]: a
    start or a delta of a block that is open in [st]. *)
Definition openIn (st : TranscoderState) (event : AnthropicStreamEvent) : Prop :=
  match event with
  | ContentBlockStart index (StartText _)
  | ContentBlockDelta index (TextDelta _) =>
      textBlockAnthropicIdx st = Some index
  | ContentBlockStart index (StartToolUse _ _ _)
  | ContentBlockDelta index (InputJsonDelta _) =>
      index ∈ sentToolBlockStarts st
  | _ => False
  end.

(** The state [st] and the events [events] yielded so far, after the loop
    has met the blocks [keys], in this order. *)
Record Inv (keys : list BlockKey) (st : TranscoderState)
    (events : list AnthropicStreamEvent) : Prop := {
  inv_length : length keys = nextAnthropicBlockIdx st;
  inv_text : ∀ j, keys !! j = Some TextKey ↔ textBlockAnthropicIdx st = Some j;
  inv_tool : ∀ j k,
    keys !! j = Some (ToolKey k)
    ↔ openaiToolIdxToAnthropicBlockIdx st !! k = Some j;
  inv_states : ∀ k j,
    openaiToolIdxToAnthropicBlockIdx st !! k = Some j
    → is_Some (toolStates st !! j);
  inv_sent : ∀ j,
    j ∈ sentToolBlockStarts st
    → ∃ k, openaiToolIdxToAnthropicBlockIdx st !! k = Some j;
  inv_nodup : NoDup (sentToolBlockStarts st);
  inv_events : Forall (openIn st) events;
  inv_starts : omap startIndexOf events ≡ₚ opened st
}.

(** The block of tool index [k], if it exists, has not been started, and
    its tool state satisfies [P]. *)
Definition Stuck (k : Z) (P : ToolState → Prop) (st : TranscoderState) : Prop :=
  ∀ j, openaiToolIdxToAnthropicBlockIdx st !! k = Some j
       → (j ∉ sentToolBlockStarts st)
         ∧ (∃ toolState, toolStates st !! j = Some toolState ∧ P toolState).

(** [P] holds of a fresh tool state and is kept by every delta that
    satisfies [Q], and a tool state with [P] cannot be started. *)
Record Sticky (P : ToolState → Prop) (Q : DeltaToolCall → Prop) : Prop := {
  sticky_new : ∀ requestId idx toolDelta,
    Q toolDelta → P (newToolState requestId idx toolDelta);
  sticky_update : ∀ toolDelta toolState,
    Q toolDelta → P toolState → P (updateToolState toolDelta toolState);
  sticky_stuck : ∀ toolState, P toolState → canStart toolState = false
}.

(** ** Sample inputs *)

(** A runtime whose [JSON.parse] knows three texts and rejects the rest,
    which parses the chunk text [null] to [null] and rejects every other
    chunk text, and whose tokenizer counts the characters of the
    contents. *)
Definition sampleBuiltins : Builtins :=
  {| JSON_parse := λ text,
       if String.eqb text "{}" then Some (JObj [])
       else if String.eqb text "42" then Some (JNum 42)
       else if String.eqb text "null" then Some JNull
       else None;
     JSON_parse_chunk := λ text,
       if String.eqb text "null" then Some IsNull else None;
     countTokens := λ messages,
       Z.of_nat (sum_list (map (λ message, String.length (cm_content message))
                             messages));
     typeErrorMessage := λ ofNull expression,
       (if ofNull : bool then "null" else "undefined")
       +:+ " is not an object (evaluating '" +:+ expression +:+ "')" |}.

(** The chunk object with one choice, whose delta has the given content
    and tool calls. *)
Definition chunkOf (content : option string) (tool_calls : option (list DeltaToolCall))
    (finish_reason : option string) : RawChunk :=
  ChunkObject
    (Present
       {| chunk_choices :=
            Some [Present
                    {| choice_delta :=
                         Present {| delta_content := content;
                                    delta_tool_calls :=
                                      option_map (map Present) tool_calls |};
                       choice_finish_reason := finish_reason |}] |}).

Definition argumentsDelta (index : Z) (arguments : string) : DeltaToolCall :=
  {| dtc_index := index;
     dtc_id := None;
     dtc_function := Some {| df_name := None; df_arguments := Some arguments |} |}.

(** A tool call streamed in three fragments; the id and the name come with
    the last one. *)
Definition lateNamedToolCall : Upstream :=
  Yield (chunkOf None (Some [argumentsDelta 0 "[1"]) None)
    (Yield (chunkOf None (Some [argumentsDelta 0 ",2"]) None)
       (Yield (chunkOf None
                 (Some [{| dtc_index := 0;
                           dtc_id := Some "call_1";
                           dtc_function :=
                             Some {| df_name := Some "sum";
                                     df_arguments := Some ",3]" |} |}])
                 (Some "tool_calls"))
          Done)).

(** A tool call whose first fragment comes before a text chunk and whose
    id and name come after it. *)
Definition lateOpenedToolCall : Upstream :=
  Yield (chunkOf None (Some [argumentsDelta 0 "[1"]) None)
    (Yield (chunkOf (Some "hi") None None)
       (Yield (chunkOf None
                 (Some [{| dtc_index := 0;
                           dtc_id := Some "call_1";
                           dtc_function :=
                             Some {| df_name := Some "sum";
                                     df_arguments := Some ",2]" |} |}])
                 (Some "tool_calls"))
          Done)).

(** A text chunk, then the upstream rejects. *)
Definition brokenTextStream : Upstream :=
  Yield (chunkOf (Some "hi") None None) (Rejected (ThrownError "socket closed")).

(** A text chunk, then the upstream ends; no finish reason was sent. *)
Definition unfinishedTextStream : Upstream :=
  Yield (chunkOf (Some "hi") None None) Done.

(** Two tool calls whose fragments come interleaved; the tool indices are
    not the block indices. *)
Definition twoToolCalls : Upstream :=
  Yield (chunkOf None
           (Some [{| dtc_index := 4;
                     dtc_id := Some "call_a";
                     dtc_function :=
                       Some {| df_name := Some "sum";
                               df_arguments := Some "[1" |} |};
                  {| dtc_index := 2;
                     dtc_id := Some "call_b";
                     dtc_function :=
                       Some {| df_name := Some "neg";
                               df_arguments := Some "[7]" |} |}])
           None)
    (Yield (chunkOf None (Some [argumentsDelta 4 ",2]"]) (Some "tool_calls"))
       Done).

(** A text chunk whose finish reason is a property name of
    [Object.prototype]. *)
Definition inheritedFinishReason : Upstream :=
  Yield (chunkOf (Some "hi") None (Some "constructor")) Done.

(** A text chunk, then a chunk whose payload is the JSON text [null]; no
    chunk carries a finish reason. *)
Definition nullChunkStream : Upstream :=
  Yield (chunkOf (Some "hi") None None) (Yield (ChunkString "data: null") Done).

(** A tool call that gets arguments and an id but never a name, next to a
    text block. *)
Definition namelessToolCall : Upstream :=
  Yield (chunkOf None
           (Some [{| dtc_index := 7;
                     dtc_id := Some "call_9";
                     dtc_function :=
                       Some {| df_name := None; df_arguments := Some "{}" |} |}])
           None)
    (Yield (chunkOf (Some "hi") None (Some "stop")) Done).

Definition sampleResponse (arguments : string) : ChatCompletionResponse :=
  {| ccr_id := Some "cmpl-1";
     ccr_choices :=
       Some [{| cns_message :=
                  {| msg_role := "assistant";
                     msg_content := ContentNull;
                     msg_tool_calls :=
                       Some [{| tc_id := "call_1";
                                tc_type := "function";
                                tc_function :=
                                  {| fn_name := "lookup";
                                     fn_arguments := arguments |} |}];
                     msg_tool_call_id := None;
                     msg_name := None |};
                cns_finish_reason := "tool_calls" |}] |}.

(** ** Further vocabulary of the transcoder *)

(** The upstream that yields [chunks] and then goes on as [rest]. *)
Definition yieldAll (chunks : list RawChunk) (rest : Upstream) : Upstream :=
  foldr Yield rest chunks.

(** The finish reason that ends the loop, if one does: the first one of a
    chunk that the loop handles without an exception. *)
Fixpoint finishReasonOf `{Builtins} (openaiStream : Upstream) : option string :=
  match openaiStream with
  | Done | Rejected _ => None
  | Yield chunk rest =>
      match raisedBy chunk, finishOf chunk with
      | Some _, _ => None
      | None, Some reason => Some reason
      | None, None => finishReasonOf rest
      end
  end.

(** The [text] of a [text_delta] event. *)
Definition textDeltaOf (event : AnthropicStreamEvent) : option string :=
  match event with
  | ContentBlockDelta _ (TextDelta text) => Some text
  | _ => None
  end.

(** The text fragment a choice brings. *)
Definition textOfChoice (choice : Choice) : option string :=
  truthy (contentOfChoice choice).

(** A start or a delta of the text block. *)
Definition isTextEvent (event : AnthropicStreamEvent) : Prop :=
  match event with
  | ContentBlockStart _ (StartText _) | ContentBlockDelta _ (TextDelta _) => True
  | _ => False
  end.

Definition isTextStart (event : AnthropicStreamEvent) : bool :=
  match event with
  | ContentBlockStart _ (StartText _) => true
  | _ => false
  end.

(** A [content_block_start] or a [content_block_delta]. *)
Definition isStartOrDelta (event : AnthropicStreamEvent) : Prop :=
  match event with
  | ContentBlockStart _ _ | ContentBlockDelta _ _ => True
  | _ => False
  end.

(** The stop reasons of the Anthropic protocol that the tables produce. *)
Definition producedStopReasons : list string :=
  ["end_turn"; "max_tokens"; "tool_use"; "stop_sequence"].

(** A delta that brings a name and an id that is not a placeholder: one
    that lets its block start if it is the first delta of its tool call. *)
Definition bringsIdAndName (toolDelta : DeltaToolCall) : Prop :=
  (∃ id, truthy (dtc_id toolDelta) = Some id
         ∧ String.prefix "tool_ph_" id = false)
  ∧ ∃ function name,
      dtc_function toolDelta = Some function
      ∧ truthy (df_name function) = Some name.

(** The [content_block_start] of block [index] with the id and the name
    that a delta brings. *)
Definition toolStartOf (index : nat) (toolDelta : DeltaToolCall)
    : AnthropicStreamEvent :=
  ContentBlockStart index
    (StartToolUse (orElse (dtc_id toolDelta) "")
       (from_option (λ function, orElse (df_name function) "") ""
          (dtc_function toolDelta))
       (JObj [])).

(** The tool call [k] after the loop has handled the deltas [handled]: once
    it has a block, the block is started with what the first delta
    brought, and every argument fragment has been sent. *)
Definition Flowing (k : Z) (st : TranscoderState)
    (events : list AnthropicStreamEvent) (handled : list DeltaToolCall) : Prop :=
  match openaiToolIdxToAnthropicBlockIdx st !! k with
  | Some j =>
      j ∈ sentToolBlockStarts st
      ∧ omap (inputJsonOf j) events
        = omap argumentsOf (filter (λ toolDelta, dtc_index toolDelta = k) handled)
      ∧ ∃ first,
          head (filter (λ toolDelta, dtc_index toolDelta = k) handled) = Some first
          ∧ toolStartOf j first ∈ events
  | None => filter (λ toolDelta, dtc_index toolDelta = k) handled = []
  end.

(** The tool call [k], where it occurs in [handled], is named by its first
    delta there. *)
Definition namedFromStart (k : Z) (handled : list DeltaToolCall) : Prop :=
  ∀ first,
    head (filter (λ toolDelta, dtc_index toolDelta = k) handled) = Some first
    → bringsIdAndName first.

Definition FlowingIfNamed (k : Z) (handled : list DeltaToolCall)
    (st : TranscoderState) (events : list AnthropicStreamEvent) : Prop :=
  namedFromStart k handled → Flowing k st events handled.

(** The id that a delta brings, when it is not a placeholder. *)
Definition concreteIdOf (toolDelta : DeltaToolCall) : option string :=
  match truthy (dtc_id toolDelta) with
  | Some id => if String.prefix "tool_ph_" id then None else Some id
  | None => None
  end.

(** The name that a delta brings. *)
Definition nameOf (toolDelta : DeltaToolCall) : option string :=
  match dtc_function toolDelta with
  | Some function => truthy (df_name function)
  | None => None
  end.

(** A tool block is started with [id] and [name] from the deltas
    [toolDeltas] of its tool call: when it is started, after some of them,
    [id] is the first id they brought that is not a placeholder, and
    [name] is the last name they brought. *)
Definition startedFrom (toolDeltas : list DeltaToolCall) (id name : string)
    : Prop :=
  ∃ started,
    started `prefix_of` toolDeltas
    ∧ head (omap concreteIdOf started) = Some id
    ∧ last (omap nameOf started) = Some name.

(** The start event [content_block] belongs to the block [key] of the
    stream: the text block starts with the empty text; the block of a tool
    call starts with an id and a name that the deltas of this tool call
    brought, and with the empty input. *)
Definition startOf `{Builtins} (openaiStream : Upstream) (key : BlockKey)
    (content_block : StartBlock) : Prop :=
  match key, content_block with
  | TextKey, StartText text => text = ""
  | ToolKey openaiTcIdx, StartToolUse id name input =>
      startedFrom (toolDeltasFor openaiStream openaiTcIdx) id name
      ∧ input = JObj []
  | _, _ => False
  end.

(** The payload [delta] belongs to the block [key] of the stream: a text
    fragment that the loop handled, for the text block; an argument
    fragment of the deltas of this tool call, for the block of a tool
    call. *)
Definition deltaOf `{Builtins} (openaiStream : Upstream) (key : BlockKey)
    (delta : BlockDelta) : Prop :=
  match key, delta with
  | TextKey, TextDelta text =>
      text ∈ omap textOfChoice (consumedChoices openaiStream)
  | ToolKey openaiTcIdx, InputJsonDelta partial_json =>
      partial_json ∈ omap argumentsOf (toolDeltasFor openaiStream openaiTcIdx)
  | _, _ => False
  end.

(** The tool state [toolState] after the deltas [toolDeltas] of its tool
    call: it has the last name they brought, and the first id they brought
    that is not a placeholder; as long as they brought none, its id is a
    placeholder. *)
Definition TracksDeltas (toolDeltas : list DeltaToolCall)
    (toolState : ToolState) : Prop :=
  ts_name toolState = default "" (last (omap nameOf toolDeltas))
  ∧ match head (omap concreteIdOf toolDeltas) with
    | Some id => ts_id toolState = id ∧ String.prefix "tool_ph_" id = false
    | None => String.prefix "tool_ph_" (ts_id toolState) = true
    end.

(** Where an event of the loop comes from, with the map [blocks] from tool
    indices to blocks and the tool-call deltas [handled] so far. *)
Definition originOf (blocks : gmap Z nat) (handled : list DeltaToolCall)
    (event : AnthropicStreamEvent) : Prop :=
  match event with
  | ContentBlockStart _ (StartText text) => text = ""
  | ContentBlockStart index (StartToolUse id name input) =>
      ∃ k, blocks !! k = Some index
           ∧ startedFrom
               (filter (λ toolDelta, dtc_index toolDelta = k) handled) id name
           ∧ input = JObj []
  | ContentBlockDelta index (InputJsonDelta partial_json) =>
      ∃ k, blocks !! k = Some index
           ∧ partial_json
             ∈ omap argumentsOf
                 (filter (λ toolDelta, dtc_index toolDelta = k) handled)
  | _ => True
  end.

(** The state and the events after the loop has handled the tool-call
    deltas [handled]: every event has its origin there, a tool call
    without a block has had no delta, and every tool state tracks the
    deltas of its tool call. *)
Record Origin (handled : list DeltaToolCall) (st : TranscoderState)
    (events : list AnthropicStreamEvent) : Prop := {
  origin_events :
    Forall (originOf (openaiToolIdxToAnthropicBlockIdx st) handled) events;
  origin_fresh : ∀ k,
    openaiToolIdxToAnthropicBlockIdx st !! k = None
    → filter (λ toolDelta, dtc_index toolDelta = k) handled = [];
  origin_states : ∀ k j toolState,
    openaiToolIdxToAnthropicBlockIdx st !! k = Some j
    → toolStates st !! j = Some toolState
    → TracksDeltas (filter (λ toolDelta, dtc_index toolDelta = k) handled)
        toolState
}.

(** ** The request side: [converters.ts] *)

(** The line feed that the joins of [converters.ts] put between texts. *)
Definition newline : string := String (Ascii.ascii_of_nat 10) EmptyString.

(** [JSON.stringify] and [String], which the request translation calls. *)
Class Serializer := {
  (** [JSON.stringify]; [None] when it throws. *)
  JSON_stringify : JSValue → option string;
  (** [String(v)]. *)
  stringOf : JSValue → string;
  (** [String] leaves a string as it is. *)
  stringOf_string : ∀ s, stringOf (JStr s) = s
}.

(** [typeof v] *)
Definition typeOf (v : JSValue) : string :=
  match v with
  | JNull | JArr _ | JObj _ => "object"
  | JBool _ => "boolean"
  | JNum _ => "number"
  | JStr _ => "string"
  end.

(** [fields[key]] on the fields of an object, whose keys are distinct. *)
Fixpoint lookupField (key : string) (fields : list (string * JSValue))
    : option JSValue :=
  match fields with
  | [] => None
  | (k, v) :: rest => if String.eqb k key then Some v else lookupField key rest
  end.

Record ContentBlockImageSource := {
  src_type : string;
  src_media_type : string;
  src_data : string
}.

(** [content: string | Array<Record<string, any>> | Array<any>] of a
    [tool_result] block. *)
Inductive ToolResultContent : Type :=
  | ResultString (content : string)
  | ResultArray (items : list JSValue).

(** [ContentBlock] of a request, told apart by its [type] tag; [BlockOther]
    is a block with a tag that no type guard accepts. *)
Inductive AnthropicBlock : Type :=
  | BlockText (text : string)
  | BlockImage (source : ContentBlockImageSource)
  | BlockToolUse (id name : string) (input : JSValue)
  | BlockToolResult (tool_use_id : string) (content : ToolResultContent)
  | BlockOther (type : string).

(** [content: string | Array<ContentBlock>] *)
Inductive AnthropicContent : Type :=
  | AnthropicString (content : string)
  | AnthropicBlocks (blocks : list AnthropicBlock).

Record AnthropicMessage := {
  am_role : string;
  am_content : AnthropicContent
}.

Record SystemContent := {
  sc_type : string;
  sc_text : string
}.

(** [system?: string | Array<SystemContent>] *)
Inductive AnthropicSystem : Type :=
  | SystemString (text : string)
  | SystemBlocks (blocks : list SystemContent).

Record AnthropicTool := {
  at_name : string;
  at_description : option string;
  at_input_schema : JSValue
}.

(** [Tool] of [create-chat-completions.ts]. *)
Record ToolFunction := {
  tf_name : string;
  tf_description : option string;
  tf_parameters : option JSValue
}.

Record Tool := {
  tool_type : string;
  tool_function : ToolFunction
}.

(** The text of an item that [serializeToolResultContent] takes as a text
    item: an object with [type: "text"] and a [text] field. *)
Definition textOfItem (item : JSValue) : option JSValue :=
  match item with
  | JObj fields =>
      match lookupField "type" fields with
      | Some (JStr type) =>
          if String.eqb type "text" then lookupField "text" fields else None
      | _ => None
      end
  | _ => None
  end.

(** One iteration of the loop of [serializeToolResultContent]: the string
    pushed to [processedParts]. *)
Definition serializeToolResultItem `{Serializer} (item : JSValue) : string :=
  match textOfItem item with
  | Some text => stringOf text
  | None =>
      match JSON_stringify item with
      | Some json => json
      | None => "<unserializable_item type='" +:+ typeOf item +:+ "'>"
      end
  end.

(** The two cases the declared type of [content] has; the last branch of
    the source is for values that are neither. *)
Definition serializeToolResultContent `{Serializer} (content : ToolResultContent)
    : string :=
  match content with
  | ResultString content => content
  | ResultArray items => String.concat newline (map serializeToolResultItem items)
  end.

(** The system text of [convertAnthropicToOpenAIMessages]. *)
Definition systemTextContent (anthropicSystem : option AnthropicSystem) : string :=
  match anthropicSystem with
  | Some (SystemString text) => text
  | Some (SystemBlocks blocks) =>
      String.concat newline
        (map sc_text (filter (λ block, sc_type block = "text") blocks))
  | None => ""
  end.

(** A message object with [role] and [content] only. *)
Definition plainMessage (role : string) (content : MessageContent) : Message :=
  {| msg_role := role;
     msg_content := content;
     msg_tool_calls := None;
     msg_tool_call_id := None;
     msg_name := None |}.

(** The arrays that the loop over the blocks of one message fills. *)
Record BlockLoop := {
  bl_openaiMessages : list Message;
  bl_openaiPartsForUserMessage : list ContentPart;
  bl_assistantToolCalls : list ToolCall;
  bl_textContentForAssistant : list string
}.

(** One iteration of [for (const block of content)]. *)
Definition convertBlock `{Serializer} (role : string) (acc : BlockLoop)
    (block : AnthropicBlock) : BlockLoop :=
  match block with
  | BlockText text =>
      if String.eqb role "user" then
        {| bl_openaiMessages := bl_openaiMessages acc;
           bl_openaiPartsForUserMessage :=
             bl_openaiPartsForUserMessage acc
             ++ [{| part_type := "text";
                    part_text := Some text;
                    part_image_url := None |}];
           bl_assistantToolCalls := bl_assistantToolCalls acc;
           bl_textContentForAssistant := bl_textContentForAssistant acc |}
      else if String.eqb role "assistant" then
        {| bl_openaiMessages := bl_openaiMessages acc;
           bl_openaiPartsForUserMessage := bl_openaiPartsForUserMessage acc;
           bl_assistantToolCalls := bl_assistantToolCalls acc;
           bl_textContentForAssistant :=
             bl_textContentForAssistant acc ++ [text] |}
      else acc
  | BlockImage source =>
      if String.eqb role "user" && String.eqb (src_type source) "base64" then
        {| bl_openaiMessages := bl_openaiMessages acc;
           bl_openaiPartsForUserMessage :=
             bl_openaiPartsForUserMessage acc
             ++ [{| part_type := "image_url";
                    part_text := None;
                    part_image_url :=
                      Some ("data:" +:+ src_media_type source +:+ ";base64,"
                            +:+ src_data source) |}];
           bl_assistantToolCalls := bl_assistantToolCalls acc;
           bl_textContentForAssistant := bl_textContentForAssistant acc |}
      else acc
  | BlockToolUse id name input =>
      if String.eqb role "assistant" then
        {| bl_openaiMessages := bl_openaiMessages acc;
           bl_openaiPartsForUserMessage := bl_openaiPartsForUserMessage acc;
           bl_assistantToolCalls :=
             bl_assistantToolCalls acc
             ++ [{| tc_id := id;
                    tc_type := "function";
                    tc_function :=
                      {| fn_name := name;
                         fn_arguments := default "{}" (JSON_stringify input) |} |}];
           bl_textContentForAssistant := bl_textContentForAssistant acc |}
      else acc
  | BlockToolResult tool_use_id content =>
      if String.eqb role "user" then
        {| bl_openaiMessages :=
             bl_openaiMessages acc
             ++ [{| msg_role := "tool";
                    msg_content :=
                      ContentString (serializeToolResultContent content);
                    msg_tool_calls := None;
                    msg_tool_call_id := Some tool_use_id;
                    msg_name := None |}];
           bl_openaiPartsForUserMessage := bl_openaiPartsForUserMessage acc;
           bl_assistantToolCalls := bl_assistantToolCalls acc;
           bl_textContentForAssistant := bl_textContentForAssistant acc |}
      else acc
  | BlockOther _ => acc
  end.

(** "Handle user message with multimodal content": the messages pushed. *)
Definition userMessages (openaiPartsForUserMessage : list ContentPart)
    : list Message :=
  match openaiPartsForUserMessage with
  | [] => []
  | part :: rest =>
      let isMultimodal :=
        existsb (λ part, String.eqb (part_type part) "image_url")
          openaiPartsForUserMessage in
      if isMultimodal || bool_decide (1 < length openaiPartsForUserMessage) then
        [plainMessage "user" (ContentParts openaiPartsForUserMessage)]
      else if String.eqb (part_type part) "text" then
        [plainMessage "user" (ContentString (orElse (part_text part) ""))]
      else []
  end.

(** "Handle assistant message with text and/or tool calls": the messages
    pushed. *)
Definition assistantMessages (textContentForAssistant : list string)
    (assistantToolCalls : list ToolCall) : list Message :=
  let assistantText :=
    String.concat newline (filter (λ text, text ≠ "") textContentForAssistant) in
  let toolCallMessage :=
    {| msg_role := "assistant";
       msg_content := ContentNull;
       msg_tool_calls := Some assistantToolCalls;
       msg_tool_call_id := None;
       msg_name := None |} in
  match String.eqb assistantText "", assistantToolCalls with
  | false, _ :: _ =>
      [plainMessage "assistant" (ContentString assistantText); toolCallMessage]
  | false, [] => [plainMessage "assistant" (ContentString assistantText)]
  | true, _ :: _ => [toolCallMessage]
  | true, [] => [plainMessage "assistant" (ContentString "")]
  end.

(** One iteration of [for (const msg of anthropicMessages)]: [openaiMessages]
    after it. *)
Definition convertMessage `{Serializer} (openaiMessages : list Message)
    (msg : AnthropicMessage) : list Message :=
  let role := am_role msg in
  match am_content msg with
  | AnthropicString content =>
      openaiMessages ++ [plainMessage role (ContentString content)]
  | AnthropicBlocks [] =>
      openaiMessages ++ [plainMessage role (ContentString "")]
  | AnthropicBlocks content =>
      let acc :=
        foldl (convertBlock role)
          {| bl_openaiMessages := openaiMessages;
             bl_openaiPartsForUserMessage := [];
             bl_assistantToolCalls := [];
             bl_textContentForAssistant := [] |}
          content in
      bl_openaiMessages acc
      ++ (if String.eqb role "user"
          then userMessages (bl_openaiPartsForUserMessage acc)
          else [])
      ++ (if String.eqb role "assistant"
          then assistantMessages (bl_textContentForAssistant acc)
                 (bl_assistantToolCalls acc)
          else [])
  end.

Definition convertAnthropicToOpenAIMessages `{Serializer}
    (anthropicMessages : list AnthropicMessage)
    (anthropicSystem : option AnthropicSystem) : list Message :=
  let systemTextContent := systemTextContent anthropicSystem in
  let openaiMessages :=
    if String.eqb systemTextContent "" then []
    else [plainMessage "system" (ContentString systemTextContent)] in
  foldl convertMessage openaiMessages anthropicMessages.

Definition convertAnthropicToolsToOpenAI (anthropicTools : option (list AnthropicTool))
    : option (list Tool) :=
  match anthropicTools with
  | None | Some [] => None
  | Some anthropicTools =>
      Some (map (λ tool,
                   {| tool_type := "function";
                      tool_function :=
                        {| tf_name := at_name tool;
                           tf_description := Some (orElse (at_description tool) "");
                           tf_parameters := Some (at_input_schema tool) |} |})
                anthropicTools)
  end.

(** A tool call that is named by its first fragment. *)
Definition namedToolCall : Upstream :=
  Yield (chunkOf None
           (Some [{| dtc_index := 0;
                     dtc_id := Some "call_1";
                     dtc_function :=
                       Some {| df_name := Some "sum";
                               df_arguments := Some "[1" |} |}])
           None)
    (Yield (chunkOf None (Some [argumentsDelta 0 ",2]"]) (Some "tool_calls"))
       Done).

(** What may follow a chunk with a finish reason: more text, then a
    rejection. *)
Definition lateTraffic : Upstream :=
  Yield (chunkOf (Some "late") None None) (Rejected (ThrownError "socket closed")).

(** ** Vocabulary of the properties of the translators *)

(** The id and the name of a [tool_use] block of a response. *)
Definition toolUseOf (block : ContentBlock) : option (string * string) :=
  match block with
  | ContentBlockToolUse id name _ => Some (id, name)
  | ContentBlockText _ => None
  end.

(** The messages that [getTokenCount] counts as output. *)
Definition countedAsOutput (message : Message) : Prop :=
  msg_role message = "assistant" ∨ msg_role message = "tool".

#[global] Instance countedAsOutput_dec (message : Message)
    : Decision (countedAsOutput message) :=
  decide (msg_role message = "assistant" ∨ msg_role message = "tool").

(** The [system] message that opens the translation, if there is one. *)
Definition systemMessages (anthropicSystem : option AnthropicSystem)
    : list Message :=
  if String.eqb (systemTextContent anthropicSystem) "" then []
  else [plainMessage "system" (ContentString (systemTextContent anthropicSystem))].

(** The [tool] message that a [tool_result] block of a user turn becomes. *)
Definition toolMessageOf `{Serializer} (block : AnthropicBlock) : option Message :=
  match block with
  | BlockToolResult tool_use_id content =>
      Some {| msg_role := "tool";
              msg_content := ContentString (serializeToolResultContent content);
              msg_tool_calls := None;
              msg_tool_call_id := Some tool_use_id;
              msg_name := None |}
  | _ => None
  end.

(** The content part that a block of a user turn becomes: a text block and
    a base64 image give one. *)
Definition userPartOf (block : AnthropicBlock) : option ContentPart :=
  match block with
  | BlockText text =>
      Some {| part_type := "text"; part_text := Some text; part_image_url := None |}
  | BlockImage source =>
      if String.eqb (src_type source) "base64" then
        Some {| part_type := "image_url";
                part_text := None;
                part_image_url :=
                  Some ("data:" +:+ src_media_type source +:+ ";base64,"
                        +:+ src_data source) |}
      else None
  | _ => None
  end.

(** The text that a block of an assistant turn brings. *)
Definition assistantTextOf (block : AnthropicBlock) : option string :=
  match block with
  | BlockText text => Some text
  | _ => None
  end.

(** The tool call that a [tool_use] block of an assistant turn becomes. *)
Definition toolCallOf `{Serializer} (block : AnthropicBlock) : option ToolCall :=
  match block with
  | BlockToolUse id name input =>
      Some {| tc_id := id;
              tc_type := "function";
              tc_function :=
                {| fn_name := name;
                   fn_arguments := default "{}" (JSON_stringify input) |} |}
  | _ => None
  end.

(** A block that a user turn has no use for: a [tool_use] block, an image
    that is not base64, a block of another type. *)
Definition unusedInUserTurn (block : AnthropicBlock) : Prop :=
  match block with
  | BlockText _ | BlockToolResult _ _ => False
  | BlockImage source => src_type source ≠ "base64"
  | BlockToolUse _ _ _ | BlockOther _ => True
  end.

(** A base64 image block. *)
Definition isBase64Image (block : AnthropicBlock) : bool :=
  match block with
  | BlockImage source => String.eqb (src_type source) "base64"
  | _ => false
  end.

(** A text item of a tool result. *)
Definition textItem (text : string) : JSValue :=
  JObj [("type", JStr "text"); ("text", JStr text)].

(** ** Sample inputs of the request side *)

(** [String(v)] on the values of [JSValue]. *)
Fixpoint stringOfValue (v : JSValue) : string :=
  match v with
  | JNull => "null"
  | JBool true => "true"
  | JBool false => "false"
  | JNum n => pretty n
  | JStr s => s
  | JArr items =>
      String.concat ","
        (map (λ item, match item with JNull => "" | _ => stringOfValue item end)
           items)
  | JObj _ => "[object Object]"
  end.

(** A serializer that knows a few values and throws on the others. *)
Definition sampleSerializer : Serializer :=
  {| JSON_stringify := λ v,
       match v with
       | JNull => Some "null"
       | JNum n => Some (pretty n)
       | JArr [] => Some "[]"
       | JObj [] => Some "{}"
       | _ => None
       end;
     stringOf := stringOfValue;
     stringOf_string := λ s, eq_refl |}.

(** A user turn with a question before the result of a tool call. *)
Definition sampleUserTurn : AnthropicMessage :=
  {| am_role := "user";
     am_content :=
       AnthropicBlocks
         [BlockText "what is this?";
          BlockToolResult "call_1" (ResultArray [textItem "42"; JNum 7])] |}.

(** An assistant turn with a text and a tool call. *)
Definition sampleAssistantTurn : AnthropicMessage :=
  {| am_role := "assistant";
     am_content :=
       AnthropicBlocks
         [BlockToolUse "call_1" "sum" (JObj []); BlockText "let me add"] |}.

(** A user turn with nothing but a picture given by its address. *)
Definition samplePictureTurn : AnthropicMessage :=
  {| am_role := "user";
     am_content :=
       AnthropicBlocks
         [BlockImage {| src_type := "url";
                        src_media_type := "image/png";
                        src_data := "https://example.org/a.png" |}] |}.

(** ** [create-chat-completions.ts]: what is done to the messages *)

(** [message] after [intoCopilotMessage(message)], which changes it in
    place. *)
Definition intoCopilotMessage (message : Message) : Message :=
  if String.eqb (msg_role message) "assistant" then message
  else if String.eqb (msg_role message) "tool" then message
  else
    match msg_content message with
    | ContentString _ | ContentNull => message
    | ContentParts parts =>
        {| msg_role := msg_role message;
           msg_content :=
             ContentParts
               (map (λ part,
                       if String.eqb (part_type part) "input_image" then
                         {| part_type := "image_url";
                            part_text := part_text part;
                            part_image_url := part_image_url part |}
                       else part)
                    parts);
           msg_tool_calls := msg_tool_calls message;
           msg_tool_call_id := msg_tool_call_id message;
           msg_name := msg_name message |}
    end.

(** [payload.messages] after the first loop of [createChatCompletions]. *)
Definition copilotMessages (messages : list Message) : list Message :=
  map intoCopilotMessage messages.

(** [visionEnable], computed on the messages that the loop has changed. *)
Definition visionEnable (messages : list Message) : bool :=
  existsb (λ x,
             match msg_content x with
             | ContentParts parts =>
                 existsb (λ x, String.eqb (part_type x) "image_url") parts
             | ContentString _ | ContentNull => false
             end)
    (copilotMessages messages).

(** [toolsEnable] *)
Definition toolsEnable (tools : option (list Tool)) : bool :=
  match tools with
  | Some (_ :: _) => true
  | _ => false
  end.

(** ** [handler.ts]: the choice of the model *)

(** Modelled from the spec: an entry of the cached model list
    [state.models.data], of which the handler reads the [id] and the limit
    [capabilities.limits.max_output_tokens]. *)
Record Model := {
  model_id : string;
  model_max_output_tokens : option Z
}.

(** [toLowerCase] on the letters A to Z.  The other characters are left as
    they are: none of them has a lower case among the letters of
    [claude], the only text that is looked for in the result. *)
Fixpoint toLowerCase (s : string) : string :=
  match s with
  | EmptyString => EmptyString
  | String c rest =>
      let n := Ascii.nat_of_ascii c in
      String (if bool_decide (65 ≤ n ≤ 90)%nat then Ascii.ascii_of_nat (n + 32)
              else c)
        (toLowerCase rest)
  end.

(** [haystack.includes(needle)] *)
Fixpoint includes (needle haystack : string) : bool :=
  String.prefix needle haystack
  || match haystack with
     | EmptyString => false
     | String _ rest => includes needle rest
     end.

(** [models] is [state.models?.data]. *)
Definition selectCopilotModel (models : option (list Model))
    (anthropicModel : string) : string :=
  let modelName := toLowerCase anthropicModel in
  match models with
  | None => "claude-3-5-sonnet-20241022"
  | Some data =>
      match find (λ model, includes "claude" (toLowerCase (model_id model))) data with
      | Some claudeModel => model_id claudeModel
      | None => orElse (model_id <$> head data) "claude-3-5-sonnet-20241022"
      end
  end.

(** A user turn with a base64 image among its blocks. *)
Definition hasBase64Image (msg : AnthropicMessage) : bool :=
  String.eqb (am_role msg) "user"
  && match am_content msg with
     | AnthropicBlocks blocks => existsb isBase64Image blocks
     | AnthropicString _ => false
     end.

(** An image part that [createChatCompletions] takes as one: [image_url]
    anywhere, [input_image] in a message that is not skipped. *)
Definition countsAsImage (message : Message) (part : ContentPart) : Prop :=
  part_type part = "image_url"
  ∨ (part_type part = "input_image"
     ∧ msg_role message ≠ "assistant" ∧ msg_role message ≠ "tool").

(** A cached model list with a model of Anthropic among others. *)
Definition sampleModels : list Model :=
  [{| model_id := "gpt-4o"; model_max_output_tokens := Some 4096%Z |};
   {| model_id := "Claude-Sonnet-4"; model_max_output_tokens := Some 16000%Z |}].

(** A [tool_use] block whose input is an object that [JSON.parse] gets back
    from what [JSON.stringify] makes of it. *)
Definition roundTrips {builtins : Builtins} {serializer : Serializer}
    (block : AnthropicBlock) : Prop :=
  match block with
  | BlockToolUse _ _ input =>
      isNonNullObject input = true
      ∧ ∃ arguments,
          JSON_stringify input = Some arguments
          ∧ JSON_parse arguments = Some input
  | _ => False
  end.

(** A [tool_use] block of a request as a block of a response. *)
Definition responseBlockOf (block : AnthropicBlock) : option ContentBlock :=
  match block with
  | BlockToolUse id name input => Some (ContentBlockToolUse id name input)
  | _ => None
  end.

(** A response whose only choice carries [message]. *)
Definition responseWith (message : Message) (finish_reason : string)
    : ChatCompletionResponse :=
  {| ccr_id := Some "cmpl-1";
     ccr_choices :=
       Some [{| cns_message := message; cns_finish_reason := finish_reason |}] |}.

(** The text and the argument fragments that a choice brings, in the order
    in which the loop counts them. *)
Definition fragmentsOfChoice (choice : Choice) : list string :=
  option_list (textOfChoice choice)
  ++ omap argumentsOf (toolDeltasOfChoice choice).

(** The fragments of a whole stream. *)
Definition fragmentsOf `{Builtins} (openaiStream : Upstream) : list string :=
  concat (map fragmentsOfChoice (consumedChoices openaiStream)).

(** ** [handler.ts]: the token count endpoint *)

(** The body that [handleAnthropicTokenCount] answers with, for a request
    with the given [messages] and [system]. *)
Definition handleAnthropicTokenCount {builtins : Builtins}
    {serializer : Serializer} (messages : list AnthropicMessage)
    (system : option AnthropicSystem) : JSValue :=
  let openaiMessages := convertAnthropicToOpenAIMessages messages system in
  let tokenCount := getTokenCount openaiMessages in
  JObj [("input_tokens", tokenCountObject tokenCount)].

(** Membership in a list that is written out. *)
Ltac list_member :=
  repeat first [apply list_elem_of_here | apply list_elem_of_further].

(** * Properties *)

(** ** The stop-reason table *)

Lemma truthy_Some_inv (o : option string) (s : string) :
  truthy o = Some s → o = Some s ∧ s ≠ "".
Proof.
  destruct o as [t|]; simpl; [|discriminate].
  destruct (String.eqb_spec t ""); [discriminate|].
  intros [= ->]. done.
Qed.

(** Every key of the table, and what a lookup yields. *)
Lemma stop_reason_lookup (reason : string) :
  openaiToAnthropicStopReasonMap !! reason =
    if decide (reason = "stop") then Some "end_turn"
    else if decide (reason = "length") then Some "max_tokens"
    else if decide (reason = "tool_calls") then Some "tool_use"
    else if decide (reason = "function_call") then Some "tool_use"
    else if decide (reason = "content_filter") then Some "stop_sequence"
    else None.
Proof.
  unfold openaiToAnthropicStopReasonMap.
  repeat (case_decide; [subst; reflexivity|]).
  repeat (rewrite lookup_insert_ne by done).
  by apply lookup_singleton_ne.
Qed.

(** What the lookup of the transcoder yields: the value of an own key, the
    inherited member for a property name of [Object.prototype], and
    [end_turn] for every other string. *)
Lemma mapStopReason_cases (reason : string) :
  mapStopReason reason =
    if decide (reason = "stop") then StopReasonString "end_turn"
    else if decide (reason = "length") then StopReasonString "max_tokens"
    else if decide (reason = "tool_calls") then StopReasonString "tool_use"
    else if decide (reason = "function_call") then StopReasonString "tool_use"
    else if decide (reason = "content_filter")
         then StopReasonString "stop_sequence"
    else if bool_decide (reason ∈ objectPrototypeKeys)
         then InheritedMember reason
    else StopReasonString "end_turn".
Proof.
  unfold mapStopReason, lookupStopReason. rewrite stop_reason_lookup.
  repeat (case_decide; [reflexivity|]). reflexivity.
Qed.


Lemma mapStopReason_inherited (reason : string) :
  reason ∈ objectPrototypeKeys → mapStopReason reason = InheritedMember reason.
Proof.
  intros Hin. rewrite mapStopReason_cases.
  assert (Hkeys : Forall (λ key,
    bool_decide
      (key ∈ ["stop"; "length"; "tool_calls"; "function_call"; "content_filter"])
    = false) objectPrototypeKeys)
    by (repeat (constructor; [vm_compute; reflexivity|]); constructor).
  eapply Forall_forall in Hkeys; [|exact Hin].
  apply bool_decide_eq_false_1 in Hkeys.
  do 5 (case_decide; [subst; exfalso; apply Hkeys; list_member|]).
  by rewrite bool_decide_eq_true_2.
Qed.

(** The lookup yields a string exactly on the strings that are no
    property name of [Object.prototype]. *)
Lemma mapStopReason_string (reason : string) :
  reason ∉ objectPrototypeKeys →
  ∃ once : string,
    mapStopReason reason = once
    ∧ once ∈ ["end_turn"; "max_tokens"; "tool_use"; "stop_sequence"]
    ∧ (once = "end_turn"
       ↔ reason ∉ ["length"; "tool_calls"; "function_call"; "content_filter"]).
Proof.
  intros Hown. rewrite mapStopReason_cases.
  rewrite (bool_decide_eq_false_2 _ Hown).
  case_decide.
  { subst. exists "end_turn". split; [done|]. split; [list_member|].
    split; [|done]. intros _ Hin.
    repeat (apply elem_of_cons in Hin as [[=]|Hin]).
    by apply elem_of_nil in Hin. }
  do 4 (case_decide;
        [subst; eexists; split; [reflexivity|]; split; [list_member|];
         split; [done|intros Hn; exfalso; apply Hn; list_member]|]).
  exists "end_turn". split; [done|]. split; [list_member|]. split; [|done].
  intros _ Hin.
  repeat (apply elem_of_cons in Hin as [->|Hin]; [done|]).
  by apply elem_of_nil in Hin.
Qed.



(** ** Tool-choice translation *)

(** C8, as stated: an absent tool-choice is not translated to [auto]; the
    translation returns [undefined] and the payload gets no [tool_choice]. *)
Lemma absent_tool_choice_is_not_auto :
  convertAnthropicToolChoiceToOpenAI None ≠ Some ToolChoiceAuto
  ∧ payloadToolChoice None ≠ Some ToolChoiceAuto.
Proof. split; discriminate. Qed.

Lemma payloadToolChoice_eq (tool_choice : option AnthropicToolChoice) :
  payloadToolChoice tool_choice = convertAnthropicToolChoiceToOpenAI tool_choice.
Proof.
  unfold payloadToolChoice.
  by destruct (convertAnthropicToolChoiceToOpenAI tool_choice).
Qed.

(** C8, amended: [auto] and [any] map to [auto], [tool] with a non-empty
    name maps to the forced-named-tool form, every other tool-choice that
    is present maps to [auto]; an absent tool-choice maps to [undefined],
    and the payload then carries no [tool_choice]. *)
Theorem tool_choice_translation (choice : AnthropicToolChoice) :
  (atc_type choice = "auto"
   → convertAnthropicToolChoiceToOpenAI (Some choice) = Some ToolChoiceAuto)
  ∧ (atc_type choice = "any"
     → convertAnthropicToolChoiceToOpenAI (Some choice) = Some ToolChoiceAuto)
  ∧ (∀ name, atc_type choice = "tool" → atc_name choice = Some name → name ≠ ""
     → convertAnthropicToolChoiceToOpenAI (Some choice)
       = Some (ToolChoiceFunction name))
  ∧ (¬ (atc_type choice = "tool"
        ∧ ∃ name, atc_name choice = Some name ∧ name ≠ "")
     → convertAnthropicToolChoiceToOpenAI (Some choice) = Some ToolChoiceAuto)
  ∧ payloadToolChoice (Some choice)
    = convertAnthropicToolChoiceToOpenAI (Some choice)
  ∧ convertAnthropicToolChoiceToOpenAI None = None
  ∧ payloadToolChoice None = None.
Proof.
  destruct choice as [type name]. simpl.
  split; [intros ->; reflexivity|].
  split; [intros ->; reflexivity|].
  split.
  { intros name' -> -> Hne. simpl. destruct (String.eqb_spec name' ""); done. }
  split.
  { intros Hnot.
    destruct (String.eqb_spec type "auto"); [done|].
    destruct (String.eqb_spec type "any"); [done|].
    destruct (String.eqb_spec type "tool") as [->|]; [|done].
    destruct (truthy name) as [name'|] eqn:Hname; [|done].
    apply truthy_Some_inv in Hname as [-> Hne].
    exfalso. apply Hnot. eauto. }
  split; [|done].
  apply payloadToolChoice_eq.
Qed.

(** ** The response translator *)

Lemma elem_of_concat_map {A B : Type} (f : A → list B) (l : list A)
    (x : A) (y : B) :
  x ∈ l → y ∈ f x → y ∈ concat (map f l).
Proof.
  intros Hx Hy. induction Hx as [x l|x x' l _ IH]; simpl; apply elem_of_app.
  - by left.
  - right. by apply IH.
Qed.

Lemma toolUseBlocks_function `{Builtins} (call : ToolCall) :
  tc_type call = "function" →
  toolUseBlocks call
  = [ContentBlockToolUse (tc_id call) (fn_name (tc_function call))
       (toolInputDict (fn_arguments (tc_function call)))].
Proof. intros Htype. unfold toolUseBlocks. by rewrite Htype. Qed.

Lemma response_content `{Builtins} (response : ChatCompletionResponse)
    (model : string) (requestId : option string) (uuid : string) :
  amr_content (convertOpenAIToAnthropicResponse response model requestId uuid)
  = match producedBlocks response with
    | [] => [ContentBlockText (ContentString "")]
    | blocks => blocks
    end.
Proof.
  unfold convertOpenAIToAnthropicResponse, producedBlocks.
  destruct (ccr_choices response) as [[|choice rest]|]; simpl; try reflexivity.
  destruct (msg_tool_calls (cns_message choice)) as [calls|]; simpl.
  - by destruct (_ ++ _).
  - rewrite app_nil_r. by destruct (textBlocks _).
Qed.

(** C7: a tool call whose arguments parse to an object (arrays included)
    gets the parsed value as its [input]; one whose arguments parse to
    anything else gets [{value: parsed}]; one whose arguments do not parse
    gets [{error_parsing_arguments: arguments}].  The translator is a total
    function: no exception leaves it; the text ["{bad json"] is the
    instance of the last case. *)
Theorem tool_call_input `{Builtins} (response : ChatCompletionResponse)
    (model : string) (requestId : option string) (uuid : string)
    (choice : ChoiceNonStreaming) (rest : list ChoiceNonStreaming)
    (calls : list ToolCall) (call : ToolCall) :
  ccr_choices response = Some (choice :: rest) →
  msg_tool_calls (cns_message choice) = Some calls →
  call ∈ calls →
  tc_type call = "function" →
  ∃ input,
    ContentBlockToolUse (tc_id call) (fn_name (tc_function call)) input
      ∈ amr_content
          (convertOpenAIToAnthropicResponse response model requestId uuid)
    ∧ (∀ parsed, JSON_parse (fn_arguments (tc_function call)) = Some parsed
       → isNonNullObject parsed = true → input = parsed)
    ∧ (∀ parsed, JSON_parse (fn_arguments (tc_function call)) = Some parsed
       → isNonNullObject parsed = false → input = JObj [("value", parsed)])
    ∧ (JSON_parse (fn_arguments (tc_function call)) = None
       → input = JObj [("error_parsing_arguments",
                        JStr (fn_arguments (tc_function call)))])
    ∧ (fn_arguments (tc_function call) = "{bad json"
       → JSON_parse "{bad json" = None
       → input = JObj [("error_parsing_arguments", JStr "{bad json")]).
Proof.
  intros Hchoices Hcalls Hcall Htype.
  exists (toolInputDict (fn_arguments (tc_function call))).
  split.
  { rewrite response_content.
    assert (Hin : ContentBlockToolUse (tc_id call) (fn_name (tc_function call))
                    (toolInputDict (fn_arguments (tc_function call)))
                  ∈ producedBlocks response).
    { unfold producedBlocks. rewrite Hchoices, Hcalls. simpl.
      apply elem_of_app. right.
      apply (elem_of_concat_map _ _ call); [done|].
      rewrite toolUseBlocks_function by done. apply list_elem_of_here. }
    destruct (producedBlocks response); [by apply elem_of_nil in Hin|done]. }
  unfold toolInputDict.
  repeat split.
  - intros parsed -> ->. reflexivity.
  - intros parsed -> ->. reflexivity.
  - intros ->. reflexivity.
  - intros -> ->. reflexivity.
Qed.

Lemma tool_call_input_witness :
  ∃ input,
    ContentBlockToolUse "call_1" "lookup" input
      ∈ amr_content
          (@convertOpenAIToAnthropicResponse sampleBuiltins
             (sampleResponse "{bad json") "claude" None "uuid")
    ∧ input = JObj [("error_parsing_arguments", JStr "{bad json")].
Proof.
  destruct (@tool_call_input sampleBuiltins (sampleResponse "{bad json")
              "claude" None "uuid" _ _ _ _ eq_refl eq_refl
              (list_elem_of_here _ _) eq_refl)
    as (input & Hin & _ & _ & _ & Hbad).
  exists input. split; [exact Hin|].
  apply Hbad; reflexivity.
Defined.

(** C9: the translated content array is never empty; when the message
    yields no text block and no tool-use block (or there is no choice at
    all), it is exactly one empty text block, and otherwise it is the
    blocks the message yields, with nothing added. *)
Theorem response_content_never_empty `{Builtins}
    (response : ChatCompletionResponse) (model : string)
    (requestId : option string) (uuid : string) :
  let content :=
    amr_content (convertOpenAIToAnthropicResponse response model requestId uuid) in
  content ≠ []
  ∧ (producedBlocks response = []
     → content = [ContentBlockText (ContentString "")])
  ∧ (producedBlocks response ≠ [] → content = producedBlocks response)
  ∧ (∀ choice rest,
       ccr_choices response = Some (choice :: rest)
       → msg_content (cns_message choice) = ContentNull
         ∨ msg_content (cns_message choice) = ContentString ""
       → msg_tool_calls (cns_message choice) = None
         ∨ msg_tool_calls (cns_message choice) = Some []
       → content = [ContentBlockText (ContentString "")])
  ∧ (ccr_choices response = None ∨ ccr_choices response = Some []
     → content = [ContentBlockText (ContentString "")]).
Proof.
  intros content. subst content. rewrite response_content.
  split; [by destruct (producedBlocks response)|].
  split; [by intros ->|].
  split; [by destruct (producedBlocks response)|].
  split.
  - intros choice rest Hchoices Hcontent Hcalls.
    unfold producedBlocks. rewrite Hchoices.
    by destruct Hcontent as [-> | ->], Hcalls as [-> | ->].
  - unfold producedBlocks. by intros [-> | ->].
Qed.

(** ** The loop of the transcoder *)

Lemma openIn_mono (st st' : TranscoderState) (event : AnthropicStreamEvent) :
  (∀ i, textBlockAnthropicIdx st = Some i → textBlockAnthropicIdx st' = Some i) →
  (∀ i, i ∈ sentToolBlockStarts st → i ∈ sentToolBlockStarts st') →
  openIn st event → openIn st' event.
Proof.
  intros Htext Hsent.
  destruct event as [| |i [|]|i [|]| | | |]; simpl; auto.
Qed.

Lemma Inv_initial : Inv [] initialState [].
Proof.
  split; simpl; try done.
  - intros j Hj. by apply elem_of_nil in Hj.
  - constructor.
Qed.

Lemma addFirstUse_elem (keys : list BlockKey) (key : BlockKey) :
  key ∈ keys → addFirstUse keys key = keys.
Proof. intros Hin. unfold addFirstUse. by rewrite decide_True. Qed.

Lemma addFirstUse_fresh (keys : list BlockKey) (key : BlockKey) :
  key ∉ keys → addFirstUse keys key = keys ++ [key].
Proof. intros Hin. unfold addFirstUse. by rewrite decide_False. Qed.

(** The text uses of a delta. *)
Lemma handleText_spec (keys : list BlockKey) (st : TranscoderState)
    (events : list AnthropicStreamEvent) (content : option string) :
  Inv keys st events →
  let keys' :=
    match truthy content with
    | Some _ => addFirstUse keys TextKey
    | None => keys
    end in
  let st' := (handleText st content).1 in
  Inv keys' st' (events ++ (handleText st content).2)
  ∧ openaiToolIdxToAnthropicBlockIdx st' = openaiToolIdxToAnthropicBlockIdx st
  ∧ toolStates st' = toolStates st
  ∧ sentToolBlockStarts st' = sentToolBlockStarts st
  ∧ finalAnthropicStopReason st' = finalAnthropicStopReason st
  ∧ outputTokenCount st' = outputTokenCount st + estimateOfText content.
Proof.
  intros HInv.
  pose proof HInv as [Hlen Htext Htool Hstates Hsent Hnodup Hevents Hstarts].
  unfold handleText, estimateOfText.
  destruct (truthy content) as [text|]; simpl.
  2: { rewrite app_nil_r, Nat.add_0_r. by repeat (split; [done|]). }
  destruct (textBlockAnthropicIdx st) as [idx|] eqn:Hidx; simpl.
  - (* the text block is open *)
    rewrite addFirstUse_elem
      by (apply list_elem_of_lookup; exists idx; by apply Htext).
    assert (Hmono : ∀ tokens e, openIn st e → openIn
      {| nextAnthropicBlockIdx := nextAnthropicBlockIdx st;
         textBlockAnthropicIdx := Some idx;
         openaiToolIdxToAnthropicBlockIdx := openaiToolIdxToAnthropicBlockIdx st;
         toolStates := toolStates st;
         sentToolBlockStarts := sentToolBlockStarts st;
         outputTokenCount := tokens;
         finalAnthropicStopReason := finalAnthropicStopReason st |} e).
    { intros tokens e. apply openIn_mono; simpl; [by rewrite Hidx|done]. }
    repeat split; simpl; try done.
    + apply Htext.
    + apply Htext.
    + apply Htool.
    + apply Htool.
    + apply Forall_app. split.
      * eapply Forall_impl; [exact Hevents|]. apply Hmono.
      * by repeat constructor.
    + rewrite omap_app. simpl. rewrite app_nil_r.
      rewrite Hstarts. unfold opened. simpl. by rewrite Hidx.
  - (* the text block is opened now *)
    assert (Hfresh : TextKey ∉ keys).
    { intros [j Hj]%list_elem_of_lookup. apply Htext in Hj. congruence. }
    rewrite addFirstUse_fresh by done.
    repeat split; simpl; try done.
    + rewrite length_app. simpl. lia.
    + intros [[Hj Hk]|[-> _]]%lookup_snoc_Some.
      * apply Htext in Hk. congruence.
      * by rewrite Hlen.
    + intros [= <-]. rewrite <- Hlen. apply lookup_snoc_Some. by right.
    + intros [[Hj Hk]|[_ [=]]]%lookup_snoc_Some. by apply Htool.
    + intros Hk. apply lookup_snoc_Some. left.
      apply Htool in Hk. split; [by eapply lookup_lt_Some|done].
    + apply Forall_app. split.
      * eapply Forall_impl; [exact Hevents|].
        intros e. apply openIn_mono; simpl; [by rewrite Hidx|done].
      * by repeat constructor.
    + rewrite omap_app. simpl. rewrite Hstarts. unfold opened. simpl.
      rewrite Hidx. simpl. by rewrite <- Permutation_cons_append.
Qed.

Lemma Inv_index_lt (keys : list BlockKey) (st : TranscoderState)
    (events : list AnthropicStreamEvent) (k : Z) (j : nat) :
  Inv keys st events →
  openaiToolIdxToAnthropicBlockIdx st !! k = Some j →
  j < nextAnthropicBlockIdx st.
Proof.
  intros HInv Hk. rewrite <- (inv_length _ _ _ HInv).
  apply (inv_tool _ _ _ HInv) in Hk. by eapply lookup_lt_Some.
Qed.

Lemma Inv_next_not_sent (keys : list BlockKey) (st : TranscoderState)
    (events : list AnthropicStreamEvent) :
  Inv keys st events →
  nextAnthropicBlockIdx st ∉ sentToolBlockStarts st.
Proof.
  intros HInv Hin. apply (inv_sent _ _ _ HInv) in Hin as [k Hk].
  eapply Inv_index_lt in Hk; [|done]. lia.
Qed.

Lemma Inv_index_inj (keys : list BlockKey) (st : TranscoderState)
    (events : list AnthropicStreamEvent) (k k' : Z) (j : nat) :
  Inv keys st events →
  openaiToolIdxToAnthropicBlockIdx st !! k = Some j →
  openaiToolIdxToAnthropicBlockIdx st !! k' = Some j →
  k = k'.
Proof.
  intros HInv Hk Hk'.
  apply (inv_tool _ _ _ HInv) in Hk, Hk'. congruence.
Qed.

Section tool_delta.
Context `{Builtins} (requestId : string).

Lemma allocateToolBlock_spec (keys : list BlockKey) (st : TranscoderState)
    (events : list AnthropicStreamEvent) (toolDelta : DeltaToolCall) :
  Inv keys st events →
  let st' := allocateToolBlock requestId st toolDelta in
  Inv (addFirstUse keys (ToolKey (dtc_index toolDelta))) st' events
  ∧ is_Some (openaiToolIdxToAnthropicBlockIdx st' !! dtc_index toolDelta)
  ∧ finalAnthropicStopReason st' = finalAnthropicStopReason st
  ∧ outputTokenCount st' = outputTokenCount st
  ∧ (∀ k P Q, Sticky P Q → (dtc_index toolDelta = k → Q toolDelta)
       → Stuck k P st → Stuck k P st').
Proof.
  intros HInv.
  pose proof HInv as [Hlen Htext Htool Hstates Hsent Hnodup Hevents Hstarts].
  unfold allocateToolBlock.
  destruct (openaiToolIdxToAnthropicBlockIdx st !! dtc_index toolDelta)
    as [cur|] eqn:Hcur; simpl.
  - rewrite addFirstUse_elem
      by (apply list_elem_of_lookup; exists cur; by apply Htool).
    rewrite Hcur. by eauto 10.
  - assert (Hfresh : ToolKey (dtc_index toolDelta) ∉ keys).
    { intros [j Hj]%list_elem_of_lookup. apply Htool in Hj. congruence. }
    rewrite addFirstUse_fresh by done.
    split; [split; simpl; try done|].
    + rewrite length_app. simpl. lia.
    + intros j. rewrite lookup_snoc_Some, <- Htext.
      split; [intros [[_ ?]|[_ [=]]]; done|].
      intros Hj. left. split; [by eapply lookup_lt_Some|done].
    + intros j k. rewrite lookup_snoc_Some, lookup_insert_Some, <- Htool.
      split.
      * intros [[_ Hk]|[-> [= ->]]]; [|left; by rewrite Hlen].
        right. split; [|done]. intros <-. apply Htool in Hk. congruence.
      * intros [[<- <-]|[_ Hk]]; [right; by rewrite Hlen|].
        left. split; [by eapply lookup_lt_Some|done].
    + intros k j [[<- <-]|[_ Hk]]%lookup_insert_Some.
      * rewrite lookup_insert_eq. by eexists.
      * rewrite lookup_insert_is_Some. right.
        split; [|by eapply Hstates].
        eapply Inv_index_lt in Hk; [|done]. lia.
    + intros j Hj. destruct (Hsent j Hj) as [k Hk]. exists k.
      rewrite lookup_insert_ne; [done|]. intros <-. congruence.
    + rewrite lookup_insert_eq.
      split; [by eexists|]. split; [done|]. split; [done|].
      intros k P Q HPQ HQ Hstuck j. simpl.
      intros [[<- <-]|[Hne Hk]]%lookup_insert_Some.
      * split; [by eapply Inv_next_not_sent|].
        rewrite lookup_insert_eq. eexists. split; [done|].
        by apply (sticky_new _ _ HPQ), HQ.
      * destruct (Hstuck j Hk) as [Hnot (ts & Hts & HP)].
        split; [done|]. exists ts. split; [|done].
        rewrite lookup_insert_ne; [done|].
        eapply Inv_index_lt in Hk; [|done]. lia.
Qed.

Lemma emitToolDelta_spec (keys : list BlockKey) (st : TranscoderState)
    (events : list AnthropicStreamEvent) (toolDelta : DeltaToolCall)
    (cur : nat) (toolState : ToolState) :
  Inv keys st events →
  openaiToolIdxToAnthropicBlockIdx st !! dtc_index toolDelta = Some cur →
  toolStates st !! cur = Some toolState →
  let result := emitToolDelta st cur toolState toolDelta in
  Inv keys result.1 (events ++ result.2)
  ∧ finalAnthropicStopReason result.1 = finalAnthropicStopReason st
  ∧ outputTokenCount result.1
    = outputTokenCount st + estimateOfToolDelta toolDelta
  ∧ (∀ k P Q, Sticky P Q → (dtc_index toolDelta = k → Q toolDelta)
       → Stuck k P st → Stuck k P result.1).
Proof.
  intros HInv Hcur Hts.
  pose proof HInv as [Hlen Htext Htool Hstates Hsent Hnodup Hevents Hstarts].
  unfold emitToolDelta, estimateOfToolDelta.
  set (toolState' := updateToolState toolDelta toolState).
  set (starts := negb (bool_decide (cur ∈ sentToolBlockStarts st))
                 && canStart toolState').
  set (sent := if starts then sentToolBlockStarts st ++ [cur]
               else sentToolBlockStarts st).
  assert (Hsent_eq : sent = sentToolBlockStarts st ++ if starts then [cur] else []).
  { unfold sent. destruct starts; [done|by rewrite app_nil_r]. }
  assert (Hnodup' : NoDup sent).
  { unfold sent, starts.
    destruct (bool_decide_reflect (cur ∈ sentToolBlockStarts st)); simpl;
      [done|].
    destruct (canStart toolState'); [|done].
    apply NoDup_app. split; [done|]. split; [|apply NoDup_singleton].
    intros i Hi Hi'%list_elem_of_singleton. by subst i. }
  assert (Hcan : canStart toolState' = false → starts = false).
  { intros Hcan. unfold starts. by rewrite Hcan, andb_false_r. }
  clearbody sent starts.
  assert (Hsub : ∀ i, i ∈ sentToolBlockStarts st → i ∈ sent).
  { intros i Hi. rewrite Hsent_eq. apply elem_of_app. by left. }
  assert (Hsent' : ∀ i, i ∈ sent
                   → i ∈ sentToolBlockStarts st ∨ (i = cur ∧ starts = true)).
  { intros i. rewrite Hsent_eq. intros [?|Hi]%elem_of_app; [by left|].
    destruct starts; [|by apply elem_of_nil in Hi].
    apply list_elem_of_singleton in Hi. by right. }
  simpl. split; [split; simpl; try done|].
  - intros k j Hk. rewrite lookup_insert_is_Some'. right. by eapply Hstates.
  - intros j [Hj|[-> _]]%Hsent'; [by apply Hsent|by eexists].
  - apply Forall_app. split.
    + eapply Forall_impl; [exact Hevents|].
      intros e. by apply openIn_mono.
    + apply Forall_app. split.
      * destruct starts eqn:Hs; [|constructor].
        repeat constructor. simpl. rewrite Hsent_eq.
        apply elem_of_app. right. apply list_elem_of_here.
      * destruct (argumentsOf toolDelta); [|constructor].
        destruct (bool_decide_reflect (cur ∈ sent)); by repeat constructor.
  - rewrite !omap_app, Hstarts. unfold opened. simpl.
    rewrite <- app_assoc. f_equiv.
    assert (Hnone : omap startIndexOf
              match argumentsOf toolDelta with
              | Some arguments =>
                  if bool_decide (cur ∈ sent)
                  then [ContentBlockDelta cur (InputJsonDelta arguments)]
                  else []
              | None => []
              end = []).
    { destruct (argumentsOf toolDelta); [|done]. by destruct (bool_decide _). }
    rewrite Hnone, app_nil_r, Hsent_eq. by destruct starts.
  - split; [done|]. split.
    { destruct (argumentsOf toolDelta); simpl; lia. }
    intros k P Q HPQ HQ Hstuck j. simpl. intros Hk.
    destruct (Hstuck j Hk) as [Hnot (ts & Htsj & HP)].
    destruct (decide (k = dtc_index toolDelta)) as [->|Hne].
    + assert (j = cur) as -> by congruence.
      assert (ts = toolState) as -> by congruence.
      assert (HP' : P toolState') by (by apply (sticky_update _ _ HPQ); auto).
      assert (Hs : starts = false)
        by (by apply Hcan, (sticky_stuck _ _ HPQ)).
      split.
      * intros [?|[_ ?]]%Hsent'; [done|congruence].
      * rewrite lookup_insert_eq. by eexists.
    + assert (j ≠ cur).
      { intros ->. apply Hne. by eapply Inv_index_inj. }
      split.
      * intros [?|[? _]]%Hsent'; done.
      * rewrite lookup_insert_ne by done. by eexists.
Qed.

Lemma handleToolDelta_spec (keys : list BlockKey) (st : TranscoderState)
    (events : list AnthropicStreamEvent) (toolDelta : DeltaToolCall) :
  Inv keys st events →
  ∃ st' new,
    handleToolDelta requestId st toolDelta = inr (st', new)
    ∧ Inv (addFirstUse keys (ToolKey (dtc_index toolDelta))) st' (events ++ new)
    ∧ finalAnthropicStopReason st' = finalAnthropicStopReason st
    ∧ outputTokenCount st'
      = outputTokenCount st + estimateOfToolDelta toolDelta
    ∧ (∀ k P Q, Sticky P Q → (dtc_index toolDelta = k → Q toolDelta)
         → Stuck k P st → Stuck k P st').
Proof.
  intros HInv.
  destruct (allocateToolBlock_spec keys st events toolDelta HInv)
    as (HInv1 & [cur Hcur] & Hstop1 & Htokens1 & Hstuck1).
  destruct (inv_states _ _ _ HInv1 _ _ Hcur) as [toolState Hts].
  destruct (emitToolDelta_spec _ _ _ toolDelta cur toolState HInv1 Hcur Hts)
    as (HInv2 & Hstop2 & Htokens2 & Hstuck2).
  unfold handleToolDelta. rewrite Hcur, Hts.
  destruct (emitToolDelta _ cur toolState toolDelta) as [st' new].
  exists st', new. simpl in *.
  split; [done|]. split; [done|].
  split; [congruence|]. split; [congruence|].
  intros k P Q HPQ HQ Hstuck. eauto.
Qed.
End tool_delta.

Lemma sum_list_append (l1 l2 : list nat) :
  sum_list (l1 ++ l2) = (sum_list l1 + sum_list l2)%nat.
Proof. induction l1 as [|n l1 IH]; simpl; [done|rewrite IH; lia]. Qed.

Lemma tool_calls_override (reason : string) :
  (if String.eqb reason "tool_calls" then StopReasonString "tool_use"
   else mapStopReason reason)
  = mapStopReason reason.
Proof. by destruct (String.eqb_spec reason "tool_calls") as [->|]. Qed.

Lemma handleFinishReason_spec (keys : list BlockKey) (st : TranscoderState)
    (events : list AnthropicStreamEvent) (finish_reason : option string) :
  Inv keys st events →
  let result := handleFinishReason st finish_reason in
  Inv keys result.1 events
  ∧ result.2 = match truthy finish_reason with
               | Some _ => Break
               | None => Continue
               end
  ∧ finalAnthropicStopReason result.1
    = match truthy finish_reason with
      | Some reason => mapStopReason reason
      | None => finalAnthropicStopReason st
      end
  ∧ outputTokenCount result.1 = outputTokenCount st
  ∧ (∀ k P, Stuck k P st → Stuck k P result.1).
Proof.
  intros HInv. unfold handleFinishReason.
  destruct (truthy finish_reason) as [reason|]; simpl; [|done].
  split; [by destruct HInv|]. split; [done|].
  split; [apply tool_calls_override|done].
Qed.

Section loop.
Context `{Builtins} (requestId : string).

Lemma handleToolDeltas_spec (toolDeltas : list DeltaToolCall) :
  ∀ (keys : list BlockKey) (st : TranscoderState)
    (events : list AnthropicStreamEvent),
  Inv keys st events →
  ∃ st' new,
    handleToolDeltas requestId st toolDeltas = (new, inr st')
    ∧ Inv (foldl addFirstUse keys
             (map (λ toolDelta, ToolKey (dtc_index toolDelta)) toolDeltas))
        st' (events ++ new)
    ∧ finalAnthropicStopReason st' = finalAnthropicStopReason st
    ∧ outputTokenCount st'
      = outputTokenCount st + sum_list (map estimateOfToolDelta toolDeltas)
    ∧ (∀ k P Q, Sticky P Q
         → Forall (λ toolDelta, dtc_index toolDelta = k → Q toolDelta) toolDeltas
         → Stuck k P st → Stuck k P st').
Proof.
  induction toolDeltas as [|toolDelta rest IH]; intros keys st events HInv.
  - exists st, []. simpl. rewrite app_nil_r, Nat.add_0_r. by eauto.
  - destruct (handleToolDelta_spec requestId keys st events toolDelta HInv)
      as (st1 & new1 & Hstep & HInv1 & Hstop1 & Htokens1 & Hstuck1).
    destruct (IH _ _ _ HInv1)
      as (st2 & new2 & Hrest & HInv2 & Hstop2 & Htokens2 & Hstuck2).
    exists st2, (new1 ++ new2). simpl. rewrite Hstep, Hrest.
    split; [done|]. split; [by rewrite app_assoc|].
    split; [congruence|]. split; [lia|].
    intros k P Q HPQ [HQ HQs]%Forall_cons Hstuck. eauto.
Qed.

(** The loop over [tool_calls] handles the deltas before the first one
    that is [null] or [undefined], and raises on that one. *)
Lemma handleToolCalls_handled (tool_calls : list (Nullable DeltaToolCall)) :
  ∀ st : TranscoderState,
  handleToolCalls requestId st tool_calls
  = ((handleToolDeltas requestId st (handledToolCalls tool_calls)).1,
     match (handleToolDeltas requestId st (handledToolCalls tool_calls)).2,
           raisedByToolCalls tool_calls with
     | inl error, _ => inl error
     | inr _, Some error => inl error
     | inr st', None => inr st'
     end).
Proof.
  induction tool_calls as [|[| |toolDelta] rest IH]; intros st; simpl;
    [done..|].
  destruct (handleToolDelta requestId st toolDelta) as [error|[st1 new]];
    [done|].
  rewrite IH.
  by destruct (handleToolDeltas requestId st1 (handledToolCalls rest))
    as [more [error|st2]].
Qed.

Lemma choiceOf_Some (chunk : RawChunk) (choice : Choice) :
  choiceOf chunk = Some choice ↔ firstChoice chunk = inr (Some choice).
Proof.
  unfold choiceOf.
  destruct (firstChoice chunk) as [error|[other|]]; split; congruence.
Qed.

(** The loop body, by what the chunk brings: the text is handled, then the
    tool-call deltas that are present, then the finish reason, unless an
    exception is raised on the way. *)
Lemma handleChunk_eq (st : TranscoderState) (chunk : RawChunk) :
  handleChunk requestId st chunk
  = match choiceOf chunk with
    | Some choice =>
        let text := handleText st (contentOfChoice choice) in
        let calls :=
          handleToolDeltas requestId text.1 (toolDeltasOfChoice choice) in
        (match choice_delta choice with
         | Present _ => text.2 ++ calls.1
         | _ => []
         end,
         match calls.2, raisedBy chunk with
         | inl error, _ => inl error
         | inr _, Some error => inl error
         | inr st', None =>
             inr (handleFinishReason st' (choice_finish_reason choice))
         end)
    | None =>
        ([], match raisedBy chunk with
             | Some error => inl error
             | None => inr (st, Continue)
             end)
    end.
Proof.
  unfold handleChunk, choiceOf, raisedBy, contentOfChoice, toolDeltasOfChoice.
  destruct (firstChoice chunk) as [error|[choice|]]; [done| |done].
  destruct (choice_delta choice) as [| |delta]; simpl; [done..|].
  destruct (handleText st (delta_content delta)) as [st1 new1]. simpl.
  destruct (delta_tool_calls delta) as [tool_calls|]; simpl; [|done].
  rewrite handleToolCalls_handled.
  destruct (handleToolDeltas requestId st1 (handledToolCalls tool_calls))
    as [new2 [error|st2]]; simpl; [done|].
  by destruct (raisedByToolCalls tool_calls).
Qed.

(** A choice whose delta is [null] or [undefined] makes the body raise. *)
Lemma raisedBy_absent_delta (chunk : RawChunk) (choice : Choice) :
  choiceOf chunk = Some choice →
  (∀ delta, choice_delta choice ≠ Present delta) →
  is_Some (raisedBy chunk)
  ∧ contentOfChoice choice = None ∧ toolDeltasOfChoice choice = [].
Proof.
  intros Hchoice%choiceOf_Some Hdelta.
  unfold raisedBy, contentOfChoice, toolDeltasOfChoice. rewrite Hchoice.
  destruct (choice_delta choice) as [| |delta]; simpl; [by eauto..|].
  by destruct (Hdelta delta).
Qed.

Lemma handleChunk_spec (keys : list BlockKey) (st : TranscoderState)
    (events : list AnthropicStreamEvent) (chunk : RawChunk) :
  Inv keys st events →
  ∃ st' new,
    handleChunk requestId st chunk
    = (new, match raisedBy chunk with
            | Some error => inl error
            | None => inr (st', if goesOn chunk then Continue else Break)
            end)
    ∧ Inv (foldl addFirstUse keys (from_option usesOfChoice [] (choiceOf chunk)))
        st' (events ++ new)
    ∧ finalAnthropicStopReason st'
      = match raisedBy chunk, finishOf chunk with
        | None, Some reason => mapStopReason reason
        | _, _ => finalAnthropicStopReason st
        end
    ∧ outputTokenCount st'
      = outputTokenCount st + from_option estimateOfChoice 0 (choiceOf chunk)
    ∧ (∀ k P Q, Sticky P Q
         → Forall (λ toolDelta, dtc_index toolDelta = k → Q toolDelta)
             (from_option toolDeltasOfChoice [] (choiceOf chunk))
         → Stuck k P st → Stuck k P st').
Proof.
  intros HInv. rewrite handleChunk_eq. unfold goesOn, finishOf.
  destruct (choiceOf chunk) as [choice|] eqn:Hchoice; simpl.
  2: { exists st, []. rewrite app_nil_r, Nat.add_0_r.
       split; [by destruct (raisedBy chunk)|].
       split; [done|]. split; [by destruct (raisedBy chunk)|]. by eauto. }
  destruct (handleText_spec keys st events (contentOfChoice choice) HInv)
    as (HInv1 & Hmap1 & Hstates1 & Hsent1 & Hstop1 & Htokens1).
  destruct (handleText st (contentOfChoice choice)) as [st1 new1]. simpl in *.
  assert (Hstuck1 : ∀ k P, Stuck k P st → Stuck k P st1).
  { intros k P Hstuck j. rewrite Hmap1, Hsent1, Hstates1. apply Hstuck. }
  set (keys1 := match truthy (contentOfChoice choice) with
                | Some _ => addFirstUse keys TextKey
                | None => keys
                end) in *.
  assert (Hkeys : ∀ uses,
    foldl addFirstUse keys
      (match truthy (contentOfChoice choice) with
       | Some _ => [TextKey]
       | None => []
       end ++ uses)
    = foldl addFirstUse keys1 uses).
  { intros uses. unfold keys1. by destruct (truthy _). }
  unfold usesOfChoice, estimateOfChoice. rewrite Hkeys.
  destruct (handleToolDeltas_spec (toolDeltasOfChoice choice) _ _ _ HInv1)
    as (st2 & new2 & Hcalls & HInv2 & Hstop2 & Htokens2 & Hstuck2).
  rewrite Hcalls. simpl.
  destruct (choice_delta choice) as [| |delta] eqn:Hdelta.
  1, 2: destruct (raisedBy_absent_delta chunk choice Hchoice)
          as ([error Herror] & Hcontent & Hcalls');
          [by rewrite Hdelta|];
        rewrite Herror; exists st, []; rewrite app_nil_r;
        unfold keys1; rewrite Hcontent, Hcalls'; simpl;
        rewrite Nat.add_0_r; by eauto 10.
  destruct (raisedBy chunk) as [error|].
  { exists st2, (new1 ++ new2).
    split; [done|]. split; [by rewrite app_assoc|].
    split; [congruence|]. split; [lia|].
    intros k P Q HPQ HQ Hstuck. eauto. }
  destruct (handleFinishReason_spec _ st2 _ (choice_finish_reason choice) HInv2)
    as (HInv3 & Hflow & Hstop3 & Htokens3 & Hstuck3).
  destruct (handleFinishReason st2 (choice_finish_reason choice))
    as [st3 flow]. simpl in *.
  exists st3, (new1 ++ new2).
  split; [by subst flow; destruct (truthy (choice_finish_reason choice))|].
  split; [by rewrite app_assoc|].
  split.
  { rewrite Hstop3. destruct (truthy (choice_finish_reason choice)); congruence. }
  split; [lia|].
  intros k P Q HPQ HQ Hstuck. eauto.
Qed.

Lemma forAwait_spec (openaiStream : Upstream) :
  ∀ (keys : list BlockKey) (st : TranscoderState)
    (events : list AnthropicStreamEvent),
  Inv keys st events →
  ∃ st',
    Inv (foldl addFirstUse keys
           (concat (map usesOfChoice (consumedChoices openaiStream))))
      st' (events ++ (forAwait requestId st openaiStream).1)
    ∧ (forAwait requestId st openaiStream).2
      = match failure openaiStream with
        | Some error => inl error
        | None => inr st'
        end
    ∧ finalAnthropicStopReason st'
      = match finishReasonOf openaiStream with
        | Some reason => mapStopReason reason
        | None => finalAnthropicStopReason st
        end
    ∧ outputTokenCount st'
      = outputTokenCount st
        + sum_list (map estimateOfChoice (consumedChoices openaiStream))
    ∧ (∀ k P Q, Sticky P Q
         → Forall (λ toolDelta, dtc_index toolDelta = k → Q toolDelta)
             (concat (map toolDeltasOfChoice (consumedChoices openaiStream)))
         → Stuck k P st → Stuck k P st').
Proof.
  induction openaiStream as [|error|chunk rest IH]; intros keys st events HInv.
  - exists st. simpl. rewrite app_nil_r, Nat.add_0_r. by eauto.
  - exists st. simpl. rewrite app_nil_r, Nat.add_0_r. by eauto.
  - destruct (handleChunk_spec keys st events chunk HInv)
      as (st1 & new1 & Hchunk & HInv1 & Hstop1 & Htokens1 & Hstuck1).
    simpl. rewrite Hchunk. unfold goesOn in *.
    assert (Huses : ∀ {A} (f : Choice → list A),
      from_option f [] (choiceOf chunk)
      = concat (map f (option_list (choiceOf chunk)))).
    { intros A f. destruct (choiceOf chunk); simpl; by rewrite ?app_nil_r. }
    assert (Hestimate : from_option estimateOfChoice 0 (choiceOf chunk)
      = sum_list (map estimateOfChoice (option_list (choiceOf chunk)))).
    { destruct (choiceOf chunk); simpl; lia. }
    rewrite Huses in HInv1. rewrite Hestimate in Htokens1.
    destruct (raisedBy chunk) as [error|];
      [|destruct (finishOf chunk) as [reason|]].
    + exists st1. simpl. rewrite !app_nil_r.
      split; [done|]. split; [done|]. split; [done|]. split; [done|].
      intros k P Q HPQ HQ Hstuck.
      apply (Hstuck1 k P Q HPQ); [by rewrite Huses|done].
    + exists st1. simpl. rewrite !app_nil_r.
      split; [done|]. split; [done|]. split; [done|]. split; [done|].
      intros k P Q HPQ HQ Hstuck.
      apply (Hstuck1 k P Q HPQ); [by rewrite Huses|done].
    + destruct (IH _ _ _ HInv1)
        as (st2 & HInv2 & Hresult2 & Hstop2 & Htokens2 & Hstuck2).
      destruct (forAwait requestId st1 rest) as [new2 result]. simpl in *.
      exists st2.
      rewrite map_app, concat_app, foldl_app, app_assoc, map_app, sum_list_append.
      split; [done|]. split; [done|].
      split; [by rewrite Hstop2, Hstop1|]. split; [lia|].
      intros k P Q HPQ HQ Hstuck.
      rewrite map_app, concat_app in HQ.
      apply Forall_app in HQ as [HQ1 HQ2].
      apply (Hstuck2 k P Q HPQ HQ2).
      apply (Hstuck1 k P Q HPQ); [by rewrite Huses|done].
Qed.
End loop.

Section rejection.
Context `{Builtins} (requestId : string).

(** The loop throws what the upstream rejects with, or the [TypeError]
    that a chunk raises: its own reads of the two maps never fail. *)
Lemma forAwait_failure (openaiStream : Upstream) (st : TranscoderState)
    (keys : list BlockKey) (events : list AnthropicStreamEvent) :
  Inv keys st events →
  match failure openaiStream with
  | Some error => (forAwait requestId st openaiStream).2 = inl error
  | None => ∃ st', (forAwait requestId st openaiStream).2 = inr st'
  end.
Proof.
  intros HInv.
  destruct (forAwait_spec requestId openaiStream keys st events HInv)
    as (st' & _ & -> & _).
  destruct (failure openaiStream); by eauto.
Qed.

Lemma terminatesNormally_iff (openaiStream : Upstream) :
  terminatesNormally openaiStream requestId ↔ failure openaiStream = None.
Proof.
  unfold terminatesNormally, streamLoop.
  pose proof (forAwait_failure openaiStream initialState [] [] Inv_initial)
    as Hfailure.
  destruct (failure openaiStream) as [error|].
  - rewrite Hfailure. split; [by intros [st [=]]|done].
  - done.
Qed.

Lemma rejection_failure (openaiStream : Upstream) (error : Thrown) :
  rejection openaiStream = Some error → failure openaiStream = Some error.
Proof.
  induction openaiStream as [|other|chunk rest IH]; simpl; [done..|].
  unfold goesOn. destruct (raisedBy chunk); [done|].
  by destruct (finishOf chunk).
Qed.

Lemma endsWithoutFinishReason_finishReasonOf (openaiStream : Upstream) :
  endsWithoutFinishReason openaiStream = true →
  finishReasonOf openaiStream = None.
Proof.
  induction openaiStream as [|error|chunk rest IH]; simpl; [done..|].
  destruct (finishOf chunk); [done|]. intros Hend.
  destruct (raisedBy chunk); [done|]. by apply IH.
Qed.

(** When no chunk carries a finish reason and the upstream is exhausted,
    an exception can only come from a chunk. *)
Lemma endsWithoutFinishReason_failure (openaiStream : Upstream) (error : Thrown) :
  endsWithoutFinishReason openaiStream = true →
  failure openaiStream = Some error →
  ∃ chunk, chunk ∈ chunksOf openaiStream ∧ raisedBy chunk = Some error.
Proof.
  induction openaiStream as [|other|chunk rest IH]; simpl; [done..|].
  unfold goesOn. destruct (finishOf chunk); [done|]. intros Hend.
  destruct (raisedBy chunk) as [raised|] eqn:Hraised.
  - intros [= ->]. exists chunk. split; [apply list_elem_of_here|done].
  - intros Hfailure. destruct (IH Hend Hfailure) as (other & Hin & Hother).
    exists other. split; [by apply list_elem_of_further|done].
Qed.
End rejection.

(** ** Properties carried along the loop *)

(** A property [R] of the tool-call deltas handled so far, the state and
    the events yielded so far that every step of the loop body keeps is
    kept by the loop. *)
Section carried.
Context `{Builtins} (requestId : string).
Variable R : list DeltaToolCall → TranscoderState
             → list AnthropicStreamEvent → Prop.
Hypothesis R_text : ∀ keys handled st events content,
  Inv keys st events → R handled st events →
  R handled (handleText st content).1 (events ++ (handleText st content).2).
Hypothesis R_tool : ∀ keys handled st st' events new toolDelta,
  Inv keys st events →
  handleToolDelta requestId st toolDelta = inr (st', new) →
  R handled st events → R (handled ++ [toolDelta]) st' (events ++ new).
Hypothesis R_finish : ∀ handled st events finish_reason,
  R handled st events →
  R handled (handleFinishReason st finish_reason).1 events.

Lemma handleToolDeltas_carries (toolDeltas : list DeltaToolCall) :
  ∀ (keys : list BlockKey) (st : TranscoderState)
    (events : list AnthropicStreamEvent) (handled : list DeltaToolCall),
  Inv keys st events → R handled st events →
  ∃ st',
    (handleToolDeltas requestId st toolDeltas).2 = inr st'
    ∧ Inv (foldl addFirstUse keys
             (map (λ toolDelta, ToolKey (dtc_index toolDelta)) toolDeltas))
        st' (events ++ (handleToolDeltas requestId st toolDeltas).1)
    ∧ R (handled ++ toolDeltas) st'
        (events ++ (handleToolDeltas requestId st toolDeltas).1).
Proof.
  induction toolDeltas as [|toolDelta rest IH];
    intros keys st events handled HInv HR.
  - exists st. simpl. by rewrite !app_nil_r.
  - destruct (handleToolDelta_spec requestId keys st events toolDelta HInv)
      as (st1 & new1 & Hstep & HInv1 & _).
    pose proof (R_tool _ _ _ _ _ _ _ HInv Hstep HR) as HR1.
    destruct (IH _ _ _ _ HInv1 HR1) as (st2 & Hrest & HInv2 & HR2).
    simpl. rewrite Hstep.
    destruct (handleToolDeltas requestId st1 rest) as [new2 result].
    simpl in *. exists st2. split; [done|]. split.
    + by rewrite app_assoc.
    + by rewrite (cons_middle toolDelta handled rest), !app_assoc.
Qed.

Lemma handleChunk_carries (keys : list BlockKey) (st : TranscoderState)
    (events : list AnthropicStreamEvent) (handled : list DeltaToolCall)
    (chunk : RawChunk) :
  Inv keys st events → R handled st events →
  ∃ st',
    (handleChunk requestId st chunk).2
    = match raisedBy chunk with
      | Some error => inl error
      | None => inr (st', if goesOn chunk then Continue else Break)
      end
    ∧ Inv (foldl addFirstUse keys (from_option usesOfChoice [] (choiceOf chunk)))
        st' (events ++ (handleChunk requestId st chunk).1)
    ∧ R (handled ++ from_option toolDeltasOfChoice [] (choiceOf chunk)) st'
        (events ++ (handleChunk requestId st chunk).1).
Proof.
  intros HInv HR. rewrite handleChunk_eq. unfold goesOn, finishOf.
  destruct (choiceOf chunk) as [choice|] eqn:Hchoice; simpl.
  2: { exists st. rewrite !app_nil_r. by destruct (raisedBy chunk). }
  destruct (choice_delta choice) as [| |delta] eqn:Hdelta.
  1, 2: destruct (raisedBy_absent_delta chunk choice Hchoice)
          as ([error Herror] & Hcontent & Hcalls);
          [by rewrite Hdelta|];
        exists st; unfold usesOfChoice; rewrite Hcontent, Hcalls, Herror;
        simpl; by rewrite !app_nil_r.
  destruct (handleText_spec keys st events (contentOfChoice choice) HInv)
    as (HInv1 & _).
  pose proof (R_text _ _ _ _ (contentOfChoice choice) HInv HR) as HR1.
  destruct (handleText st (contentOfChoice choice)) as [st1 new1]. simpl in *.
  destruct (handleToolDeltas_carries (toolDeltasOfChoice choice) _ _ _ _
              HInv1 HR1) as (st2 & Hcalls & HInv2 & HR2).
  rewrite Hcalls.
  assert (Hkeys :
    foldl addFirstUse
      match truthy (contentOfChoice choice) with
      | Some _ => addFirstUse keys TextKey
      | None => keys
      end
      (map (λ toolDelta, ToolKey (dtc_index toolDelta))
         (toolDeltasOfChoice choice))
    = foldl addFirstUse keys (usesOfChoice choice)).
  { unfold usesOfChoice. by destruct (truthy (contentOfChoice choice)). }
  rewrite Hkeys in HInv2. rewrite <- !app_assoc in HInv2, HR2.
  destruct (raisedBy chunk) as [error|]; [by exists st2|].
  destruct (handleFinishReason_spec _ st2 _ (choice_finish_reason choice) HInv2)
    as (HInv3 & Hflow & _).
  pose proof (R_finish _ _ _ (choice_finish_reason choice) HR2) as HR3.
  destruct (handleFinishReason st2 (choice_finish_reason choice))
    as [st3 flow]. simpl in *.
  exists st3. split; [|done].
  subst flow. by destruct (truthy (choice_finish_reason choice)).
Qed.

Lemma forAwait_carries (openaiStream : Upstream) :
  ∀ (keys : list BlockKey) (st : TranscoderState)
    (events : list AnthropicStreamEvent) (handled : list DeltaToolCall),
  Inv keys st events → R handled st events →
  ∃ st',
    Inv (foldl addFirstUse keys
           (concat (map usesOfChoice (consumedChoices openaiStream))))
      st' (events ++ (forAwait requestId st openaiStream).1)
    ∧ R (handled
         ++ concat (map toolDeltasOfChoice (consumedChoices openaiStream)))
        st' (events ++ (forAwait requestId st openaiStream).1).
Proof.
  induction openaiStream as [|error|chunk rest IH];
    intros keys st events handled HInv HR; simpl.
  - exists st. by rewrite !app_nil_r.
  - exists st. by rewrite !app_nil_r.
  - destruct (handleChunk_carries keys st events handled chunk HInv HR)
      as (st1 & Hresult & HInv1 & HR1).
    assert (Huses : ∀ {A} (f : Choice → list A),
      from_option f [] (choiceOf chunk)
      = concat (map f (option_list (choiceOf chunk)))).
    { intros A f. destruct (choiceOf chunk); simpl; by rewrite ?app_nil_r. }
    rewrite Huses in HInv1, HR1.
    destruct (handleChunk requestId st chunk) as [new1 result]. simpl in *.
    subst result. unfold goesOn.
    destruct (raisedBy chunk) as [error|];
      [|destruct (finishOf chunk) as [reason|]]; simpl;
      [exists st1; by rewrite !app_nil_r..|].
    destruct (IH _ _ _ _ HInv1 HR1) as (st2 & HInv2 & HR2).
    destruct (forAwait requestId st1 rest) as [new2 result]. simpl in *.
    exists st2.
    rewrite !map_app, !concat_app, foldl_app, !app_assoc in *. by split.
Qed.
End carried.

(** ** The text fragments along the loop *)

Section text_deltas.
Context `{Builtins} (requestId : string).

Lemma handleText_textDeltas (st : TranscoderState) (content : option string) :
  omap textDeltaOf (handleText st content).2 = option_list (truthy content).
Proof.
  unfold handleText. destruct (truthy content) as [text|]; [|done].
  by destruct (textBlockAnthropicIdx st).
Qed.

Lemma emitToolDelta_textDeltas (st : TranscoderState) (cur : nat)
    (toolState : ToolState) (toolDelta : DeltaToolCall) :
  omap textDeltaOf (emitToolDelta st cur toolState toolDelta).2 = [].
Proof.
  unfold emitToolDelta. simpl. rewrite omap_app.
  destruct (negb _ && canStart _); simpl;
    destruct (argumentsOf toolDelta); try done; by destruct (bool_decide _).
Qed.

Lemma handleToolDeltas_textDeltas (toolDeltas : list DeltaToolCall) :
  ∀ st, omap textDeltaOf (handleToolDeltas requestId st toolDeltas).1 = [].
Proof.
  induction toolDeltas as [|toolDelta rest IH]; intros st; simpl; [done|].
  unfold handleToolDelta.
  destruct (openaiToolIdxToAnthropicBlockIdx _ !! _) as [cur|]; [|done].
  destruct (toolStates _ !! cur) as [toolState|]; [|done].
  pose proof (emitToolDelta_textDeltas (allocateToolBlock requestId st toolDelta)
                cur toolState toolDelta) as Hemit.
  destruct (emitToolDelta _ cur toolState toolDelta) as [st' events].
  specialize (IH st').
  destruct (handleToolDeltas requestId st' rest) as [more result].
  simpl in *. by rewrite omap_app, Hemit, IH.
Qed.

Lemma handleChunk_textDeltas (st : TranscoderState) (chunk : RawChunk) :
  omap textDeltaOf (handleChunk requestId st chunk).1
  = from_option (λ choice, option_list (textOfChoice choice)) []
      (choiceOf chunk).
Proof.
  rewrite handleChunk_eq. unfold textOfChoice.
  destruct (choiceOf chunk) as [choice|]; [|done]. simpl.
  unfold contentOfChoice.
  destruct (choice_delta choice) as [| |delta]; [done..|].
  by rewrite omap_app, handleText_textDeltas, handleToolDeltas_textDeltas,
    app_nil_r.
Qed.

Lemma forAwait_textDeltas (openaiStream : Upstream) :
  ∀ (keys : list BlockKey) (st : TranscoderState)
    (events : list AnthropicStreamEvent),
  Inv keys st events →
  omap textDeltaOf (forAwait requestId st openaiStream).1
  = omap textOfChoice (consumedChoices openaiStream).
Proof.
  induction openaiStream as [|error|chunk rest IH]; intros keys st events HInv;
    simpl; [done..|].
  destruct (handleChunk_spec requestId keys st events chunk HInv)
    as (st1 & new1 & Hchunk & HInv1 & _).
  pose proof (handleChunk_textDeltas st chunk) as Htext.
  rewrite Hchunk in *. simpl in Htext.
  specialize (IH _ _ _ HInv1).
  assert (Hone : omap textOfChoice (option_list (choiceOf chunk))
    = from_option (λ choice, option_list (textOfChoice choice)) []
        (choiceOf chunk)).
  { by destruct (choiceOf chunk) as [choice|]; [destruct (textOfChoice choice)|]. }
  rewrite omap_app, Hone, <- Htext. unfold goesOn.
  destruct (raisedBy chunk) as [error|];
    [|destruct (finishOf chunk) as [reason|]]; simpl;
    [by rewrite app_nil_r..|].
  destruct (forAwait requestId st1 rest) as [more result]. simpl in *.
  by rewrite omap_app, IH.
Qed.
End text_deltas.

(** ** The transcoder as a whole *)

Lemma NoDup_addFirstUse (keys : list BlockKey) (key : BlockKey) :
  NoDup keys → NoDup (addFirstUse keys key).
Proof.
  intros Hnodup. unfold addFirstUse. case_decide; [done|].
  apply NoDup_app. split; [done|]. split; [|apply NoDup_singleton].
  intros k Hk Hk'%list_elem_of_singleton. by subst k.
Qed.

Lemma NoDup_foldl_addFirstUse (uses keys : list BlockKey) :
  NoDup keys → NoDup (foldl addFirstUse keys uses).
Proof.
  revert keys. induction uses as [|key uses IH]; intros keys Hnodup; [done|].
  simpl. by apply IH, NoDup_addFirstUse.
Qed.

Lemma filter_eq_absent (i : nat) (l : list nat) :
  i ∉ l → filter (λ j, j = i) l = [].
Proof.
  induction l as [|j l IH]; [done|].
  intros [Hne Hi]%not_elem_of_cons.
  rewrite filter_cons_False by done. by apply IH.
Qed.

Lemma filter_eq_NoDup (i : nat) (l : list nat) :
  NoDup l → i ∈ l → length (filter (λ j, j = i) l) = 1.
Proof.
  induction 1 as [|j l Hj Hnodup IH]; [by intros ?%elem_of_nil|].
  intros [->|Hi]%elem_of_cons.
  - rewrite filter_cons_True by done. by rewrite filter_eq_absent.
  - rewrite filter_cons_False by (intros ->; done). by apply IH.
Qed.

Lemma Inv_text_not_sent (keys : list BlockKey) (st : TranscoderState)
    (events : list AnthropicStreamEvent) (i : nat) :
  Inv keys st events →
  textBlockAnthropicIdx st = Some i → i ∉ sentToolBlockStarts st.
Proof.
  intros HInv Htext Hsent.
  apply (inv_text _ _ _ HInv) in Htext.
  apply (inv_sent _ _ _ HInv) in Hsent as [k Hk].
  apply (inv_tool _ _ _ HInv) in Hk. congruence.
Qed.

Lemma NoDup_opened (keys : list BlockKey) (st : TranscoderState)
    (events : list AnthropicStreamEvent) :
  Inv keys st events → NoDup (opened st).
Proof.
  intros HInv. unfold opened.
  destruct (textBlockAnthropicIdx st) as [i|] eqn:Htext; simpl.
  - apply NoDup_cons. split; [by eapply Inv_text_not_sent|].
    apply (inv_nodup _ _ _ HInv).
  - apply (inv_nodup _ _ _ HInv).
Qed.

Lemma openIn_opened (st : TranscoderState) (event : AnthropicStreamEvent) :
  openIn st event →
  ∃ i, blockIndexOf event = Some i ∧ i ∈ opened st ∧ stopIndexOf event = None.
Proof.
  unfold opened.
  destruct event as [| |i [|]|i [|]| | | |]; simpl; try done;
    intros Hopen; exists i; (split; [done|]); (split; [|done]).
  - rewrite Hopen. apply list_elem_of_here.
  - apply elem_of_app. by right.
  - rewrite Hopen. apply list_elem_of_here.
  - apply elem_of_app. by right.
Qed.

Lemma omap_stopIndexOf_loop (st : TranscoderState)
    (events : list AnthropicStreamEvent) :
  Forall (openIn st) events → omap stopIndexOf events = [].
Proof.
  induction 1 as [|e events He _ IH]; [done|].
  simpl. destruct (openIn_opened _ _ He) as (i & _ & _ & ->). done.
Qed.

Lemma omap_stopIndexOf_stopEvents (st : TranscoderState) :
  omap stopIndexOf (stopEvents st) = opened st.
Proof.
  unfold stopEvents, opened. rewrite omap_app. f_equal.
  - by destruct (textBlockAnthropicIdx st).
  - induction (sentToolBlockStarts st) as [|i l IH]; [done|].
    simpl. f_equal. apply IH.
Qed.

Lemma omap_startIndexOf_stopEvents (st : TranscoderState) :
  omap startIndexOf (stopEvents st) = [].
Proof.
  unfold stopEvents. rewrite omap_app.
  replace (omap startIndexOf (map ContentBlockStop (sentToolBlockStarts st)))
    with (@nil nat) by (by induction (sentToolBlockStarts st)).
  by destruct (textBlockAnthropicIdx st).
Qed.

Lemma elem_of_stopEvents (st : TranscoderState) (event : AnthropicStreamEvent) :
  event ∈ stopEvents st ↔ ∃ i, event = ContentBlockStop i ∧ i ∈ opened st.
Proof.
  unfold stopEvents, opened. rewrite elem_of_app. split.
  - intros [Hin|Hin].
    + destruct (textBlockAnthropicIdx st) as [i|]; [|by apply elem_of_nil in Hin].
      apply list_elem_of_singleton in Hin as ->. exists i.
      split; [done|]. apply list_elem_of_here.
    + apply list_elem_of_fmap in Hin as (i & -> & Hi). exists i.
      split; [done|]. apply elem_of_app. by right.
  - intros (i & -> & [Hi|Hi]%elem_of_app).
    + left. destruct (textBlockAnthropicIdx st) as [j|];
        [|by apply elem_of_nil in Hi].
      apply list_elem_of_singleton in Hi as ->. apply list_elem_of_here.
    + right. apply list_elem_of_fmap. by exists i.
Qed.

Section transcoder.
Context `{Builtins}.

Lemma convertOpenAIStreamToAnthropic_eq (openaiStream : Upstream)
    (model : string) (estimatedInputTokens : JSValue)
    (requestId uuid : string) :
  convertOpenAIStreamToAnthropic openaiStream model estimatedInputTokens
    requestId uuid
  = [MessageStart
       ("msg_stream_" +:+ requestId +:+ "_" +:+ String.substring 0 8 uuid)
       model [] estimatedInputTokens 0;
     Ping]
    ++ (streamLoop openaiStream requestId).1
    ++ afterLoop (streamLoop openaiStream requestId).2.
Proof.
  unfold convertOpenAIStreamToAnthropic.
  by destruct (streamLoop openaiStream requestId) as [events [error|st]].
Qed.

Lemma streamLoop_spec (openaiStream : Upstream) (requestId : string) :
  ∃ st,
    Inv (firstUseOrder openaiStream) st (streamLoop openaiStream requestId).1
    ∧ (∀ st', (streamLoop openaiStream requestId).2 = inr st' → st' = st)
    ∧ ((streamLoop openaiStream requestId).2
       = match failure openaiStream with
         | Some error => inl error
         | None => inr st
         end
       ∧ finalAnthropicStopReason st
         = match finishReasonOf openaiStream with
           | Some reason => mapStopReason reason
           | None => StopReasonString "end_turn"
           end)
    ∧ outputTokenCount st = estimateOfStream openaiStream
    ∧ (∀ k P Q, Sticky P Q
         → Forall (λ toolDelta, dtc_index toolDelta = k → Q toolDelta)
             (concat (map toolDeltasOfChoice (consumedChoices openaiStream)))
         → Stuck k P st).
Proof.
  destruct (forAwait_spec requestId openaiStream [] initialState []
              Inv_initial)
    as (st & HInv & Hresult & Hstop & Htokens & Hstuck).
  exists st. unfold streamLoop, firstUseOrder, estimateOfStream.
  split; [done|].
  split.
  { rewrite Hresult. destruct (failure openaiStream); congruence. }
  split; [done|]. split; [done|].
  intros k P Q HPQ HQ. apply (Hstuck k P Q HPQ HQ).
  intros j. simpl. by rewrite lookup_empty.
Qed.
End transcoder.

Lemma stopEvents_eq (st : TranscoderState) :
  stopEvents st = map ContentBlockStop (opened st).
Proof.
  unfold stopEvents, opened. rewrite map_app.
  by destruct (textBlockAnthropicIdx st).
Qed.

Lemma prefix_app (s1 s2 : string) : String.prefix s1 (s1 +:+ s2) = true.
Proof.
  induction s1 as [|c s1 IH]; simpl; [by destruct s2|].
  by destruct (Ascii.ascii_dec c c).
Qed.

(** A tool state without a name stays without one under deltas that bring
    no name, and cannot be started. *)
Lemma Sticky_no_name :
  Sticky (λ toolState, ts_name toolState = "") bringsNoName.
Proof.
  split.
  - done.
  - intros toolDelta toolState HQ HP. unfold updateToolState, bringsNoName in *.
    simpl. destruct (dtc_function toolDelta) as [function|]; [|done].
    unfold orElse. by rewrite HQ.
  - intros toolState HP. unfold canStart. rewrite HP. simpl.
    by rewrite andb_false_r.
Qed.

(** A tool state with a placeholder id keeps one under deltas that bring no
    other id, and cannot be started. *)
Lemma Sticky_placeholder_id :
  Sticky (λ toolState, String.prefix "tool_ph_" (ts_id toolState) = true)
    bringsNoConcreteId.
Proof.
  split.
  - intros requestId idx toolDelta HQ. unfold newToolState, bringsNoConcreteId in *.
    simpl. unfold orElse. destruct (truthy (dtc_id toolDelta)); [done|].
    apply prefix_app.
  - intros toolDelta toolState HQ HP. unfold updateToolState, bringsNoConcreteId in *.
    simpl. destruct (truthy (dtc_id toolDelta)); [|done]. by rewrite HP.
  - intros toolState HP. unfold canStart. rewrite HP. simpl.
    by rewrite andb_false_r.
Qed.

(** ** Where the events of the loop come from *)

Lemma omap_snoc {A B : Type} (f : A → option B) (l : list A) (x : A) :
  omap f (l ++ [x]) = omap f l ++ option_list (f x).
Proof. rewrite omap_app. csimpl. by destruct (f x). Qed.

Lemma last_option_list {A : Type} (l : list A) (o : option A) :
  last (l ++ option_list o) = match o with Some x => Some x | None => last l end.
Proof. destruct o as [x|]; simpl; [apply last_snoc|by rewrite app_nil_r]. Qed.

Lemma head_option_list {A : Type} (l : list A) (o : option A) :
  head (l ++ option_list o) = match head l with Some x => Some x | None => o end.
Proof. destruct l; [by destruct o|done]. Qed.

Lemma TracksDeltas_update (toolDelta : DeltaToolCall) (toolState : ToolState)
    (toolDeltas : list DeltaToolCall) :
  TracksDeltas toolDeltas toolState →
  TracksDeltas (toolDeltas ++ [toolDelta]) (updateToolState toolDelta toolState).
Proof.
  intros [Hname Hid]. unfold TracksDeltas, updateToolState.
  cbn [ts_name ts_id]. split.
  - rewrite omap_snoc, last_option_list. unfold nameOf.
    destruct (dtc_function toolDelta) as [function|]; [|done].
    unfold orElse. by destruct (truthy (df_name function)).
  - rewrite omap_snoc, head_option_list. unfold concreteIdOf.
    destruct (head (omap _ toolDeltas)) as [first|].
    + destruct Hid as [-> Hprefix].
      by destruct (truthy (dtc_id toolDelta)); [rewrite Hprefix|].
    + rewrite Hid. destruct (truthy (dtc_id toolDelta)) as [id|]; [|done].
      by destruct (String.prefix "tool_ph_" id) eqn:Hprefix.
Qed.

Lemma TracksDeltas_new (requestId : string) (idx : nat)
    (toolDelta : DeltaToolCall) :
  TracksDeltas [toolDelta]
    (updateToolState toolDelta (newToolState requestId idx toolDelta)).
Proof.
  change [toolDelta] with ([] ++ [toolDelta]).
  unfold TracksDeltas, updateToolState, newToolState.
  cbn [ts_name ts_id]. split.
  - rewrite omap_snoc, last_option_list. unfold nameOf.
    destruct (dtc_function toolDelta) as [function|]; [|done].
    unfold orElse. by destruct (truthy (df_name function)).
  - rewrite omap_snoc, head_option_list. unfold concreteIdOf, orElse. simpl.
    destruct (truthy (dtc_id toolDelta)) as [id|].
    + by destruct (String.prefix "tool_ph_" id) eqn:Hprefix.
    + apply prefix_app.
Qed.

(** A tool state that can be started has the first id that is not a
    placeholder and the last name of its deltas. *)
Lemma canStart_tracks (toolDeltas : list DeltaToolCall) (toolState : ToolState) :
  TracksDeltas toolDeltas toolState →
  canStart toolState = true →
  startedFrom toolDeltas (ts_id toolState) (ts_name toolState).
Proof.
  intros [Hname Hid] Hcan. exists toolDeltas. split; [done|].
  unfold canStart in Hcan.
  apply andb_true_iff in Hcan as [[_ Hprefix]%andb_true_iff Hnamed].
  apply negb_true_iff in Hprefix, Hnamed. split.
  - destruct (head (omap concreteIdOf toolDeltas)) as [id|].
    + by destruct Hid as [-> _].
    + congruence.
  - destruct (last (omap nameOf toolDeltas)) as [name|]; simpl in Hname.
    + by rewrite Hname.
    + by rewrite Hname in Hnamed.
Qed.

Lemma startedFrom_more (toolDeltas more : list DeltaToolCall) (id name : string) :
  startedFrom toolDeltas id name → startedFrom (toolDeltas ++ more) id name.
Proof.
  intros (started & Hprefix & Hid & Hname). exists started.
  split; [by apply prefix_app_r|done].
Qed.

Lemma originOf_mono (blocks blocks' : gmap Z nat)
    (handled more : list DeltaToolCall) (event : AnthropicStreamEvent) :
  (∀ k j, blocks !! k = Some j → blocks' !! k = Some j) →
  originOf blocks handled event → originOf blocks' (handled ++ more) event.
Proof.
  intros Hblocks.
  destruct event as [| |index [text|id name input]|index [text|partial_json]| | | |];
    simpl; try done.
  - intros (k & Hk & Hstarted & Hinput). exists k.
    split; [by apply Hblocks|]. split; [|done].
    rewrite filter_app. by apply startedFrom_more.
  - intros (k & Hk & Hin). exists k. split; [by apply Hblocks|].
    rewrite filter_app, omap_app. apply elem_of_app. by left.
Qed.

Lemma emitToolDelta_events (st : TranscoderState) (cur : nat)
    (toolState : ToolState) (toolDelta : DeltaToolCall)
    (event : AnthropicStreamEvent) :
  event ∈ (emitToolDelta st cur toolState toolDelta).2 →
  let toolState' := updateToolState toolDelta toolState in
  (event = ContentBlockStart cur
             (StartToolUse (ts_id toolState') (ts_name toolState') (JObj []))
   ∧ canStart toolState' = true)
  ∨ ∃ arguments,
      argumentsOf toolDelta = Some arguments
      ∧ event = ContentBlockDelta cur (InputJsonDelta arguments).
Proof.
  unfold emitToolDelta. simpl.
  intros [Hin|Hin]%elem_of_app.
  - destruct (negb _) eqn:Hfresh; simpl in Hin; [|by apply elem_of_nil in Hin].
    destruct (canStart _) eqn:Hcan; [|by apply elem_of_nil in Hin].
    apply list_elem_of_singleton in Hin. by left.
  - destruct (argumentsOf toolDelta) as [arguments|];
      [|by apply elem_of_nil in Hin].
    destruct (bool_decide _); [|by apply elem_of_nil in Hin].
    apply list_elem_of_singleton in Hin. right. by exists arguments.
Qed.

Lemma Origin_initial : Origin [] initialState [].
Proof.
  split; [done|done|].
  intros k j toolState Hk. simpl in Hk. by rewrite lookup_empty in Hk.
Qed.

Lemma Origin_text (keys : list BlockKey) (handled : list DeltaToolCall)
    (st : TranscoderState) (events : list AnthropicStreamEvent)
    (content : option string) :
  Inv keys st events → Origin handled st events →
  Origin handled (handleText st content).1 (events ++ (handleText st content).2).
Proof.
  intros HInv [Hevents Hfresh Hstates].
  destruct (handleText_spec keys st events content HInv)
    as (_ & Hmap & Htools & _).
  assert (Hnew : Forall (originOf (openaiToolIdxToAnthropicBlockIdx st) handled)
                   (handleText st content).2).
  { unfold handleText. destruct (truthy content) as [text|]; [|done].
    destruct (textBlockAnthropicIdx st); by repeat constructor. }
  destruct (handleText st content) as [st1 new]. simpl in *.
  split; rewrite ?Hmap, ?Htools; [by apply Forall_app|done..].
Qed.

Lemma Origin_finish (handled : list DeltaToolCall) (st : TranscoderState)
    (events : list AnthropicStreamEvent) (finish_reason : option string) :
  Origin handled st events →
  Origin handled (handleFinishReason st finish_reason).1 events.
Proof.
  intros [Hevents Hfresh Hstates]. unfold handleFinishReason.
  by destruct (truthy finish_reason).
Qed.

Section origin.
Context `{Builtins} (requestId : string).

Lemma Origin_tool (keys : list BlockKey) (handled : list DeltaToolCall)
    (st st' : TranscoderState) (events new : list AnthropicStreamEvent)
    (toolDelta : DeltaToolCall) :
  Inv keys st events →
  handleToolDelta requestId st toolDelta = inr (st', new) →
  Origin handled st events →
  Origin (handled ++ [toolDelta]) st' (events ++ new).
Proof.
  intros HInv Hstep [Hevents Hfresh Hstates].
  destruct (allocateToolBlock_spec requestId keys st events toolDelta HInv)
    as (HInv1 & [cur Hcur] & _).
  unfold handleToolDelta in Hstep. rewrite Hcur in Hstep.
  destruct (toolStates _ !! cur) as [toolState|] eqn:Hts; [|done].
  assert (Hemit : emitToolDelta (allocateToolBlock requestId st toolDelta)
                    cur toolState toolDelta = (st', new)) by congruence.
  clear Hstep. rename Hemit into Hstep.
  pose proof (emitToolDelta_events (allocateToolBlock requestId st toolDelta)
                cur toolState toolDelta) as Hnew.
  assert (Hst' : st' = (emitToolDelta
                          (allocateToolBlock requestId st toolDelta)
                          cur toolState toolDelta).1) by (by rewrite Hstep).
  assert (Hmap' : openaiToolIdxToAnthropicBlockIdx st'
                  = openaiToolIdxToAnthropicBlockIdx
                      (allocateToolBlock requestId st toolDelta))
    by (by rewrite Hst').
  assert (Htools' : toolStates st'
                    = <[cur := updateToolState toolDelta toolState]>
                        (toolStates (allocateToolBlock requestId st toolDelta)))
    by (by rewrite Hst').
  clear Hst'.
  rewrite Hstep in Hnew. simpl in Hnew. clear Hstep.
  (* the state after the block has been looked up or made *)
  assert (Hmap1 : ∀ k j,
    openaiToolIdxToAnthropicBlockIdx st !! k = Some j
    → openaiToolIdxToAnthropicBlockIdx
        (allocateToolBlock requestId st toolDelta) !! k = Some j).
  { intros k j Hk. unfold allocateToolBlock.
    destruct (openaiToolIdxToAnthropicBlockIdx st !! dtc_index toolDelta)
      eqn:Hold; [done|]. simpl.
    rewrite lookup_insert_ne; [done|]. intros <-. congruence. }
  assert (Hother : ∀ k j,
    k ≠ dtc_index toolDelta
    → openaiToolIdxToAnthropicBlockIdx
        (allocateToolBlock requestId st toolDelta) !! k = Some j
    → openaiToolIdxToAnthropicBlockIdx st !! k = Some j
      ∧ toolStates (allocateToolBlock requestId st toolDelta) !! j
        = toolStates st !! j).
  { intros k j Hne. unfold allocateToolBlock.
    destruct (openaiToolIdxToAnthropicBlockIdx st !! dtc_index toolDelta)
      eqn:Hold; [done|]. simpl.
    rewrite lookup_insert_ne by done. intros Hk. split; [done|].
    rewrite lookup_insert_ne; [done|].
    apply (Inv_index_lt _ _ _ _ _ HInv) in Hk. lia. }
  assert (Htracks :
    TracksDeltas
      (filter (λ toolDelta', dtc_index toolDelta' = dtc_index toolDelta) handled
       ++ [toolDelta])
      (updateToolState toolDelta toolState)).
  { unfold allocateToolBlock in Hcur, Hts.
    destruct (openaiToolIdxToAnthropicBlockIdx st !! dtc_index toolDelta)
      as [cur'|] eqn:Hold.
    - assert (cur' = cur) as -> by congruence.
      apply TracksDeltas_update. by eapply Hstates.
    - simpl in Hcur, Hts. rewrite lookup_insert_eq in Hcur.
      injection Hcur as <-. rewrite lookup_insert_eq in Hts.
      injection Hts as <-. rewrite (Hfresh _ Hold). apply TracksDeltas_new. }
  assert (Hfilter : ∀ k,
    filter (λ toolDelta', dtc_index toolDelta' = k) (handled ++ [toolDelta])
    = filter (λ toolDelta', dtc_index toolDelta' = k) handled
      ++ if decide (dtc_index toolDelta = k) then [toolDelta] else []).
  { intros k. rewrite filter_app.
    case_decide; [by rewrite filter_cons_True|by rewrite filter_cons_False]. }
  split.
  - rewrite Hmap'. apply Forall_app. split.
    + eapply Forall_impl; [exact Hevents|].
      intros event. by apply originOf_mono.
    + apply Forall_forall. intros event Hevent.
      destruct (Hnew event Hevent) as [[-> Hcan]|(arguments & Harguments & ->)];
        simpl; exists (dtc_index toolDelta); (split; [done|]).
      * split; [|done]. rewrite Hfilter, decide_True by done.
        exact (canStart_tracks _ (updateToolState toolDelta toolState)
                 Htracks Hcan).
      * rewrite Hfilter, decide_True by done.
        rewrite omap_snoc, Harguments. apply elem_of_app. right.
        apply list_elem_of_here.
  - rewrite Hmap'. intros k Hk.
    assert (Hne : dtc_index toolDelta ≠ k) by (intros <-; congruence).
    rewrite Hfilter, decide_False, app_nil_r by done.
    apply Hfresh.
    destruct (openaiToolIdxToAnthropicBlockIdx st !! k) as [j|] eqn:Hold;
      [|done].
    apply Hmap1 in Hold. congruence.
  - rewrite Hmap', Htools'. intros k j toolState' Hk Hts'.
    rewrite Hfilter.
    destruct (decide (dtc_index toolDelta = k)) as [<-|Hne].
    + assert (j = cur) as -> by congruence.
      rewrite lookup_insert_eq in Hts'. by injection Hts' as <-.
    + rewrite app_nil_r.
      assert (j ≠ cur).
      { intros ->. apply Hne. by eapply (Inv_index_inj _ _ _ _ _ _ HInv1). }
      rewrite lookup_insert_ne in Hts' by done.
      destruct (Hother k j) as [Hold Hsame]; [done..|].
      rewrite Hsame in Hts'. by eapply Hstates.
Qed.

(** The loop, run on a stream: the invariant at its end, with the origin
    of every event. *)
Lemma streamLoop_origin (openaiStream : Upstream) :
  ∃ st,
    Inv (firstUseOrder openaiStream) st (streamLoop openaiStream requestId).1
    ∧ Origin (concat (map toolDeltasOfChoice (consumedChoices openaiStream)))
        st (streamLoop openaiStream requestId).1.
Proof.
  exact (forAwait_carries requestId Origin Origin_text Origin_tool
           Origin_finish openaiStream [] initialState [] [] Inv_initial
           Origin_initial).
Qed.
End origin.

Section claims.
Context `{Builtins}.

(** C2: on every chunk sequence on which the transcoder terminates
    normally, the output is [message_start] (with the estimated input
    tokens, an empty content array and zero output tokens), then [ping],
    then content-block events only, then one [message_delta], then
    [message_stop], and nothing after it. *)
Theorem normal_termination_framing (openaiStream : Upstream)
    (model : string) (estimatedInputTokens : JSValue)
    (requestId uuid : string) :
  terminatesNormally openaiStream requestId →
  ∃ body stop_reason output_tokens,
    convertOpenAIStreamToAnthropic openaiStream model estimatedInputTokens
      requestId uuid
    = MessageStart
        ("msg_stream_" +:+ requestId +:+ "_" +:+ String.substring 0 8 uuid)
        model [] estimatedInputTokens 0
      :: Ping
      :: body ++ [MessageDelta stop_reason output_tokens; MessageStop]
    ∧ Forall isContentBlockEvent body.
Proof.
  intros [st Hst]. rewrite convertOpenAIStreamToAnthropic_eq.
  destruct (streamLoop_spec openaiStream requestId)
    as (st' & HInv & Hsame & _).
  apply Hsame in Hst as Heq. subst st'. rewrite Hst. simpl.
  exists ((streamLoop openaiStream requestId).1 ++ stopEvents st),
    (finalAnthropicStopReason st), (outputTokenCount st).
  split; [by rewrite <- app_assoc|].
  apply Forall_app. split.
  - eapply Forall_impl; [apply (inv_events _ _ _ HInv)|].
    intros e (i & Hi & _)%openIn_opened. by exists i.
  - apply Forall_forall. intros e (i & -> & _)%elem_of_stopEvents.
    by exists i.
Qed.

(** C3, amended: on every chunk sequence, a [content_block_start] and a
    [content_block_delta] carry the position of their block in first-use
    order (text and tool blocks counted together, from 0), and they belong
    to that block: the start of the text block has the empty text and its
    deltas carry text fragments of the stream; the start of the block of a
    tool call carries the first id that is not a placeholder and the last
    name that the deltas of this tool call had brought when the block was
    started, and its deltas carry argument fragments of this tool call.
    No index is started twice.  When the transcoder terminates normally,
    every [content_block_start] is followed by exactly one
    [content_block_stop] with the same index; when an exception ends the
    loop, there is no [content_block_stop] at all. *)
Theorem block_indices_and_stops (openaiStream : Upstream)
    (model : string) (estimatedInputTokens : JSValue)
    (requestId uuid : string) :
  let events :=
    convertOpenAIStreamToAnthropic openaiStream model estimatedInputTokens
      requestId uuid in
  NoDup (firstUseOrder openaiStream)
  ∧ (∀ i block,
       ContentBlockStart i block ∈ events
       → ∃ key, firstUseOrder openaiStream !! i = Some key
                ∧ startOf openaiStream key block)
  ∧ (∀ i delta,
       ContentBlockDelta i delta ∈ events
       → ∃ key, firstUseOrder openaiStream !! i = Some key
                ∧ deltaOf openaiStream key delta)
  ∧ NoDup (omap startIndexOf events)
  ∧ (terminatesNormally openaiStream requestId
     → ∀ i block,
         ContentBlockStart i block ∈ events
         → stopCount i events = 1
           ∧ ∃ before between after,
               events = before ++ ContentBlockStart i block
                               :: between ++ ContentBlockStop i :: after)
  ∧ (¬ terminatesNormally openaiStream requestId
     → ∀ i, stopCount i events = 0).
Proof.
  intros events. subst events.
  rewrite convertOpenAIStreamToAnthropic_eq.
  set (loop := (streamLoop openaiStream requestId).1).
  set (result := (streamLoop openaiStream requestId).2).
  set (opening :=
    [MessageStart
       ("msg_stream_" +:+ requestId +:+ "_" +:+ String.substring 0 8 uuid)
       model [] estimatedInputTokens 0;
     Ping]).
  assert (Hstart : ∀ i block,
    ContentBlockStart i block ∈ opening ++ loop ++ afterLoop result
    → ContentBlockStart i block ∈ loop).
  { intros i block Hin.
    apply elem_of_cons in Hin as [[=]|Hin].
    apply elem_of_cons in Hin as [[=]|Hin].
    apply elem_of_app in Hin as [Hin|Hin]; [done|].
    destruct result as [error|st]; simpl in Hin.
    - by apply list_elem_of_singleton in Hin.
    - apply elem_of_app in Hin as [Hin|Hin].
      + by apply elem_of_stopEvents in Hin as (j & [=] & _).
      + apply elem_of_cons in Hin as [[=]|Hin].
        by apply list_elem_of_singleton in Hin. }
  assert (Hdelta : ∀ i delta,
    ContentBlockDelta i delta ∈ opening ++ loop ++ afterLoop result
    → ContentBlockDelta i delta ∈ loop).
  { intros i delta Hin.
    apply elem_of_cons in Hin as [[=]|Hin].
    apply elem_of_cons in Hin as [[=]|Hin].
    apply elem_of_app in Hin as [Hin|Hin]; [done|].
    destruct result as [error|st]; simpl in Hin.
    - by apply list_elem_of_singleton in Hin.
    - apply elem_of_app in Hin as [Hin|Hin].
      + by apply elem_of_stopEvents in Hin as (j & [=] & _).
      + apply elem_of_cons in Hin as [[=]|Hin].
        by apply list_elem_of_singleton in Hin. }
  assert (Hstarts : omap startIndexOf (opening ++ loop ++ afterLoop result)
                    = omap startIndexOf loop).
  { rewrite !omap_app. simpl.
    replace (omap startIndexOf (afterLoop result)) with (@nil nat);
      [by rewrite app_nil_r|].
    destruct result as [error|st]; simpl; [done|].
    by rewrite omap_app, omap_startIndexOf_stopEvents. }
  destruct (streamLoop_origin requestId openaiStream)
    as (st & HInv & Horigin).
  fold loop in HInv, Horigin.
  pose proof (inv_events _ _ _ HInv) as Hopen.
  pose proof (origin_events _ _ _ Horigin) as Hfrom.
  rewrite Forall_forall in Hopen, Hfrom.
  split; [by apply NoDup_foldl_addFirstUse, NoDup_nil|].
  split.
  { intros i block Hin%Hstart.
    specialize (Hopen _ Hin). specialize (Hfrom _ Hin).
    destruct block as [text|id name input]; simpl in Hopen, Hfrom.
    - exists TextKey. split; [by apply (inv_text _ _ _ HInv)|done].
    - destruct Hfrom as (k & Hk & Hstarted & Hinput).
      exists (ToolKey k). split; [by apply (inv_tool _ _ _ HInv)|done]. }
  split.
  { intros i delta Hin%Hdelta.
    specialize (Hopen _ Hin). specialize (Hfrom _ Hin).
    destruct delta as [text|partial_json]; simpl in Hopen, Hfrom.
    - exists TextKey. split; [by apply (inv_text _ _ _ HInv)|]. simpl.
      rewrite <- (forAwait_textDeltas requestId openaiStream [] initialState []
                    Inv_initial).
      apply list_elem_of_omap. by exists (ContentBlockDelta i (TextDelta text)).
    - destruct Hfrom as (k & Hk & Hpayload).
      exists (ToolKey k). split; [by apply (inv_tool _ _ _ HInv)|done]. }
  split.
  { rewrite Hstarts, (inv_starts _ _ _ HInv). by eapply NoDup_opened. }
  assert (Hstops : omap stopIndexOf (opening ++ loop) = []).
  { rewrite omap_app. simpl. apply (omap_stopIndexOf_loop st).
    apply (inv_events _ _ _ HInv). }
  split.
  - intros [st' Hst] i block Hin%Hstart.
    destruct (streamLoop_spec openaiStream requestId)
      as (st'' & HInv' & Hsame & _).
    apply Hsame in Hst as Heq. subst st''. fold loop in HInv'.
    fold result in Hst. rewrite Hst. simpl.
    assert (Hopened : i ∈ opened st').
    { eapply Forall_forall in Hin as Hi; [|apply (inv_events _ _ _ HInv')].
      by apply openIn_opened in Hi as (j & [= <-] & Hj & _). }
    split.
    + unfold stopCount. simpl.
      rewrite !omap_app, omap_stopIndexOf_stopEvents. simpl.
      rewrite (omap_stopIndexOf_loop st') by apply (inv_events _ _ _ HInv').
      rewrite app_nil_r. simpl.
      apply filter_eq_NoDup; [by eapply NoDup_opened|done].
    + apply list_elem_of_split in Hin as (l1 & l2 & ->).
      assert (Hstop : ContentBlockStop i ∈ stopEvents st').
      { apply elem_of_stopEvents. by exists i. }
      apply list_elem_of_split in Hstop as (s1 & s2 & ->).
      eexists (_ :: _ :: l1), (l2 ++ s1), (s2 ++ [_; _]).
      simpl. by rewrite <- !app_assoc.
  - intros Hnot i. unfold stopCount.
    destruct result as [error|st'] eqn:Hresult;
      [|by destruct Hnot; exists st'].
    rewrite app_assoc, omap_app, Hstops. done.
Qed.

(** C5, amended: when the chunk sequence ends without any chunk carrying
    a finish reason, the transcoder finishes the message all the same,
    unless handling a chunk raised an exception: after the events of the
    chunks it yields a [content_block_stop] for every block it started, a
    [message_delta] with stop reason [end_turn], and [message_stop].
    When a chunk raised an exception (its parsed value, its first choice,
    the delta of that choice or a tool-call delta is [null] or
    [undefined]), the error event comes after the events of the chunks,
    and nothing else. *)
Theorem exhausted_stream_is_closed (openaiStream : Upstream)
    (model : string) (estimatedInputTokens : JSValue)
    (requestId uuid : string) :
  endsWithoutFinishReason openaiStream = true →
  let events :=
    convertOpenAIStreamToAnthropic openaiStream model estimatedInputTokens
      requestId uuid in
  let opening :=
    [MessageStart
       ("msg_stream_" +:+ requestId +:+ "_" +:+ String.substring 0 8 uuid)
       model [] estimatedInputTokens 0;
     Ping] in
  (terminatesNormally openaiStream requestId
   → ∃ stops,
       events
       = opening
         ++ (streamLoop openaiStream requestId).1
         ++ map ContentBlockStop stops
         ++ [MessageDelta "end_turn" (estimateOfStream openaiStream);
             MessageStop]
       ∧ stops ≡ₚ omap startIndexOf (streamLoop openaiStream requestId).1)
  ∧ (¬ terminatesNormally openaiStream requestId
     → ∃ chunk error,
         chunk ∈ chunksOf openaiStream
         ∧ raisedBy chunk = Some error
         ∧ events
           = opening
             ++ (streamLoop openaiStream requestId).1
             ++ [ErrorEvent "api_error" (errorMessage error)]).
Proof.
  intros Hend events opening. subst events opening.
  rewrite convertOpenAIStreamToAnthropic_eq.
  destruct (streamLoop_spec openaiStream requestId)
    as (st & HInv & Hsame & [Hresult Hstop] & Htokens & _).
  rewrite (endsWithoutFinishReason_finishReasonOf _ Hend) in Hstop.
  split.
  - intros [st' Hst]. apply Hsame in Hst as Heq. subst st'.
    rewrite Hst. simpl.
    exists (opened st). rewrite Hstop, Htokens, stopEvents_eq.
    split; [done|]. by rewrite (inv_starts _ _ _ HInv).
  - intros Hnot.
    destruct (failure openaiStream) as [error|] eqn:Hfailure;
      [|by destruct Hnot; exists st].
    destruct (endsWithoutFinishReason_failure _ _ Hend Hfailure)
      as (chunk & Hin & Hraised).
    exists chunk, error. by rewrite Hresult.
Qed.

(** C10: a streamed tool call for which no name, or no id other than a
    placeholder, ever arrives gets no event at all: no event of the
    output carries the index of its block.  Its argument fragments are
    not sent; they are counted in the output-token estimate that
    [message_delta] reports. *)
Theorem unopened_tool_call_is_silent (openaiStream : Upstream)
    (model : string) (estimatedInputTokens : JSValue)
    (requestId uuid : string) (openaiTcIdx : Z) (index : nat) :
  (∀ toolDelta, toolDelta ∈ toolDeltasFor openaiStream openaiTcIdx
                → bringsNoName toolDelta)
  ∨ (∀ toolDelta, toolDelta ∈ toolDeltasFor openaiStream openaiTcIdx
                  → bringsNoConcreteId toolDelta) →
  firstUseOrder openaiStream !! index = Some (ToolKey openaiTcIdx) →
  let events :=
    convertOpenAIStreamToAnthropic openaiStream model estimatedInputTokens
      requestId uuid in
  (∀ event, event ∈ events → blockIndexOf event ≠ Some index)
  ∧ (terminatesNormally openaiStream requestId
     → ∃ stop_reason,
         MessageDelta stop_reason (estimateOfStream openaiStream) ∈ events).
Proof.
  intros Hnever Hindex events. subst events.
  rewrite convertOpenAIStreamToAnthropic_eq.
  destruct (streamLoop_spec openaiStream requestId)
    as (st & HInv & Hsame & _ & Htokens & Hstuck).
  assert (Hclosed : index ∉ opened st).
  { assert (Hnot : index ∉ sentToolBlockStarts st).
    { apply (inv_tool _ _ _ HInv) in Hindex as Hmap.
      assert (HQ : ∀ Q : DeltaToolCall → Prop,
        (∀ toolDelta, toolDelta ∈ toolDeltasFor openaiStream openaiTcIdx
                      → Q toolDelta)
        → Forall (λ toolDelta, dtc_index toolDelta = openaiTcIdx → Q toolDelta)
            (concat (map toolDeltasOfChoice (consumedChoices openaiStream)))).
      { intros Q HQ. apply Forall_forall. intros toolDelta Hin Hidx.
        apply HQ. unfold toolDeltasFor. by apply list_elem_of_filter. }
      destruct Hnever as [Hname|Hid].
      - by destruct (Hstuck _ _ _ Sticky_no_name (HQ _ Hname) _ Hmap).
      - by destruct (Hstuck _ _ _ Sticky_placeholder_id (HQ _ Hid) _ Hmap). }
    unfold opened. intros [Hin|Hin]%elem_of_app; [|done].
    destruct (textBlockAnthropicIdx st) as [i|] eqn:Htext;
      [|by apply elem_of_nil in Hin].
    apply list_elem_of_singleton in Hin as ->.
    apply (inv_text _ _ _ HInv) in Htext. congruence. }
  split.
  - intros event Hin Hevent.
    apply elem_of_cons in Hin as [->|Hin]; [done|].
    apply elem_of_cons in Hin as [->|Hin]; [done|].
    apply elem_of_app in Hin as [Hin|Hin].
    + eapply Forall_forall in Hin; [|apply (inv_events _ _ _ HInv)].
      apply openIn_opened in Hin as (i & Hi & Hopen & _). congruence.
    + destruct (streamLoop openaiStream requestId).2 as [error|st'] eqn:Hresult;
        simpl in Hin.
      * by apply list_elem_of_singleton in Hin as ->.
      * rewrite (Hsame st' eq_refl) in Hin.
        apply elem_of_app in Hin as [Hin|Hin].
        -- apply elem_of_stopEvents in Hin as (i & -> & Hi).
           simpl in Hevent. congruence.
        -- apply elem_of_cons in Hin as [->|Hin]; [done|].
           by apply list_elem_of_singleton in Hin as ->.
  - intros [st' Hst]. apply Hsame in Hst as Heq. subst st'.
    rewrite Hst. simpl. exists (finalAnthropicStopReason st).
    rewrite <- Htokens.
    apply elem_of_cons; right. apply elem_of_cons; right.
    apply elem_of_app; right. apply elem_of_app; right.
    apply list_elem_of_here.
Qed.
End claims.

(** ** The transcoder on sample streams *)

Example estimateTokenCount_hello : estimateTokenCount "hello" = 2.
Proof. reflexivity. Qed.

Example dataMatch_payload : dataMatch "data: [DONE]" = Some "[DONE]".
Proof. reflexivity. Qed.

Example dataMatch_bare : dataMatch "{}" = None.
Proof. reflexivity. Qed.

(** A block keeps the index of its first use when it is started late: the
    tool block met first is started after the text block. *)
Example starts_follow_opening_order `{Builtins} :
  firstUseOrder lateOpenedToolCall = [ToolKey 0; TextKey]
  ∧ convertOpenAIStreamToAnthropic lateOpenedToolCall
      "claude" (JNum 12) "req" "0123456789abcdef"
    = [MessageStart "msg_stream_req_01234567" "claude" [] (JNum 12) 0;
       Ping;
       ContentBlockStart 1 (StartText "");
       ContentBlockDelta 1 (TextDelta "hi");
       ContentBlockStart 0 (StartToolUse "call_1" "sum" (JObj []));
       ContentBlockDelta 0 (InputJsonDelta ",2]");
       ContentBlockStop 1;
       ContentBlockStop 0;
       MessageDelta "tool_use" 3;
       MessageStop].
Proof. split; reflexivity. Qed.

Lemma normal_termination_framing_witness :
  terminatesNormally (H := sampleBuiltins) lateNamedToolCall "req"
  ∧ ∃ body stop_reason output_tokens,
      convertOpenAIStreamToAnthropic (H := sampleBuiltins) lateNamedToolCall
        "claude" (JNum 12) "req" "0123456789abcdef"
      = MessageStart "msg_stream_req_01234567" "claude" [] (JNum 12) 0
        :: Ping
        :: body ++ [MessageDelta stop_reason output_tokens; MessageStop]
      ∧ Forall isContentBlockEvent body.
Proof.
  assert (Hnormal : terminatesNormally (H := sampleBuiltins) lateNamedToolCall "req")
    by (eexists; vm_compute; reflexivity).
  split; [exact Hnormal|].
  exact (normal_termination_framing (H := sampleBuiltins) lateNamedToolCall
           "claude" (JNum 12) "req" "0123456789abcdef" Hnormal).
Defined.

(** C3, as stated: when the upstream rejects after a text chunk, the text
    block has been started and is never stopped; the output ends with the
    error event. *)
Lemma start_without_stop_on_error :
  let events :=
    convertOpenAIStreamToAnthropic (H := sampleBuiltins) brokenTextStream
      "claude" (JNum 12) "req" "0123456789abcdef" in
  events
  = [MessageStart "msg_stream_req_01234567" "claude" [] (JNum 12) 0;
     Ping;
     ContentBlockStart 0 (StartText "");
     ContentBlockDelta 0 (TextDelta "hi");
     ErrorEvent "api_error" "socket closed"]
  ∧ ¬ (∀ i block, ContentBlockStart i block ∈ events → stopCount i events = 1).
Proof.
  split; [reflexivity|].
  intros Hstops.
  specialize (Hstops 0 (StartText "")).
  assert (Hzero : stopCount 0
            (convertOpenAIStreamToAnthropic (H := sampleBuiltins)
               brokenTextStream "claude" (JNum 12) "req" "0123456789abcdef")
            = 0) by reflexivity.
  rewrite Hzero in Hstops.
  assert (0 = 1) as [=]. apply Hstops.
  do 2 apply list_elem_of_further. apply list_elem_of_here.
Qed.

(** Two tool calls that come interleaved: each block is started with the
    id and the name of its own tool call and gets its own fragments. *)
Example two_tool_calls_events :
  firstUseOrder (H := sampleBuiltins) twoToolCalls = [ToolKey 4; ToolKey 2]
  ∧ convertOpenAIStreamToAnthropic (H := sampleBuiltins) twoToolCalls
      "claude" (JNum 12) "req" "0123456789abcdef"
    = [MessageStart "msg_stream_req_01234567" "claude" [] (JNum 12) 0;
       Ping;
       ContentBlockStart 0 (StartToolUse "call_a" "sum" (JObj []));
       ContentBlockDelta 0 (InputJsonDelta "[1");
       ContentBlockStart 1 (StartToolUse "call_b" "neg" (JObj []));
       ContentBlockDelta 1 (InputJsonDelta "[7]");
       ContentBlockDelta 0 (InputJsonDelta ",2]");
       ContentBlockStop 0;
       ContentBlockStop 1;
       MessageDelta "tool_use" 3;
       MessageStop].
Proof. split; reflexivity. Qed.

Lemma block_indices_and_stops_witness :
  let events :=
    convertOpenAIStreamToAnthropic (H := sampleBuiltins) twoToolCalls
      "claude" (JNum 12) "req" "0123456789abcdef" in
  NoDup (firstUseOrder (H := sampleBuiltins) twoToolCalls)
  ∧ (∀ i block,
       ContentBlockStart i block ∈ events
       → ∃ key, firstUseOrder (H := sampleBuiltins) twoToolCalls !! i = Some key
                ∧ startOf (H := sampleBuiltins) twoToolCalls key block)
  ∧ (∀ i delta,
       ContentBlockDelta i delta ∈ events
       → ∃ key, firstUseOrder (H := sampleBuiltins) twoToolCalls !! i = Some key
                ∧ deltaOf (H := sampleBuiltins) twoToolCalls key delta)
  ∧ NoDup (omap startIndexOf events)
  ∧ (terminatesNormally (H := sampleBuiltins) twoToolCalls "req"
     → ∀ i block,
         ContentBlockStart i block ∈ events
         → stopCount i events = 1
           ∧ ∃ before between after,
               events = before ++ ContentBlockStart i block
                               :: between ++ ContentBlockStop i :: after)
  ∧ (¬ terminatesNormally (H := sampleBuiltins) twoToolCalls "req"
     → ∀ i, stopCount i events = 0).
Proof.
  exact (block_indices_and_stops (H := sampleBuiltins) twoToolCalls
           "claude" (JNum 12) "req" "0123456789abcdef").
Defined.

(** C5, as stated: a stream that ends after a text chunk, without a finish
    reason, is still closed with [content_block_stop], [message_delta] and
    [message_stop]. *)
Lemma closing_events_after_exhaustion :
  let events :=
    convertOpenAIStreamToAnthropic (H := sampleBuiltins) unfinishedTextStream
      "claude" (JNum 12) "req" "0123456789abcdef" in
  endsWithoutFinishReason (H := sampleBuiltins) unfinishedTextStream = true
  ∧ events
    = [MessageStart "msg_stream_req_01234567" "claude" [] (JNum 12) 0;
       Ping;
       ContentBlockStart 0 (StartText "");
       ContentBlockDelta 0 (TextDelta "hi");
       ContentBlockStop 0;
       MessageDelta "end_turn" 1;
       MessageStop]
  ∧ ¬ Forall (λ event, ¬ isClosingEvent event) events.
Proof.
  split; [reflexivity|]. split; [reflexivity|].
  intros Hnone.
  apply (Forall_forall (λ event, ¬ isClosingEvent event)) with (x := MessageStop)
    in Hnone.
  - by apply Hnone.
  - do 6 apply list_elem_of_further. apply list_elem_of_here.
Qed.

(** A text chunk, then a chunk whose payload parses to [null]: reading
    [choices] of it raises, and the output ends with the error event; the
    text block that was started is not stopped. *)
Example null_chunk_ends_with_error :
  endsWithoutFinishReason (H := sampleBuiltins) nullChunkStream = true
  ∧ raisedBy (H := sampleBuiltins) (ChunkString "data: null")
    = Some (ThrownError
              "null is not an object (evaluating 'parsedChunk.choices')")
  ∧ convertOpenAIStreamToAnthropic (H := sampleBuiltins) nullChunkStream
      "claude" (JNum 12) "req" "0123456789abcdef"
    = [MessageStart "msg_stream_req_01234567" "claude" [] (JNum 12) 0;
       Ping;
       ContentBlockStart 0 (StartText "");
       ContentBlockDelta 0 (TextDelta "hi");
       ErrorEvent "api_error"
         "null is not an object (evaluating 'parsedChunk.choices')"].
Proof. split; [reflexivity|]. split; reflexivity. Qed.

Lemma exhausted_stream_is_closed_witness :
  endsWithoutFinishReason (H := sampleBuiltins) nullChunkStream = true
  ∧ let events :=
      convertOpenAIStreamToAnthropic (H := sampleBuiltins) nullChunkStream
        "claude" (JNum 12) "req" "0123456789abcdef" in
    let opening :=
      [MessageStart
         ("msg_stream_" +:+ "req" +:+ "_"
          +:+ String.substring 0 8 "0123456789abcdef")
         "claude" [] (JNum 12) 0;
       Ping] in
    (terminatesNormally (H := sampleBuiltins) nullChunkStream "req"
     → ∃ stops,
         events
         = opening
           ++ (streamLoop (H := sampleBuiltins) nullChunkStream "req").1
           ++ map ContentBlockStop stops
           ++ [MessageDelta "end_turn"
                 (estimateOfStream (H := sampleBuiltins) nullChunkStream);
               MessageStop]
         ∧ stops
           ≡ₚ omap startIndexOf
                (streamLoop (H := sampleBuiltins) nullChunkStream "req").1)
    ∧ (¬ terminatesNormally (H := sampleBuiltins) nullChunkStream "req"
       → ∃ chunk error,
           chunk ∈ chunksOf nullChunkStream
           ∧ raisedBy (H := sampleBuiltins) chunk = Some error
           ∧ events
             = opening
               ++ (streamLoop (H := sampleBuiltins) nullChunkStream "req").1
               ++ [ErrorEvent "api_error" (errorMessage error)]).
Proof.
  split; [reflexivity|].
  exact (exhausted_stream_is_closed (H := sampleBuiltins) nullChunkStream
           "claude" (JNum 12) "req" "0123456789abcdef" eq_refl).
Defined.

Lemma unopened_tool_call_is_silent_witness :
  (∀ toolDelta,
     toolDelta ∈ toolDeltasFor (H := sampleBuiltins) namelessToolCall 7
     → bringsNoName toolDelta)
  ∧ firstUseOrder (H := sampleBuiltins) namelessToolCall !! 0 = Some (ToolKey 7)
  ∧ let events :=
      convertOpenAIStreamToAnthropic (H := sampleBuiltins) namelessToolCall
        "claude" (JNum 12) "req" "0123456789abcdef" in
    (∀ event, event ∈ events → blockIndexOf event ≠ Some 0)
    ∧ (terminatesNormally (H := sampleBuiltins) namelessToolCall "req"
       → ∃ stop_reason,
           MessageDelta stop_reason
             (estimateOfStream (H := sampleBuiltins) namelessToolCall)
             ∈ events).
Proof.
  assert (Hnever : ∀ toolDelta,
    toolDelta ∈ toolDeltasFor (H := sampleBuiltins) namelessToolCall 7
    → bringsNoName toolDelta).
  { intros toolDelta Hin.
    change (toolDelta
              ∈ [{| dtc_index := 7;
                    dtc_id := Some "call_9";
                    dtc_function :=
                      Some {| df_name := None; df_arguments := Some "{}" |} |}])
      in Hin.
    apply list_elem_of_singleton in Hin. subst toolDelta. reflexivity. }
  split; [exact Hnever|]. split; [reflexivity|].
  exact (unopened_tool_call_is_silent (H := sampleBuiltins) namelessToolCall
           "claude" (JNum 12) "req" "0123456789abcdef" 7 0
           (or_introl Hnever) eq_refl).
Defined.

(** C1: on a tool call whose id and name come with the last of three
    argument fragments, the fragments received make up [[1,2,3]] and the
    argument buffer of the block holds all of it, but the
    [input_json_delta] events sent for the block carry only the last
    fragment: the two fragments buffered before the block could be started
    are never sent. *)
Theorem late_named_tool_call_drops_fragments `{Builtins} :
  let events :=
    convertOpenAIStreamToAnthropic lateNamedToolCall
      "claude" (JNum 12) "req" "0123456789abcdef" in
  events
  = [MessageStart "msg_stream_req_01234567" "claude" [] (JNum 12) 0;
     Ping;
     ContentBlockStart 0 (StartToolUse "call_1" "sum" (JObj []));
     ContentBlockDelta 0 (InputJsonDelta ",3]");
     ContentBlockStop 0;
     MessageDelta "tool_use" 3;
     MessageStop]
  ∧ String.concat "" (omap argumentsOf (toolDeltasFor lateNamedToolCall 0))
    = "[1,2,3]"
  ∧ (∃ st, (streamLoop lateNamedToolCall "req").2 = inr st
           ∧ ts_argumentsBuffer <$> toolStates st !! 0 = Some "[1,2,3]")
  ∧ String.concat "" (omap (inputJsonOf 0) events) = ",3]".
Proof.
  split; [reflexivity|]. split; [reflexivity|].
  split; [|reflexivity].
  eexists. split; [vm_compute; reflexivity|reflexivity].
Qed.

(** ** The streaming branch of the handler *)

(** C6: [message_start] carries, as [usage.input_tokens], the whole
    [{input, output}] object that the estimator returns, not its integer
    [input] component. *)
Theorem message_start_carries_token_record `{Builtins}
    (openaiMessages : list Message) (response : Upstream)
    (model requestId uuid : string) :
  ∃ id rest,
    streamAnthropicMessages openaiMessages response model requestId uuid
    = MessageStart id model []
        (JObj [("input", JNum (input (getTokenCount openaiMessages)));
               ("output", JNum (output (getTokenCount openaiMessages)))])
        0
      :: rest
    ∧ JObj [("input", JNum (input (getTokenCount openaiMessages)));
            ("output", JNum (output (getTokenCount openaiMessages)))]
      ≠ JNum (input (getTokenCount openaiMessages)).
Proof.
  unfold streamAnthropicMessages. rewrite convertOpenAIStreamToAnthropic_eq.
  simpl. eexists _, _. split; [reflexivity|discriminate].
Qed.

Example message_start_of_hi :
  head (streamAnthropicMessages (H := sampleBuiltins)
          [{| msg_role := "user";
              msg_content := ContentString "hi";
              msg_tool_calls := None;
              msg_tool_call_id := None;
              msg_name := None |}]
          Done "claude" "req" "0123456789abcdef")
  = Some (MessageStart "msg_stream_req_01234567" "claude" []
            (JObj [("input", JNum 2); ("output", JNum 0)]) 0).
Proof. reflexivity. Qed.

(** ** More on the loop of the transcoder *)

Lemma mapStopReason_produced (reason : string) :
  reason ∉ objectPrototypeKeys →
  ∃ name, mapStopReason reason = StopReasonString name
          ∧ name ∈ producedStopReasons.
Proof.
  intros Hown.
  destruct (mapStopReason_string reason Hown) as (name & Hname & Hin & _).
  by exists name.
Qed.

Section more_loop.
Context `{Builtins} (requestId : string).

Lemma handleChunk_cases (st : TranscoderState) (chunk : RawChunk) :
  match firstChoice chunk with
  | inl error => handleChunk requestId st chunk = ([], inl error)
  | inr None => handleChunk requestId st chunk = ([], inr (st, Continue))
  | inr (Some choice) =>
      ∃ events,
        (∃ error, handleChunk requestId st chunk = (events, inl error))
        ∨ ∃ st',
            handleChunk requestId st chunk
            = (events, inr (handleFinishReason st' (choice_finish_reason choice)))
  end.
Proof.
  unfold handleChunk. destruct (firstChoice chunk) as [error|[choice|]]; [done| |done].
  destruct (present "delta.content" (choice_delta choice)) as [error|delta];
    [by eauto|].
  destruct (handleText st _) as [st1 textEvents].
  destruct (match delta_tool_calls _ with Some _ => _ | None => _ end)
    as [toolEvents [error|st2]]; eexists; eauto.
Qed.

(** The loop stops reading at the first chunk with a finish reason. *)
Lemma forAwait_after_finish (chunk : RawChunk) (choice : Choice)
    (rest rest' : Upstream) (chunks : list RawChunk) :
  firstChoice chunk = inr (Some choice) →
  is_Some (truthy (choice_finish_reason choice)) →
  ∀ st,
    forAwait requestId st (yieldAll chunks (Yield chunk rest))
    = forAwait requestId st (yieldAll chunks (Yield chunk rest')).
Proof.
  intros Hchoice [reason Hreason].
  induction chunks as [|first chunks IH]; intros st; simpl.
  - pose proof (handleChunk_cases st chunk) as Hcases.
    rewrite Hchoice in Hcases.
    destruct Hcases as (events & [[error ->]|[st' ->]]); [done|].
    unfold handleFinishReason. by rewrite Hreason.
  - destruct (handleChunk requestId st first) as [events [error|[st' [|]]]];
      [done| |done].
    by rewrite IH.
Qed.

(** A chunk without a first choice leaves no trace. *)
Lemma forAwait_skip (chunk : RawChunk) (rest : Upstream)
    (chunks : list RawChunk) :
  firstChoice chunk = inr None →
  ∀ st,
    forAwait requestId st (yieldAll chunks (Yield chunk rest))
    = forAwait requestId st (yieldAll chunks rest).
Proof.
  intros Hchoice.
  induction chunks as [|first chunks IH]; intros st; simpl.
  - pose proof (handleChunk_cases st chunk) as Hcases.
    rewrite Hchoice in Hcases. rewrite Hcases.
    by destruct (forAwait requestId st rest).
  - destruct (handleChunk requestId st first) as [events [error|[st' [|]]]];
      [done| |done].
    by rewrite IH.
Qed.

End more_loop.

Lemma stops_no_text (indices : list nat) :
  omap textDeltaOf (map ContentBlockStop indices) = []
  ∧ filter isTextStart (map ContentBlockStop indices) = [].
Proof.
  induction indices as [|i indices [IH1 IH2]]; [done|]. split.
  - exact IH1.
  - simpl. rewrite filter_cons_False by (by intros ?). exact IH2.
Qed.

Lemma afterLoop_no_text (result : Thrown + TranscoderState) :
  omap textDeltaOf (afterLoop result) = []
  ∧ filter isTextStart (afterLoop result) = [].
Proof.
  destruct result as [error|st]; [done|]. unfold afterLoop, stopEvents.
  rewrite !omap_app, !filter_app.
  destruct (stops_no_text (sentToolBlockStarts st)) as [-> ->].
  by destruct (textBlockAnthropicIdx st).
Qed.

Lemma NoDup_constant (i : nat) (l : list nat) :
  NoDup l → (∀ j, j ∈ l → j = i) → (length l ≤ 1)%nat.
Proof.
  destruct 1 as [|j l Hj Hnodup]; intros Hall; [simpl; lia|].
  destruct l as [|j' l]; [simpl; lia|].
  exfalso. apply Hj.
  rewrite (Hall j), (Hall j'); [apply list_elem_of_here|set_solver..].
Qed.

Section more_claims.
Context `{Builtins}.

Lemma normal_termination_tail (openaiStream : Upstream)
    (model : string) (estimatedInputTokens : JSValue)
    (requestId uuid : string) :
  terminatesNormally openaiStream requestId →
  ∃ body,
    convertOpenAIStreamToAnthropic openaiStream model estimatedInputTokens
      requestId uuid
    = body ++ [MessageDelta
                 match finishReasonOf openaiStream with
                 | Some reason => mapStopReason reason
                 | None => StopReasonString "end_turn"
                 end
                 (estimateOfStream openaiStream);
               MessageStop].
Proof.
  intros [st Hst]. rewrite convertOpenAIStreamToAnthropic_eq.
  destruct (streamLoop_spec openaiStream requestId)
    as (st' & HInv & Hsame & [_ Hstop] & Htokens & _).
  apply Hsame in Hst as Heq. subst st'. rewrite Hst. simpl.
  rewrite Hstop, Htokens.
  eexists (_ :: _ :: _ ++ _). simpl. by rewrite <- app_assoc.
Qed.

(** When the transcoder terminates normally, [message_delta] carries the
    stop reason that the table gives for the finish reason that ended the
    loop ([end_turn] when none did), which is one of [end_turn],
    [max_tokens], [tool_use] and [stop_sequence] and is [tool_use] for
    [tool_calls], and it carries the estimate of all text and argument
    fragments handled. *)
Theorem message_delta_stop_reason_and_usage (openaiStream : Upstream)
    (model : string) (estimatedInputTokens : JSValue)
    (requestId uuid : string) :
  terminatesNormally openaiStream requestId →
  let stop_reason :=
    match finishReasonOf openaiStream with
    | Some reason => mapStopReason reason
    | None => StopReasonString "end_turn"
    end in
  (∃ body,
     convertOpenAIStreamToAnthropic openaiStream model estimatedInputTokens
       requestId uuid
     = body ++ [MessageDelta stop_reason (estimateOfStream openaiStream);
                MessageStop])
  ∧ match finishReasonOf openaiStream with
    | Some reason =>
        if bool_decide (reason ∈ objectPrototypeKeys)
        then stop_reason = InheritedMember reason
        else ∃ name, stop_reason = StopReasonString name
                     ∧ name ∈ producedStopReasons
    | None => stop_reason = "end_turn"
    end
  ∧ (finishReasonOf openaiStream = Some "tool_calls" → stop_reason = "tool_use").
Proof.
  intros Hnormal stop_reason. subst stop_reason. split; [|split].
  - by apply normal_termination_tail.
  - destruct (finishReasonOf openaiStream) as [reason|]; [|done].
    case_bool_decide as Hin.
    + by apply mapStopReason_inherited.
    + by apply mapStopReason_produced.
  - by intros ->.
Qed.

(** Nothing that follows the first chunk with a finish reason changes the
    output: the chunks after it are not read, and a rejection of the
    upstream after it is not seen. *)
Theorem chunks_after_finish_are_ignored (chunks : list RawChunk)
    (chunk : RawChunk) (choice : Choice) (rest rest' : Upstream)
    (model : string) (estimatedInputTokens : JSValue)
    (requestId uuid : string) :
  firstChoice chunk = inr (Some choice) →
  is_Some (truthy (choice_finish_reason choice)) →
  convertOpenAIStreamToAnthropic (yieldAll chunks (Yield chunk rest))
    model estimatedInputTokens requestId uuid
  = convertOpenAIStreamToAnthropic (yieldAll chunks (Yield chunk rest'))
      model estimatedInputTokens requestId uuid.
Proof.
  intros Hchoice Hreason. unfold convertOpenAIStreamToAnthropic, streamLoop.
  by rewrite (forAwait_after_finish requestId chunk choice rest rest').
Qed.

(** A chunk that does not parse, or that has no [choices] or an empty
    [choices] array, is skipped: the output is the same as without it. *)
Theorem skipped_chunk_leaves_no_trace (chunks : list RawChunk)
    (chunk : RawChunk) (rest : Upstream)
    (model : string) (estimatedInputTokens : JSValue)
    (requestId uuid : string) :
  parseChunk chunk = None
  ∨ (∃ parsed, parseChunk chunk = Some (Present parsed)
               ∧ (chunk_choices parsed = None ∨ chunk_choices parsed = Some [])) →
  convertOpenAIStreamToAnthropic (yieldAll chunks (Yield chunk rest))
    model estimatedInputTokens requestId uuid
  = convertOpenAIStreamToAnthropic (yieldAll chunks rest)
      model estimatedInputTokens requestId uuid.
Proof.
  intros Hskip. unfold convertOpenAIStreamToAnthropic, streamLoop.
  rewrite (forAwait_skip requestId chunk rest); [done|].
  unfold firstChoice.
  destruct Hskip as [->|(parsed & -> & Hchoices)]; [done|]. simpl.
  by destruct Hchoices as [->| ->].
Qed.

(** When the upstream rejects before a finish reason was seen, the output
    is [message_start], [ping], the starts and deltas yielded so far, and
    one [error] event of type [api_error] with the message of the
    rejection: no block is stopped and there is no [message_delta] and no
    [message_stop]. *)
Theorem rejection_ends_with_error_event (openaiStream : Upstream)
    (model : string) (estimatedInputTokens : JSValue)
    (requestId uuid : string) (error : Thrown) :
  rejection openaiStream = Some error →
  ∃ body,
    convertOpenAIStreamToAnthropic openaiStream model estimatedInputTokens
      requestId uuid
    = MessageStart
        ("msg_stream_" +:+ requestId +:+ "_" +:+ String.substring 0 8 uuid)
        model [] estimatedInputTokens 0
      :: Ping
      :: body ++ [ErrorEvent "api_error" (errorMessage error)]
    ∧ Forall isStartOrDelta body.
Proof.
  intros Hrej. rewrite convertOpenAIStreamToAnthropic_eq.
  pose proof (forAwait_failure requestId openaiStream initialState [] []
                Inv_initial) as Hresult.
  rewrite (rejection_failure _ _ Hrej) in Hresult.
  destruct (streamLoop_spec openaiStream requestId) as (st & HInv & _).
  unfold streamLoop in *. rewrite Hresult. simpl.
  eexists. split; [done|].
  eapply Forall_impl; [apply (inv_events _ _ _ HInv)|].
  by intros [| |i [|]|i [|]| | | |].
Qed.

(** Every non-empty text fragment the loop handles is sent as one
    [text_delta], in order and unchanged, and nothing else is; all events
    of the text block carry one index, and the text block is started at
    most once. *)
Theorem text_fragments_are_forwarded (openaiStream : Upstream)
    (model : string) (estimatedInputTokens : JSValue)
    (requestId uuid : string) :
  let events :=
    convertOpenAIStreamToAnthropic openaiStream model estimatedInputTokens
      requestId uuid in
  omap textDeltaOf events = omap textOfChoice (consumedChoices openaiStream)
  ∧ (∀ event event',
       event ∈ events → event' ∈ events
       → isTextEvent event → isTextEvent event'
       → blockIndexOf event = blockIndexOf event')
  ∧ (length (filter isTextStart events) ≤ 1)%nat.
Proof.
  intros events. subst events. rewrite convertOpenAIStreamToAnthropic_eq.
  destruct (streamLoop_spec openaiStream requestId) as (st & HInv & _).
  destruct (afterLoop_no_text (streamLoop openaiStream requestId).2)
    as [Hafter1 Hafter2].
  set (loop := (streamLoop openaiStream requestId).1) in *.
  assert (Htext : ∀ event,
    event ∈ [MessageStart
               ("msg_stream_" +:+ requestId +:+ "_" +:+ String.substring 0 8 uuid)
               model [] estimatedInputTokens 0; Ping]
            ++ loop ++ afterLoop (streamLoop openaiStream requestId).2
    → isTextEvent event
    → event ∈ loop ∧ textBlockAnthropicIdx st = blockIndexOf event).
  { intros event Hin Hevent.
    apply elem_of_app in Hin as [Hin|Hin].
    { apply elem_of_cons in Hin as [->|Hin]; [done|].
      by apply list_elem_of_singleton in Hin as ->. }
    apply elem_of_app in Hin as [Hin|Hin].
    - split; [done|].
      eapply Forall_forall in Hin as Hopen; [|apply (inv_events _ _ _ HInv)].
      by destruct event as [| |i [|]|i [|]| | | |].
    - exfalso. destruct (streamLoop openaiStream requestId).2 as [e|st'];
        simpl in Hin.
      + by apply list_elem_of_singleton in Hin as ->.
      + apply elem_of_app in Hin as [Hin|Hin].
        * by apply elem_of_stopEvents in Hin as (i & -> & _).
        * apply elem_of_cons in Hin as [->|Hin]; [done|].
          by apply list_elem_of_singleton in Hin as ->. }
  split; [|split].
  - rewrite !omap_app, Hafter1, app_nil_r. simpl.
    apply (forAwait_textDeltas requestId openaiStream [] initialState []
             Inv_initial).
  - intros event event' Hin Hin' Hevent Hevent'.
    destruct (Htext _ Hin Hevent) as [_ <-].
    by destruct (Htext _ Hin' Hevent') as [_ <-].
  - rewrite !filter_app, Hafter2, app_nil_r. simpl.
    rewrite <- (length_fmap (λ event, default 0 (startIndexOf event))).
    apply (NoDup_constant (default 0 (textBlockAnthropicIdx st))).
    + assert (Hnodup : NoDup (omap startIndexOf loop)).
      { subst loop. rewrite (inv_starts _ _ _ HInv). eapply NoDup_opened, HInv. }
      eapply sublist_NoDup; [exact Hnodup|].
      clear. induction loop as [|event loop IH]; [done|].
      destruct (isTextStart event) eqn:Hstart.
      * rewrite filter_cons_True by (by rewrite Hstart).
        destruct event as [| |i [|]|i [|]| | | |]; try done.
        simpl. constructor. apply IH.
      * rewrite filter_cons_False by (rewrite Hstart; by intros ?).
        simpl. destruct (startIndexOf event); [constructor|]; apply IH.
    + intros j (event & -> & [Hstart Hin]%list_elem_of_filter)%list_elem_of_fmap.
      eapply Forall_forall in Hin as Hopen; [|apply (inv_events _ _ _ HInv)].
      destruct event as [| |i [|]|i [|]| | | |]; try done.
      simpl in *. by rewrite Hopen.
Qed.
End more_claims.

(** ** Tool calls that are named from the start *)

Lemma openIn_no_payload (st : TranscoderState) (j : nat)
    (events : list AnthropicStreamEvent) :
  Forall (openIn st) events → j ∉ sentToolBlockStarts st →
  omap (inputJsonOf j) events = [].
Proof.
  intros Hevents Hj. induction Hevents as [|event events Hevent _ IH]; [done|].
  destruct event as [| |i [|]|i [|]| | | |]; simpl in *; try done.
  by rewrite decide_False by (by intros ->).
Qed.

Lemma other_block_no_payload (cur j : nat) (events : list AnthropicStreamEvent) :
  Forall (λ event, blockIndexOf event = Some cur) events → j ≠ cur →
  omap (inputJsonOf j) events = [].
Proof.
  intros Hevents Hj. induction Hevents as [|event events Hevent _ IH]; [done|].
  destruct event as [| |i [|]|i [|]| | | |]; simpl in *; try done.
  injection Hevent as ->. by rewrite decide_False.
Qed.

Lemma canStart_brought (requestId : string) (idx : nat)
    (toolDelta : DeltaToolCall) :
  bringsIdAndName toolDelta →
  let toolState := updateToolState toolDelta (newToolState requestId idx toolDelta) in
  canStart toolState = true
  ∧ ContentBlockStart idx
      (StartToolUse (ts_id toolState) (ts_name toolState) (JObj []))
    = toolStartOf idx toolDelta.
Proof.
  intros [(id & Hid & Hprefix) (function & name & Hfunction & Hname)].
  unfold canStart, updateToolState, newToolState, toolStartOf, orElse. simpl.
  rewrite Hid, Hfunction. simpl. rewrite Hname, Hprefix. simpl.
  apply truthy_Some_inv in Hid as [_ Hid], Hname as [_ Hname].
  destruct (String.eqb_spec id ""), (String.eqb_spec name ""); try done.
  by destruct (String.prefix "tool_ph_" id).
Qed.

Section flowing.
Context `{Builtins} (requestId : string) (k : Z).

Lemma handleToolDelta_flow (keys : list BlockKey) (st st' : TranscoderState)
    (events new : list AnthropicStreamEvent) (toolDelta : DeltaToolCall)
    (handled : list DeltaToolCall) :
  Inv keys st events →
  handleToolDelta requestId st toolDelta = inr (st', new) →
  (openaiToolIdxToAnthropicBlockIdx st !! k = None
   → dtc_index toolDelta = k → bringsIdAndName toolDelta) →
  Flowing k st events handled →
  Flowing k st' (events ++ new) (handled ++ [toolDelta]).
Proof.
  intros HInv Hstep Hgood Hflow.
  destruct (allocateToolBlock_spec requestId keys st events toolDelta HInv)
    as (HInv1 & [cur Hcur] & _).
  unfold handleToolDelta in Hstep. rewrite Hcur in Hstep.
  destruct (toolStates _ !! cur) as [toolState|] eqn:Hts; [|done].
  assert (Hemit : emitToolDelta (allocateToolBlock requestId st toolDelta)
                    cur toolState toolDelta = (st', new)) by congruence.
  clear Hstep. rename Hemit into Hstep.
  unfold Flowing in *. rewrite filter_app.
  unfold allocateToolBlock in *.
  destruct (openaiToolIdxToAnthropicBlockIdx st !! dtc_index toolDelta)
    as [cur'|] eqn:Hold.
  - (* the tool call has its block *)
    assert (cur' = cur) as -> by congruence. clear Hcur.
    unfold emitToolDelta in Hstep. cbv zeta in Hstep.
    injection Hstep as <- <-. simpl.
    destruct (openaiToolIdxToAnthropicBlockIdx st !! k) as [j|] eqn:Hk.
    + destruct Hflow as (Hsent & Hpayloads & first & Hfirst & Hstart).
      destruct (decide (dtc_index toolDelta = k)) as [Hidx|Hidx].
      * assert (j = cur) as -> by congruence.
        rewrite bool_decide_eq_true_2 by done. simpl.
        rewrite bool_decide_eq_true_2 by done.
        rewrite filter_cons_True, filter_nil by done.
        split; [done|]. split.
        -- rewrite !omap_app, Hpayloads. f_equal. simpl.
           destruct (argumentsOf toolDelta); [|done].
           simpl. by rewrite decide_True.
        -- exists first. split.
           ++ by destruct (filter _ handled).
           ++ apply elem_of_app. by left.
      * assert (j ≠ cur).
        { intros ->. apply Hidx. symmetry. by eapply Inv_index_inj. }
        rewrite filter_cons_False, filter_nil, app_nil_r by done.
        split.
        { destruct (negb _ && _); [|done]. apply elem_of_app. by left. }
        split.
        -- rewrite !omap_app, Hpayloads.
           rewrite !(other_block_no_payload cur j), !app_nil_r; [done|..]; try done.
           ++ destruct (argumentsOf toolDelta); [|done].
              destruct (bool_decide _); by repeat constructor.
           ++ destruct (negb _ && _); by repeat constructor.
        -- exists first. split; [done|]. apply elem_of_app. by left.
    + destruct (decide (dtc_index toolDelta = k)) as [Hidx|Hidx];
        [congruence|].
      by rewrite filter_cons_False, filter_nil, app_nil_r.
  - (* the tool call gets its block now *)
    simpl in Hcur, Hts. rewrite lookup_insert_eq in Hcur. injection Hcur as <-.
    rewrite lookup_insert_eq in Hts. injection Hts as <-.
    pose proof (Inv_next_not_sent _ _ _ HInv) as Hnext.
    unfold emitToolDelta in Hstep. cbv zeta in Hstep.
    destruct (decide (dtc_index toolDelta = k)) as [Hidx|Hidx].
    + rewrite <- Hidx in Hflow, Hgood.
      rewrite Hold in Hflow. specialize (Hgood Hold eq_refl).
      destruct (canStart_brought requestId (nextAnthropicBlockIdx st)
                  toolDelta Hgood) as [Hcan Hevent].
      cbv zeta in Hcan, Hevent.
      remember (updateToolState toolDelta
                  (newToolState requestId (nextAnthropicBlockIdx st) toolDelta))
        as toolState' eqn:HtoolState'.
      simpl in Hstep.
      rewrite Hcan, bool_decide_eq_false_2, Hevent in Hstep by done.
      simpl in Hstep.
      rewrite bool_decide_eq_true_2 in Hstep
        by (apply elem_of_app; right; apply list_elem_of_here).
      injection Hstep as <- <-. simpl.
      rewrite <- Hidx, lookup_insert_eq.
      rewrite Hidx in *. rewrite Hflow, filter_cons_True, filter_nil by done.
      simpl. split; [apply elem_of_app; right; apply list_elem_of_here|].
      split.
      * rewrite omap_app,
          (openIn_no_payload st) by (done || apply (inv_events _ _ _ HInv)).
        simpl. destruct (argumentsOf toolDelta); [|done].
        simpl. by rewrite decide_True.
      * exists toolDelta. split; [done|].
        apply elem_of_app. right. apply list_elem_of_here.
    + simpl in Hstep. injection Hstep as <- <-. simpl.
      rewrite lookup_insert_ne by done.
      rewrite filter_cons_False, filter_nil, app_nil_r by done.
      destruct (openaiToolIdxToAnthropicBlockIdx st !! k) as [j|] eqn:Hk;
        [|done].
      destruct Hflow as (Hsent & Hpayloads & first & Hfirst & Hstart).
      assert (j ≠ nextAnthropicBlockIdx st) by (by intros ->).
      split.
      { destruct (negb _ && _); [|done]. apply elem_of_app. by left. }
      split.
      * rewrite !omap_app, Hpayloads.
        rewrite !(other_block_no_payload (nextAnthropicBlockIdx st) j),
          !app_nil_r; [done|..]; try done.
        -- destruct (argumentsOf toolDelta); [|done].
           destruct (bool_decide _); by repeat constructor.
        -- destruct (negb _ && _); by repeat constructor.
      * exists first. split; [done|]. apply elem_of_app. by left.
Qed.
End flowing.

Lemma text_events_no_payload (st : TranscoderState) (content : option string)
    (j : nat) :
  omap (inputJsonOf j) (handleText st content).2 = [].
Proof.
  unfold handleText. destruct (truthy content); [|done].
  by destruct (textBlockAnthropicIdx st).
Qed.

Lemma afterLoop_no_payload (result : Thrown + TranscoderState) (j : nat) :
  omap (inputJsonOf j) (afterLoop result) = [].
Proof.
  destruct result as [error|st]; [done|]. unfold afterLoop, stopEvents.
  rewrite !omap_app.
  replace (omap (inputJsonOf j) (map ContentBlockStop (sentToolBlockStarts st)))
    with (@nil string) by (by induction (sentToolBlockStarts st)).
  by destruct (textBlockAnthropicIdx st).
Qed.

Section flowing_loop.
Context `{Builtins} (requestId : string) (k : Z).

Lemma namedFromStart_prefix (handled more : list DeltaToolCall) :
  namedFromStart k (handled ++ more) → namedFromStart k handled.
Proof.
  intros Hnamed first Hfirst. apply Hnamed.
  rewrite filter_app. by destruct (filter _ handled).
Qed.

Lemma FlowingIfNamed_text (keys : list BlockKey) (handled : list DeltaToolCall)
    (st : TranscoderState) (events : list AnthropicStreamEvent)
    (content : option string) :
  Inv keys st events → FlowingIfNamed k handled st events →
  FlowingIfNamed k handled (handleText st content).1
    (events ++ (handleText st content).2).
Proof.
  intros HInv Hflow Hnamed. specialize (Hflow Hnamed).
  destruct (handleText_spec keys st events content HInv)
    as (HInv1 & Hmap1 & Hstates1 & Hsent1 & _).
  pose proof (text_events_no_payload st content) as Htext.
  destruct (handleText st content) as [st1 new1]. simpl in *.
  unfold Flowing in *. rewrite Hmap1, Hsent1.
  destruct (openaiToolIdxToAnthropicBlockIdx st !! k) as [j|]; [|done].
  destruct Hflow as (Hj & Hpayloads & first & Hfirst & Hstart).
  split; [done|]. split; [by rewrite omap_app, Htext, app_nil_r|].
  exists first. split; [done|]. apply elem_of_app. by left.
Qed.

Lemma FlowingIfNamed_tool (keys : list BlockKey) (handled : list DeltaToolCall)
    (st st' : TranscoderState) (events new : list AnthropicStreamEvent)
    (toolDelta : DeltaToolCall) :
  Inv keys st events →
  handleToolDelta requestId st toolDelta = inr (st', new) →
  FlowingIfNamed k handled st events →
  FlowingIfNamed k (handled ++ [toolDelta]) st' (events ++ new).
Proof.
  intros HInv Hstep Hflow Hnamed.
  specialize (Hflow (namedFromStart_prefix _ _ Hnamed)).
  eapply handleToolDelta_flow; [exact HInv|exact Hstep| |exact Hflow].
  intros Hnone Hidx. apply Hnamed.
  unfold Flowing in Hflow. rewrite Hnone in Hflow.
  by rewrite filter_app, Hflow, filter_cons_True.
Qed.

Lemma FlowingIfNamed_finish (handled : list DeltaToolCall)
    (st : TranscoderState) (events : list AnthropicStreamEvent)
    (finish_reason : option string) :
  FlowingIfNamed k handled st events →
  FlowingIfNamed k handled (handleFinishReason st finish_reason).1 events.
Proof.
  intros Hflow Hnamed. specialize (Hflow Hnamed).
  unfold handleFinishReason. by destruct (truthy finish_reason).
Qed.

Lemma forAwait_flow (openaiStream : Upstream) :
  namedFromStart k
    (concat (map toolDeltasOfChoice (consumedChoices openaiStream))) →
  ∃ st,
    Inv (firstUseOrder openaiStream) st (streamLoop openaiStream requestId).1
    ∧ Flowing k st (streamLoop openaiStream requestId).1
        (concat (map toolDeltasOfChoice (consumedChoices openaiStream))).
Proof.
  intros Hnamed.
  destruct (forAwait_carries requestId (FlowingIfNamed k)
              FlowingIfNamed_text FlowingIfNamed_tool FlowingIfNamed_finish
              openaiStream [] initialState [] [] Inv_initial)
    as (st & HInv & Hflow).
  { intros _. unfold Flowing. simpl. by rewrite lookup_empty. }
  exists st. split; [exact HInv|]. by apply Hflow.
Qed.
End flowing_loop.

Section named_tool_calls.
Context `{Builtins}.

(** A tool call whose first delta brings a name and an id that is not a
    placeholder is started with that id and name, and every non-empty
    argument fragment of the tool call is sent for its block as one
    [input_json_delta], in order and unchanged, and nothing else is. *)
Theorem named_tool_call_arguments_are_forwarded (openaiStream : Upstream)
    (model : string) (estimatedInputTokens : JSValue)
    (requestId uuid : string) (openaiTcIdx : Z) (index : nat)
    (first : DeltaToolCall) :
  head (toolDeltasFor openaiStream openaiTcIdx) = Some first →
  bringsIdAndName first →
  firstUseOrder openaiStream !! index = Some (ToolKey openaiTcIdx) →
  let events :=
    convertOpenAIStreamToAnthropic openaiStream model estimatedInputTokens
      requestId uuid in
  omap (inputJsonOf index) events
  = omap argumentsOf (toolDeltasFor openaiStream openaiTcIdx)
  ∧ toolStartOf index first ∈ events.
Proof.
  intros Hfirst Hgood Hindex events. subst events.
  rewrite convertOpenAIStreamToAnthropic_eq.
  destruct (forAwait_flow requestId openaiTcIdx openaiStream)
    as (st & HInv & Hflow).
  { intros first' Hfirst'. unfold toolDeltasFor in Hfirst. congruence. }
  apply (inv_tool _ _ _ HInv) in Hindex.
  unfold Flowing in Hflow. rewrite Hindex in Hflow.
  destruct Hflow as (_ & Hpayloads & first' & Hfirst' & Hstart).
  split.
  - rewrite !omap_app, afterLoop_no_payload, app_nil_r. simpl.
    exact Hpayloads.
  - unfold toolDeltasFor in Hfirst.
    assert (first' = first) as -> by congruence.
    apply elem_of_app. right. apply elem_of_app. by left.
Qed.
End named_tool_calls.

(** A finish reason that is a property name of [Object.prototype]: the
    lookup finds the inherited member, the default is not taken, and
    [message_delta] carries that member where a stop reason should be. *)
Example inherited_finish_reason :
  convertOpenAIStreamToAnthropic (H := sampleBuiltins) inheritedFinishReason
    "claude" (JNum 12) "req" "0123456789abcdef"
  = [MessageStart "msg_stream_req_01234567" "claude" [] (JNum 12) 0;
     Ping;
     ContentBlockStart 0 (StartText "");
     ContentBlockDelta 0 (TextDelta "hi");
     ContentBlockStop 0;
     MessageDelta (InheritedMember "constructor") 1;
     MessageStop].
Proof. reflexivity. Qed.

Lemma message_delta_stop_reason_and_usage_witness :
  terminatesNormally (H := sampleBuiltins) inheritedFinishReason "req"
  ∧ let stop_reason :=
      match finishReasonOf (H := sampleBuiltins) inheritedFinishReason with
      | Some reason => mapStopReason reason
      | None => StopReasonString "end_turn"
      end in
    (∃ body,
       convertOpenAIStreamToAnthropic (H := sampleBuiltins) inheritedFinishReason
         "claude" (JNum 12) "req" "0123456789abcdef"
       = body ++ [MessageDelta stop_reason
                    (estimateOfStream (H := sampleBuiltins) inheritedFinishReason);
                  MessageStop])
    ∧ match finishReasonOf (H := sampleBuiltins) inheritedFinishReason with
      | Some reason =>
          if bool_decide (reason ∈ objectPrototypeKeys)
          then stop_reason = InheritedMember reason
          else ∃ name, stop_reason = StopReasonString name
                       ∧ name ∈ producedStopReasons
      | None => stop_reason = "end_turn"
      end
    ∧ (finishReasonOf (H := sampleBuiltins) inheritedFinishReason
       = Some "tool_calls"
       → stop_reason = "tool_use").
Proof.
  assert (Hnormal :
    terminatesNormally (H := sampleBuiltins) inheritedFinishReason "req")
    by (eexists; vm_compute; reflexivity).
  split; [exact Hnormal|].
  exact (message_delta_stop_reason_and_usage (H := sampleBuiltins)
           inheritedFinishReason "claude" (JNum 12) "req" "0123456789abcdef"
           Hnormal).
Defined.

Lemma chunks_after_finish_are_ignored_witness :
  firstChoice (H := sampleBuiltins) (chunkOf None None (Some "stop"))
  = inr (Some {| choice_delta :=
                   Present {| delta_content := None; delta_tool_calls := None |};
                 choice_finish_reason := Some "stop" |})
  ∧ convertOpenAIStreamToAnthropic (H := sampleBuiltins)
      (yieldAll [chunkOf (Some "hi") None None]
         (Yield (chunkOf None None (Some "stop")) Done))
      "claude" (JNum 12) "req" "0123456789abcdef"
    = convertOpenAIStreamToAnthropic (H := sampleBuiltins)
        (yieldAll [chunkOf (Some "hi") None None]
           (Yield (chunkOf None None (Some "stop")) lateTraffic))
        "claude" (JNum 12) "req" "0123456789abcdef".
Proof.
  split; [reflexivity|].
  exact (chunks_after_finish_are_ignored (H := sampleBuiltins)
           [chunkOf (Some "hi") None None] (chunkOf None None (Some "stop"))
           {| choice_delta :=
                Present {| delta_content := None; delta_tool_calls := None |};
              choice_finish_reason := Some "stop" |}
           Done lateTraffic "claude" (JNum 12) "req" "0123456789abcdef"
           eq_refl (ex_intro _ "stop" eq_refl)).
Defined.

Lemma skipped_chunk_leaves_no_trace_witness :
  parseChunk (H := sampleBuiltins) (ChunkString "data: {bad json") = None
  ∧ convertOpenAIStreamToAnthropic (H := sampleBuiltins)
      (yieldAll [chunkOf (Some "hi") None None]
         (Yield (ChunkString "data: {bad json")
            (Yield (chunkOf None None (Some "stop")) Done)))
      "claude" (JNum 12) "req" "0123456789abcdef"
    = convertOpenAIStreamToAnthropic (H := sampleBuiltins)
        (yieldAll [chunkOf (Some "hi") None None]
           (Yield (chunkOf None None (Some "stop")) Done))
        "claude" (JNum 12) "req" "0123456789abcdef".
Proof.
  split; [reflexivity|].
  exact (skipped_chunk_leaves_no_trace (H := sampleBuiltins)
           [chunkOf (Some "hi") None None] (ChunkString "data: {bad json")
           (Yield (chunkOf None None (Some "stop")) Done)
           "claude" (JNum 12) "req" "0123456789abcdef"
           (or_introl eq_refl)).
Defined.

Lemma rejection_ends_with_error_event_witness :
  rejection (H := sampleBuiltins) brokenTextStream
  = Some (ThrownError "socket closed")
  ∧ ∃ body,
      convertOpenAIStreamToAnthropic (H := sampleBuiltins) brokenTextStream
        "claude" (JNum 12) "req" "0123456789abcdef"
      = MessageStart
          ("msg_stream_" +:+ "req" +:+ "_" +:+ String.substring 0 8 "0123456789abcdef")
          "claude" [] (JNum 12) 0
        :: Ping
        :: body ++ [ErrorEvent "api_error" (errorMessage (ThrownError "socket closed"))]
      ∧ Forall isStartOrDelta body.
Proof.
  split; [reflexivity|].
  exact (rejection_ends_with_error_event (H := sampleBuiltins) brokenTextStream
           "claude" (JNum 12) "req" "0123456789abcdef"
           (ThrownError "socket closed") eq_refl).
Defined.

Lemma named_tool_call_arguments_are_forwarded_witness :
  let first :=
    {| dtc_index := 0;
       dtc_id := Some "call_1";
       dtc_function :=
         Some {| df_name := Some "sum"; df_arguments := Some "[1" |} |} in
  head (toolDeltasFor (H := sampleBuiltins) namedToolCall 0) = Some first
  ∧ bringsIdAndName first
  ∧ firstUseOrder (H := sampleBuiltins) namedToolCall !! 0%nat = Some (ToolKey 0)
  ∧ let events :=
      convertOpenAIStreamToAnthropic (H := sampleBuiltins) namedToolCall
        "claude" (JNum 12) "req" "0123456789abcdef" in
    omap (inputJsonOf 0) events
    = omap argumentsOf (toolDeltasFor (H := sampleBuiltins) namedToolCall 0)
    ∧ toolStartOf 0 first ∈ events.
Proof.
  intros first.
  assert (Hbrings : bringsIdAndName first).
  { split.
    - exists "call_1". split; reflexivity.
    - exists {| df_name := Some "sum"; df_arguments := Some "[1" |}, "sum".
      split; reflexivity. }
  split; [reflexivity|]. split; [exact Hbrings|]. split; [reflexivity|].
  exact (named_tool_call_arguments_are_forwarded (H := sampleBuiltins)
           namedToolCall "claude" (JNum 12) "req" "0123456789abcdef" 0 0%nat
           first eq_refl Hbrings eq_refl).
Defined.

(** ** The output-token estimate *)

Lemma length_append (s t : string) :
  String.length (s +:+ t) = (String.length s + String.length t)%nat.
Proof. induction s as [|c s IH]; simpl; [done|by rewrite IH]. Qed.

Lemma estimateTokenCount_append (s t : string) :
  (estimateTokenCount (s +:+ t) ≤ estimateTokenCount s + estimateTokenCount t
   ≤ estimateTokenCount (s +:+ t) + 1)%nat.
Proof.
  unfold estimateTokenCount. rewrite length_append.
  pose proof (Nat.div_mod_eq (String.length s + String.length t + 3) 4).
  pose proof (Nat.div_mod_eq (String.length s + 3) 4).
  pose proof (Nat.div_mod_eq (String.length t + 3) 4).
  pose proof (Nat.mod_upper_bound (String.length s + String.length t + 3) 4).
  pose proof (Nat.mod_upper_bound (String.length s + 3) 4).
  pose proof (Nat.mod_upper_bound (String.length t + 3) 4).
  lia.
Qed.

Lemma estimateTokenCount_concat (fragments : list string) :
  (estimateTokenCount (String.concat "" fragments)
   ≤ sum_list (map estimateTokenCount fragments)
   ≤ estimateTokenCount (String.concat "" fragments) + length fragments)%nat.
Proof.
  induction fragments as [|s fragments IH]; [by compute; lia|].
  assert (String.concat "" (s :: fragments) = s +:+ String.concat "" fragments)
    as ->.
  { destruct fragments as [|t fragments]; [|done].
    clear IH. change (s = s +:+ EmptyString).
    induction s as [|c s IHs]; [done|].
    change (String c s = String c (s +:+ EmptyString)). by f_equal. }
  pose proof (estimateTokenCount_append s (String.concat "" fragments)).
  simpl. lia.
Qed.

Lemma estimateOfChoice_fragments (choice : Choice) :
  estimateOfChoice choice
  = sum_list (map estimateTokenCount (fragmentsOfChoice choice)).
Proof.
  unfold estimateOfChoice, fragmentsOfChoice, estimateOfText, textOfChoice.
  rewrite map_app, sum_list_append. f_equal.
  - destruct (truthy _); simpl; lia.
  - induction (toolDeltasOfChoice choice) as [|toolDelta toolDeltas IH];
      [done|].
    csimpl. rewrite IH. unfold estimateOfToolDelta.
    by destruct (argumentsOf toolDelta).
Qed.

Lemma estimateOfStream_fragments `{Builtins} (openaiStream : Upstream) :
  estimateOfStream openaiStream
  = sum_list (map estimateTokenCount (fragmentsOf openaiStream)).
Proof.
  unfold estimateOfStream, fragmentsOf.
  induction (consumedChoices openaiStream) as [|choice choices IH]; [done|].
  simpl. by rewrite map_app, sum_list_append, IH, estimateOfChoice_fragments.
Qed.

(** The output-token count of [message_delta] is the sum of the estimates
    of the fragments the loop handled, each rounded up on its own: the
    count is [sum_list (map estimateTokenCount fragments)].  It is at least
    the estimate of the whole text that the fragments make up, and exceeds
    it by at most one token per fragment. *)
Theorem output_tokens_bounds `{Builtins} (openaiStream : Upstream)
    (model : string) (estimatedInputTokens : JSValue)
    (requestId uuid : string) :
  terminatesNormally openaiStream requestId →
  let fragments := fragmentsOf openaiStream in
  ∃ body stop_reason output_tokens,
    convertOpenAIStreamToAnthropic openaiStream model estimatedInputTokens
      requestId uuid
    = body ++ [MessageDelta stop_reason output_tokens; MessageStop]
    ∧ output_tokens = sum_list (map estimateTokenCount fragments)
    ∧ (estimateTokenCount (String.concat "" fragments) ≤ output_tokens
       ≤ estimateTokenCount (String.concat "" fragments) + length fragments)%nat.
Proof.
  intros Hnormal fragments.
  destruct (normal_termination_tail openaiStream model estimatedInputTokens
              requestId uuid Hnormal) as (body & Hevents).
  exists body. eexists. eexists. split; [exact Hevents|].
  rewrite estimateOfStream_fragments.
  split; [done|]. apply estimateTokenCount_concat.
Qed.

(** The same text costs one token when it comes in one chunk and two when
    it comes in two: the count depends on how the upstream cuts the text. *)
Example output_tokens_depend_on_the_cut :
  let one := Yield (chunkOf (Some "hiho") None (Some "stop")) Done in
  let two :=
    Yield (chunkOf (Some "hi") None None)
      (Yield (chunkOf (Some "ho") None (Some "stop")) Done) in
  String.concat "" (fragmentsOf (H := sampleBuiltins) one)
  = String.concat "" (fragmentsOf (H := sampleBuiltins) two)
  ∧ MessageDelta "end_turn" 1
    ∈ convertOpenAIStreamToAnthropic (H := sampleBuiltins) one
        "claude" (JNum 12) "req" "0123456789abcdef"
  ∧ MessageDelta "end_turn" 2
    ∈ convertOpenAIStreamToAnthropic (H := sampleBuiltins) two
        "claude" (JNum 12) "req" "0123456789abcdef".
Proof.
  split; [reflexivity|]. split.
  - do 5 apply list_elem_of_further. apply list_elem_of_here.
  - do 6 apply list_elem_of_further. apply list_elem_of_here.
Qed.

Lemma output_tokens_bounds_witness :
  terminatesNormally (H := sampleBuiltins) lateNamedToolCall "req"
  ∧ let fragments := fragmentsOf (H := sampleBuiltins) lateNamedToolCall in
    ∃ body stop_reason output_tokens,
      convertOpenAIStreamToAnthropic (H := sampleBuiltins) lateNamedToolCall
        "claude" (JNum 12) "req" "0123456789abcdef"
      = body ++ [MessageDelta stop_reason output_tokens; MessageStop]
      ∧ output_tokens = sum_list (map estimateTokenCount fragments)
      ∧ (estimateTokenCount (String.concat "" fragments) ≤ output_tokens
         ≤ estimateTokenCount (String.concat "" fragments) + length fragments)%nat.
Proof.
  assert (Hnormal : terminatesNormally (H := sampleBuiltins) lateNamedToolCall "req")
    by (eexists; vm_compute; reflexivity).
  split; [exact Hnormal|].
  exact (output_tokens_bounds (H := sampleBuiltins) lateNamedToolCall
           "claude" (JNum 12) "req" "0123456789abcdef" Hnormal).
Defined.

(** ** The response translator and the tokenizer *)

Lemma omap_toolUseOf_textBlocks (content : MessageContent) :
  omap toolUseOf (textBlocks content) = [].
Proof. destruct content as [s| |]; simpl; [by destruct (String.eqb s "")|done..]. Qed.

Lemma omap_toolUseOf_toolUseBlocks `{Builtins} (calls : list ToolCall) :
  omap toolUseOf (concat (map toolUseBlocks calls))
  = map (λ call, (tc_id call, fn_name (tc_function call)))
      (filter (λ call, tc_type call = "function") calls).
Proof.
  induction calls as [|call calls IH]; [done|].
  simpl. rewrite omap_app, IH. unfold toolUseBlocks.
  destruct (String.eqb_spec (tc_type call) "function") as [Htype|Htype].
  - by rewrite filter_cons_True.
  - by rewrite filter_cons_False.
Qed.

Lemma convertToTokenizerFormat_role (message : Message) (converted : ChatMessage) :
  convertToTokenizerFormat message = Some converted →
  cm_role converted = "assistant" ↔ countedAsOutput message.
Proof.
  unfold convertToTokenizerFormat, countedAsOutput.
  destruct (String.eqb_spec (msg_role message) "tool") as [Hrole|Hrole].
  - intros Hconverted. split; [by right|intros _].
    destruct (msg_content message) as [content|parts|].
    + by injection Hconverted as <-.
    + destruct (trimsToEmpty _); [done|]. by injection Hconverted as <-.
    + destruct (msg_tool_calls message) as [[|toolCall tool_calls]|].
      * destruct (truthy (msg_name message)); [|done].
        by injection Hconverted as <-.
      * by injection Hconverted as <-.
      * destruct (truthy (msg_name message)); [|done].
        by injection Hconverted as <-.
  - intros Hconverted.
    assert (cm_role converted = msg_role message) as ->;
      [|split; [by left|by intros [?|?]]].
    destruct (msg_content message) as [content|parts|].
    + by injection Hconverted as <-.
    + destruct (trimsToEmpty _); [done|]. by injection Hconverted as <-.
    + destruct (msg_tool_calls message) as [[|toolCall tool_calls]|]; [done| |done].
      by injection Hconverted as <-.
Qed.

Lemma filter_omap_convertToTokenizerFormat (P : ChatMessage → Prop)
    (Q : Message → Prop) `{∀ m, Decision (P m)} `{∀ m, Decision (Q m)}
    (messages : list Message) :
  (∀ message converted,
     convertToTokenizerFormat message = Some converted → P converted ↔ Q message) →
  filter P (omap convertToTokenizerFormat messages)
  = omap convertToTokenizerFormat (filter Q messages).
Proof.
  intros HPQ. induction messages as [|message messages IH]; [done|].
  destruct (decide (Q message)) as [HQ|HQ].
  - rewrite (filter_cons_True Q) by done. csimpl.
    destruct (convertToTokenizerFormat message) as [converted|] eqn:Hconverted;
      [|done].
    rewrite filter_cons_True by by apply (HPQ message). by rewrite IH.
  - rewrite (filter_cons_False Q) by done. csimpl.
    destruct (convertToTokenizerFormat message) as [converted|] eqn:Hconverted;
      [|done].
    rewrite filter_cons_False; [done|]. by rewrite (HPQ message).
Qed.

(** The stop reason of a translated response is what the lookup of the
    streaming transcoder gives for the finish reason of the first choice,
    whether the message has tool calls or not; with no choice it is
    [end_turn].  It is one of [end_turn], [max_tokens], [tool_use] and
    [stop_sequence] unless the finish reason is a property name of
    [Object.prototype]: then it is the inherited member of the table. *)
Theorem response_stop_reason `{Builtins} (openaiResponse : ChatCompletionResponse)
    (originalAnthropicModel : string) (requestId : option string)
    (uuid : string) :
  let stop_reason :=
    amr_stop_reason
      (convertOpenAIToAnthropicResponse openaiResponse originalAnthropicModel
         requestId uuid) in
  stop_reason
  = match ccr_choices openaiResponse with
    | Some (choice :: _) => mapStopReason (cns_finish_reason choice)
    | _ => StopReasonString "end_turn"
    end
  ∧ match ccr_choices openaiResponse with
    | Some (choice :: _) =>
        if bool_decide (cns_finish_reason choice ∈ objectPrototypeKeys)
        then stop_reason = InheritedMember (cns_finish_reason choice)
        else ∃ name, stop_reason = StopReasonString name
                     ∧ name ∈ producedStopReasons
    | _ => stop_reason = "end_turn"
    end.
Proof.
  assert (Hreason :
    amr_stop_reason
      (convertOpenAIToAnthropicResponse openaiResponse originalAnthropicModel
         requestId uuid)
    = match ccr_choices openaiResponse with
      | Some (choice :: _) => mapStopReason (cns_finish_reason choice)
      | _ => StopReasonString "end_turn"
      end).
  { unfold convertOpenAIToAnthropicResponse.
    destruct (ccr_choices openaiResponse) as [[|choice rest]|]; [done| |done].
    change stopReasonMap with openaiToAnthropicStopReasonMap.
    fold (mapStopReason (cns_finish_reason choice)).
    destruct (msg_tool_calls (cns_message choice)); simpl; [|done].
    apply tool_calls_override. }
  simpl. split; [exact Hreason|]. rewrite Hreason.
  destruct (ccr_choices openaiResponse) as [[|choice rest]|]; [done| |done].
  case_bool_decide as Hin.
  - by apply mapStopReason_inherited.
  - by apply mapStopReason_produced.
Qed.

(** A response whose finish reason is [toString]: the stop reason is the
    inherited member, none of the four stop reasons. *)
Example response_with_inherited_finish_reason :
  amr_stop_reason
    (convertOpenAIToAnthropicResponse (H := sampleBuiltins)
       {| ccr_id := Some "cmpl-1";
          ccr_choices :=
            Some [{| cns_message :=
                       {| msg_role := "assistant";
                          msg_content := ContentString "hi";
                          msg_tool_calls := None;
                          msg_tool_call_id := None;
                          msg_name := None |};
                     cns_finish_reason := "toString" |}] |}
       "claude" None "0123456789abcdef")
  = InheritedMember "toString".
Proof. reflexivity. Qed.

(** The [tool_use] blocks of a translated response are the tool calls of
    type [function] of the first choice, in call order, each with the id
    and the name of its call; a call of another type gives no block. *)
Theorem response_tool_use_blocks `{Builtins} (openaiResponse : ChatCompletionResponse)
    (originalAnthropicModel : string) (requestId : option string)
    (uuid : string) (choice : ChoiceNonStreaming)
    (rest : list ChoiceNonStreaming) (calls : list ToolCall) :
  ccr_choices openaiResponse = Some (choice :: rest) →
  msg_tool_calls (cns_message choice) = Some calls →
  omap toolUseOf
    (amr_content
       (convertOpenAIToAnthropicResponse openaiResponse originalAnthropicModel
          requestId uuid))
  = map (λ call, (tc_id call, fn_name (tc_function call)))
      (filter (λ call, tc_type call = "function") calls).
Proof.
  intros Hchoices Hcalls. unfold convertOpenAIToAnthropicResponse.
  rewrite Hchoices, Hcalls. simpl.
  rewrite <- omap_toolUseOf_toolUseBlocks.
  destruct (textBlocks _ ++ _) as [|block blocks] eqn:Hblocks.
  - apply app_eq_nil in Hblocks as [_ ->]. done.
  - rewrite <- Hblocks, omap_app, omap_toolUseOf_textBlocks. done.
Qed.

(** A message without content that carries tool calls is counted as the
    text that names every one of its calls, the first one included. *)
Lemma convertToTokenizerFormat_tool_calls (message : Message)
    (tool_calls : list ToolCall) :
  msg_content message = ContentNull →
  msg_tool_calls message = Some tool_calls →
  tool_calls ≠ [] →
  convertToTokenizerFormat message
  = Some {| cm_role :=
              if String.eqb (msg_role message) "tool" then "assistant"
              else msg_role message;
            cm_content :=
              String.concat " "
                (map (λ toolCall,
                        "Function call: " +:+ fn_name (tc_function toolCall)
                        +:+ "(" +:+ fn_arguments (tc_function toolCall) +:+ ")")
                   tool_calls) |}.
Proof.
  intros Hcontent Hcalls Hsome. unfold convertToTokenizerFormat.
  rewrite Hcontent, Hcalls. by destruct tool_calls.
Qed.

(** A message with one tool call is counted with the characters of the
    text of that call, on the output side. *)
Example one_tool_call_is_counted :
  let message :=
    {| msg_role := "assistant";
       msg_content := ContentNull;
       msg_tool_calls :=
         Some [{| tc_id := "call_1";
                  tc_type := "function";
                  tc_function :=
                    {| fn_name := "sum"; fn_arguments := "{}" |} |}];
       msg_tool_call_id := None;
       msg_name := None |} in
  convertToTokenizerFormat message
  = Some {| cm_role := "assistant"; cm_content := "Function call: sum({})" |}
  ∧ getTokenCount (H := sampleBuiltins) [message]
    = {| input := 0; output := 22 |}.
Proof. split; reflexivity. Qed.

(** [getTokenCount] counts as output the messages of role [assistant] and
    of role [tool], and as input all others: tool results are on the
    output side. *)
Theorem token_count_by_role `{Builtins} (messages : list Message) :
  input (getTokenCount messages)
  = countTokens
      (omap convertToTokenizerFormat
         (filter (λ message, ¬ countedAsOutput message) messages))
  ∧ output (getTokenCount messages)
    = countTokens
        (omap convertToTokenizerFormat (filter countedAsOutput messages)).
Proof.
  unfold getTokenCount. simpl. split; f_equal.
  - apply filter_omap_convertToTokenizerFormat. intros message converted Hconverted.
    by rewrite (convertToTokenizerFormat_role message converted).
  - apply filter_omap_convertToTokenizerFormat. intros message converted Hconverted.
    by apply convertToTokenizerFormat_role.
Qed.

(** ** The token count endpoint *)

(** The answer of the token count endpoint has one field, [input_tokens],
    and its value is not a number: it is the object with the two counts of
    [getTokenCount], [input] for the translated messages of the roles
    other than [assistant] and [tool], [output] for those two roles. *)
Theorem count_tokens_response {builtins : Builtins} {serializer : Serializer}
    (messages : list AnthropicMessage) (system : option AnthropicSystem) :
  let openaiMessages := convertAnthropicToOpenAIMessages messages system in
  let counted := λ selected : list Message,
    JNum (countTokens (omap convertToTokenizerFormat selected)) in
  handleAnthropicTokenCount messages system
  = JObj [("input_tokens",
           JObj [("input",
                  counted (filter (λ message, ¬ countedAsOutput message)
                             openaiMessages));
                 ("output", counted (filter countedAsOutput openaiMessages))])]
  ∧ ∀ fields n,
      handleAnthropicTokenCount messages system = JObj fields
      → lookupField "input_tokens" fields ≠ Some (JNum n).
Proof.
  simpl. split; [|by intros fields n [= <-]].
  unfold handleAnthropicTokenCount, tokenCountObject, getTokenCount. simpl.
  do 6 f_equal.
  - f_equal. f_equal. apply filter_omap_convertToTokenizerFormat.
    intros message converted Hconverted.
    by rewrite (convertToTokenizerFormat_role message converted).
  - do 4 f_equal. apply filter_omap_convertToTokenizerFormat.
    intros message converted Hconverted.
    by apply convertToTokenizerFormat_role.
Qed.

(** The count of an assistant turn with a text of ten characters and a
    tool call whose text has twenty-two, with a tokenizer that counts
    characters. *)
Example count_tokens_of_a_tool_call :
  handleAnthropicTokenCount (builtins := sampleBuiltins)
    (serializer := sampleSerializer) [sampleAssistantTurn] None
  = JObj [("input_tokens", JObj [("input", JNum 0); ("output", JNum 32)])].
Proof. reflexivity. Qed.

(** ** The request translator *)

Lemma userPartOf_type (block : AnthropicBlock) (part : ContentPart) :
  userPartOf block = Some part →
  (part_type part = "text" ∧ isBase64Image block = false)
  ∨ (part_type part = "image_url" ∧ isBase64Image block = true).
Proof.
  destruct block as [text|source|id name input|tool_use_id content|type];
    simpl; try done.
  - intros [= <-]. by left.
  - destruct (String.eqb (src_type source) "base64"); [|done].
    intros [= <-]. by right.
Qed.

Lemma orElse_default (o : option string) : orElse o "" = default "" o.
Proof.
  unfold orElse, truthy. destruct o as [s|]; [|done].
  by destruct (String.eqb_spec s "") as [->|].
Qed.

(** The user message of a turn, by the number and the kind of its parts. *)
Lemma userMessages_userParts (blocks : list AnthropicBlock) :
  userMessages (omap userPartOf blocks)
  = match omap userPartOf blocks with
    | [] => []
    | [part] =>
        [plainMessage "user"
           (if String.eqb (part_type part) "image_url" then ContentParts [part]
            else ContentString (default "" (part_text part)))]
    | parts => [plainMessage "user" (ContentParts parts)]
    end.
Proof.
  destruct (omap userPartOf blocks) as [|part [|other rest]] eqn:Hparts;
    [done| |].
  - assert (Hpart : part ∈ omap userPartOf blocks)
      by (rewrite Hparts; apply list_elem_of_here).
    apply list_elem_of_omap in Hpart as (block & _ & Hblock).
    unfold userMessages. simpl.
    destruct (userPartOf_type block part Hblock) as [[-> _]|[-> _]]; simpl.
    + by rewrite orElse_default.
    + done.
  - unfold userMessages.
    rewrite (bool_decide_eq_true_2 (1 < length (part :: other :: rest)))
      by (simpl; lia).
    by rewrite orb_true_r.
Qed.

(** Texts that are not empty join to the empty text only when there are
    none. *)
Lemma concat_nonempty (sep : string) (texts : list string) :
  Forall (λ text, text ≠ "") texts →
  String.concat sep texts = "" → texts = [].
Proof.
  destruct 1 as [|text texts Htext _]; [done|].
  destruct text as [|c text]; [done|].
  by destruct texts.
Qed.

(** The messages of an assistant turn, by whether it has texts that are
    not empty and whether it has tool calls. *)
Lemma assistantMessages_cases (textContentForAssistant : list string)
    (assistantToolCalls : list ToolCall) :
  let texts := filter (λ text, text ≠ "") textContentForAssistant in
  let textMessage :=
    plainMessage "assistant" (ContentString (String.concat newline texts)) in
  let toolCallMessage :=
    {| msg_role := "assistant";
       msg_content := ContentNull;
       msg_tool_calls := Some assistantToolCalls;
       msg_tool_call_id := None;
       msg_name := None |} in
  assistantMessages textContentForAssistant assistantToolCalls
  = match texts, assistantToolCalls with
    | [], [] => [plainMessage "assistant" (ContentString "")]
    | [], _ :: _ => [toolCallMessage]
    | _ :: _, [] => [textMessage]
    | _ :: _, _ :: _ => [textMessage; toolCallMessage]
    end.
Proof.
  intros texts textMessage toolCallMessage. unfold assistantMessages.
  fold texts.
  assert (Htexts : Forall (λ text, text ≠ "") texts).
  { apply Forall_forall. by intros text [Htext _]%list_elem_of_filter. }
  destruct (String.eqb_spec (String.concat newline texts) "") as [Hempty|Hsome].
  - rewrite (concat_nonempty _ _ Htexts Hempty). by destruct assistantToolCalls.
  - destruct texts as [|text rest]; [done|]. by destruct assistantToolCalls.
Qed.

Section request.
Context `{Serializer}.

(** The loop over the blocks of one message, by what each block gives. *)
Lemma foldl_convertBlock (role : string) (blocks : list AnthropicBlock)
    (acc : BlockLoop) :
  foldl (convertBlock role) acc blocks
  = {| bl_openaiMessages :=
         bl_openaiMessages acc
         ++ (if String.eqb role "user" then omap toolMessageOf blocks else []);
       bl_openaiPartsForUserMessage :=
         bl_openaiPartsForUserMessage acc
         ++ (if String.eqb role "user" then omap userPartOf blocks else []);
       bl_assistantToolCalls :=
         bl_assistantToolCalls acc
         ++ (if String.eqb role "assistant" then omap toolCallOf blocks else []);
       bl_textContentForAssistant :=
         bl_textContentForAssistant acc
         ++ (if String.eqb role "assistant" then omap assistantTextOf blocks
             else []) |}.
Proof.
  revert acc. induction blocks as [|block blocks IH]; intros acc.
  - destruct acc. simpl.
    by destruct (String.eqb role "user"), (String.eqb role "assistant");
      rewrite !app_nil_r.
  - simpl foldl. rewrite IH. clear IH.
    destruct (String.eqb_spec role "user") as [->|Huser].
    + destruct block as [text|source|id name input|tool_use_id content|type];
        simpl; rewrite ?app_nil_r, <- ?app_assoc; try done.
      destruct (String.eqb (src_type source) "base64"); simpl;
        by rewrite ?app_nil_r, <- ?app_assoc.
    + destruct (String.eqb_spec role "assistant") as [->|Hassistant];
        destruct block as [text|source|id name input|tool_use_id content|type];
        simpl; rewrite ?app_nil_r, <- ?app_assoc; try done.
      * apply String.eqb_neq in Huser, Hassistant.
        by rewrite Huser, Hassistant.
      * apply String.eqb_neq in Huser. by rewrite Huser.
      * apply String.eqb_neq in Hassistant. by rewrite Hassistant.
      * apply String.eqb_neq in Huser. by rewrite Huser.
Qed.

(** What one message with a non-empty block list adds. *)
Lemma convertMessage_blocks (openaiMessages : list Message)
    (msg : AnthropicMessage) (blocks : list AnthropicBlock) :
  am_content msg = AnthropicBlocks blocks →
  blocks ≠ [] →
  convertMessage openaiMessages msg
  = openaiMessages
    ++ (if String.eqb (am_role msg) "user"
        then omap toolMessageOf blocks ++ userMessages (omap userPartOf blocks)
        else [])
    ++ (if String.eqb (am_role msg) "assistant"
        then assistantMessages (omap assistantTextOf blocks)
               (omap toolCallOf blocks)
        else []).
Proof.
  intros Hcontent Hblocks. unfold convertMessage. rewrite Hcontent.
  destruct blocks as [|block blocks]; [done|].
  rewrite foldl_convertBlock. cbn [bl_openaiMessages
    bl_openaiPartsForUserMessage bl_assistantToolCalls
    bl_textContentForAssistant app].
  destruct (String.eqb (am_role msg) "user");
    destruct (String.eqb (am_role msg) "assistant");
    by rewrite ?app_nil_r, <- ?app_assoc.
Qed.

Lemma convertMessage_app (openaiMessages : list Message) (msg : AnthropicMessage) :
  convertMessage openaiMessages msg = openaiMessages ++ convertMessage [] msg.
Proof.
  destruct (am_content msg) as [content|[|block blocks]] eqn:Hcontent.
  - unfold convertMessage. by rewrite Hcontent.
  - unfold convertMessage. by rewrite Hcontent.
  - by rewrite !(convertMessage_blocks _ msg (block :: blocks)).
Qed.

Lemma foldl_convertMessage (openaiMessages : list Message)
    (anthropicMessages : list AnthropicMessage) :
  foldl convertMessage openaiMessages anthropicMessages
  = openaiMessages ++ concat (map (convertMessage []) anthropicMessages).
Proof.
  revert openaiMessages.
  induction anthropicMessages as [|msg anthropicMessages IH];
    intros openaiMessages; simpl.
  - by rewrite app_nil_r.
  - by rewrite IH, convertMessage_app, <- app_assoc.
Qed.

Lemma convertAnthropicToOpenAIMessages_eq
    (anthropicMessages : list AnthropicMessage)
    (anthropicSystem : option AnthropicSystem) :
  convertAnthropicToOpenAIMessages anthropicMessages anthropicSystem
  = systemMessages anthropicSystem
    ++ concat (map (convertMessage []) anthropicMessages).
Proof.
  unfold convertAnthropicToOpenAIMessages. by rewrite foldl_convertMessage.
Qed.

(** The translation goes message by message: the translation of a
    conversation is the translation of its first part, with the system
    prompt, followed by the translation of the rest without one.  With an
    empty first part: the system message, if there is one, comes first. *)
Theorem messages_are_translated_one_by_one
    (anthropicMessages moreMessages : list AnthropicMessage)
    (anthropicSystem : option AnthropicSystem) :
  convertAnthropicToOpenAIMessages (anthropicMessages ++ moreMessages)
    anthropicSystem
  = convertAnthropicToOpenAIMessages anthropicMessages anthropicSystem
    ++ convertAnthropicToOpenAIMessages moreMessages None.
Proof.
  rewrite !convertAnthropicToOpenAIMessages_eq, map_app, concat_app.
  by rewrite <- app_assoc.
Qed.

(** A user turn given as a non-empty list of blocks becomes one [tool]
    message for every [tool_result] block, in block order, and after them
    at most one user message, made of the parts that the text blocks and
    the base64 images give: no message when there is no part; the text as
    a string when the only part is a text; the array of the parts when
    there are two or more, or when the only part is an image.  A tool
    result comes before the text of its turn, also when the text block
    comes first. *)
Theorem user_turn_translation (msg : AnthropicMessage)
    (blocks : list AnthropicBlock) :
  am_role msg = "user" →
  am_content msg = AnthropicBlocks blocks →
  blocks ≠ [] →
  convertAnthropicToOpenAIMessages [msg] None
  = omap toolMessageOf blocks
    ++ match omap userPartOf blocks with
       | [] => []
       | [part] =>
           [plainMessage "user"
              (if String.eqb (part_type part) "image_url"
               then ContentParts [part]
               else ContentString (default "" (part_text part)))]
       | parts => [plainMessage "user" (ContentParts parts)]
       end.
Proof.
  intros Hrole Hcontent Hblocks.
  rewrite convertAnthropicToOpenAIMessages_eq. simpl.
  rewrite (convertMessage_blocks _ msg blocks), Hrole by done. simpl.
  by rewrite !app_nil_r, userMessages_userParts.
Qed.

(** An assistant turn given as a non-empty list of blocks becomes one
    message or two, all of role [assistant]: a message whose content is
    the texts of its text blocks that are not empty, joined by line feeds,
    if there is such a text, and then a message without content whose tool
    calls are its [tool_use] blocks, in block order, if there is one; with
    neither, one message with the empty string.  The other blocks are
    dropped. *)
Theorem assistant_turn_translation (msg : AnthropicMessage)
    (blocks : list AnthropicBlock) :
  am_role msg = "assistant" →
  am_content msg = AnthropicBlocks blocks →
  blocks ≠ [] →
  let openaiMessages := convertAnthropicToOpenAIMessages [msg] None in
  let texts := filter (λ text, text ≠ "") (omap assistantTextOf blocks) in
  let textMessage :=
    plainMessage "assistant" (ContentString (String.concat newline texts)) in
  let toolCallMessage :=
    {| msg_role := "assistant";
       msg_content := ContentNull;
       msg_tool_calls := Some (omap toolCallOf blocks);
       msg_tool_call_id := None;
       msg_name := None |} in
  openaiMessages
  = match texts, omap toolCallOf blocks with
    | [], [] => [plainMessage "assistant" (ContentString "")]
    | [], _ :: _ => [toolCallMessage]
    | _ :: _, [] => [textMessage]
    | _ :: _, _ :: _ => [textMessage; toolCallMessage]
    end
  ∧ (1 ≤ length openaiMessages ≤ 2)%nat
  ∧ Forall (λ message, msg_role message = "assistant") openaiMessages.
Proof.
  intros Hrole Hcontent Hblocks.
  assert (Heq : convertAnthropicToOpenAIMessages [msg] None
    = assistantMessages (omap assistantTextOf blocks) (omap toolCallOf blocks)).
  { rewrite convertAnthropicToOpenAIMessages_eq. simpl.
    rewrite (convertMessage_blocks _ msg blocks), Hrole by done. simpl.
    by rewrite !app_nil_r. }
  cbv zeta. rewrite Heq, assistantMessages_cases. cbv zeta.
  split; [done|].
  destruct (filter _ (omap assistantTextOf blocks)), (omap toolCallOf blocks);
    simpl; repeat split; try lia; by repeat constructor.
Qed.

(** A turn given as a non-empty list of blocks leaves no message when its
    role is neither [user] nor [assistant], and when it is a user turn
    with no text, no base64 image and no tool result. *)
Theorem turn_without_usable_blocks_is_dropped
    (anthropicMessages moreMessages : list AnthropicMessage)
    (msg : AnthropicMessage) (blocks : list AnthropicBlock)
    (anthropicSystem : option AnthropicSystem) :
  am_content msg = AnthropicBlocks blocks →
  blocks ≠ [] →
  (am_role msg ≠ "user" ∧ am_role msg ≠ "assistant")
  ∨ (am_role msg = "user" ∧ Forall unusedInUserTurn blocks) →
  convertAnthropicToOpenAIMessages (anthropicMessages ++ msg :: moreMessages)
    anthropicSystem
  = convertAnthropicToOpenAIMessages (anthropicMessages ++ moreMessages)
      anthropicSystem.
Proof.
  intros Hcontent Hblocks Hunused.
  rewrite !convertAnthropicToOpenAIMessages_eq, !map_app, !concat_app.
  simpl. rewrite (convertMessage_blocks _ msg blocks) by done.
  destruct Hunused as [[Huser Hassistant]|[Huser Hunused]].
  - apply String.eqb_neq in Huser, Hassistant.
    by rewrite Huser, Hassistant.
  - rewrite Huser. simpl.
    assert (omap toolMessageOf blocks = [] ∧ omap userPartOf blocks = [])
      as [-> ->]; [|done].
    clear Hblocks Hcontent.
    induction Hunused as [|block blocks Hblock _ [IH1 IH2]]; [done|].
    csimpl. rewrite IH1, IH2.
    destruct block as [text|source|id name input|tool_use_id content|type];
      try done.
    simpl in Hblock. apply String.eqb_neq in Hblock. simpl. by rewrite Hblock.
Qed.

End request.

(** ** The translated request, the tokenizer and the vision header *)

Lemma existsb_image_userParts (blocks : list AnthropicBlock) :
  existsb (λ part, String.eqb (part_type part) "image_url")
    (omap userPartOf blocks)
  = existsb isBase64Image blocks.
Proof.
  induction blocks as [|block blocks IH]; [done|]. csimpl.
  destruct (userPartOf block) as [part|] eqn:Hpart.
  - simpl. rewrite IH.
    by destruct (userPartOf_type block part Hpart) as [[-> ->]|[-> ->]].
  - rewrite IH.
    destruct block as [text|source|id name input|tool_use_id content|type];
      try done.
    simpl in *. by destruct (String.eqb (src_type source) "base64").
Qed.

Lemma userParts_types (blocks : list AnthropicBlock) :
  Forall (λ part, part_type part = "text" ∨ part_type part = "image_url")
    (omap userPartOf blocks).
Proof.
  induction blocks as [|block blocks IH]; [constructor|]. csimpl.
  destruct (userPartOf block) as [part|] eqn:Hpart; [|done].
  constructor; [|done].
  destruct (userPartOf_type block part Hpart) as [[-> _]|[-> _]]; auto.
Qed.

(** The tokenizer reads nothing in parts of another type than
    [input_text]. *)
Lemma convertToTokenizerFormat_parts (message : Message)
    (parts : list ContentPart) :
  msg_content message = ContentParts parts →
  Forall (λ part, part_type part ≠ "input_text") parts →
  convertToTokenizerFormat message = None.
Proof.
  intros Hcontent Hparts. unfold convertToTokenizerFormat. rewrite Hcontent.
  assert (filter (λ text, text ≠ "")
            (map (λ part,
                    if String.eqb (part_type part) "input_text"
                    then orElse (part_text part) ""
                    else "")
               parts) = []) as ->; [|done].
  clear Hcontent. induction Hparts as [|part parts Hpart _ IH]; [done|].
  cbn [map]. apply String.eqb_neq in Hpart. rewrite Hpart.
  rewrite filter_cons_False; [exact IH|]. intros Hne. by apply Hne.
Qed.

Lemma intoCopilotMessage_parts (message : Message) (parts : list ContentPart) :
  msg_content message = ContentParts parts →
  Forall (λ part, part_type part ≠ "input_image") parts →
  intoCopilotMessage message = message.
Proof.
  intros Hcontent Hparts. unfold intoCopilotMessage. rewrite Hcontent.
  destruct (String.eqb _ "assistant"); [done|].
  destruct (String.eqb _ "tool"); [done|].
  assert (map (λ part,
                 if String.eqb (part_type part) "input_image" then
                   {| part_type := "image_url";
                      part_text := part_text part;
                      part_image_url := part_image_url part |}
                 else part)
            parts = parts) as ->.
  { clear Hcontent. induction Hparts as [|part parts Hpart _ IH]; [done|].
    simpl. apply String.eqb_neq in Hpart. by rewrite Hpart, IH. }
  destruct message. simpl in *. by rewrite Hcontent.
Qed.

Lemma intoCopilotMessage_no_parts (message : Message) :
  (∀ parts, msg_content message ≠ ContentParts parts) →
  intoCopilotMessage message = message.
Proof.
  intros Hcontent. unfold intoCopilotMessage.
  destruct (String.eqb _ "assistant"); [done|].
  destruct (String.eqb _ "tool"); [done|].
  destruct (msg_content message) as [content|parts|]; [done| |done].
  by destruct (Hcontent parts).
Qed.

(** The content part arrays of the messages that [convertMessage] adds. *)
Lemma userMessages_parts (parts' : list ContentPart) (message : Message)
    (parts : list ContentPart) :
  message ∈ userMessages parts' →
  msg_content message = ContentParts parts →
  parts = parts'.
Proof.
  unfold userMessages. destruct parts' as [|part rest]; [by intros ?%elem_of_nil|].
  destruct (_ || _).
  - intros ->%list_elem_of_singleton. by intros [= <-].
  - destruct (String.eqb _ "text"); [|by intros ?%elem_of_nil].
    by intros ->%list_elem_of_singleton.
Qed.

Lemma assistantMessages_no_parts (texts : list string) (calls : list ToolCall)
    (message : Message) (parts : list ContentPart) :
  message ∈ assistantMessages texts calls →
  msg_content message ≠ ContentParts parts.
Proof.
  unfold assistantMessages.
  destruct (String.eqb _ ""), calls as [|call calls]; intros Hin;
    repeat (apply elem_of_cons in Hin as [->|Hin]; [done|]);
    by apply elem_of_nil in Hin.
Qed.

Section translated.
Context `{Serializer}.

Lemma toolMessages_no_parts (blocks : list AnthropicBlock) (message : Message)
    (parts : list ContentPart) :
  message ∈ omap toolMessageOf blocks →
  msg_content message ≠ ContentParts parts.
Proof.
  intros (block & _ & Hblock)%list_elem_of_omap.
  destruct block as [text|source|id name input|tool_use_id content|type];
    try done.
  by injection Hblock as <-.
Qed.

Lemma convertMessage_parts (msg : AnthropicMessage) (message : Message)
    (parts : list ContentPart) :
  message ∈ convertMessage [] msg →
  msg_content message = ContentParts parts →
  ∃ blocks, parts = omap userPartOf blocks.
Proof.
  destruct (am_content msg) as [content|[|block blocks]] eqn:Hcontent.
  - unfold convertMessage. rewrite Hcontent.
    by intros ->%list_elem_of_singleton.
  - unfold convertMessage. rewrite Hcontent.
    by intros ->%list_elem_of_singleton.
  - rewrite (convertMessage_blocks _ msg (block :: blocks)) by done.
    intros Hin Hparts. exists (block :: blocks).
    apply elem_of_app in Hin as [Hin|Hin]; [by apply elem_of_nil in Hin|].
    apply elem_of_app in Hin as [Hin|Hin].
    + destruct (String.eqb _ "user"); [|by apply elem_of_nil in Hin].
      apply elem_of_app in Hin as [Hin|Hin].
      * by destruct (toolMessages_no_parts _ _ parts Hin).
      * by apply (userMessages_parts _ message).
    + destruct (String.eqb _ "assistant"); [|by apply elem_of_nil in Hin].
      by destruct (assistantMessages_no_parts _ _ _ parts Hin).
Qed.

Lemma translated_parts (anthropicMessages : list AnthropicMessage)
    (anthropicSystem : option AnthropicSystem) (message : Message)
    (parts : list ContentPart) :
  message ∈ convertAnthropicToOpenAIMessages anthropicMessages anthropicSystem →
  msg_content message = ContentParts parts →
  ∃ blocks, parts = omap userPartOf blocks.
Proof.
  rewrite convertAnthropicToOpenAIMessages_eq.
  intros Hin Hparts. apply elem_of_app in Hin as [Hin|Hin].
  - unfold systemMessages in Hin.
    destruct (String.eqb _ ""); [by apply elem_of_nil in Hin|].
    apply list_elem_of_singleton in Hin. by subst message.
  - induction anthropicMessages as [|msg anthropicMessages IH];
      [by apply elem_of_nil in Hin|].
    simpl in Hin. apply elem_of_app in Hin as [Hin|Hin]; [|by apply IH].
    by apply (convertMessage_parts msg message).
Qed.

(** A message that the request translator gives an array of parts is not
    counted by [getTokenCount]: the translator writes parts of type [text]
    and [image_url], the tokenizer reads parts of type [input_text].  So
    the text of a user turn with several text blocks, or with an image, is
    in no token count. *)
Theorem translated_parts_are_not_counted
    (anthropicMessages : list AnthropicMessage)
    (anthropicSystem : option AnthropicSystem) :
  Forall (λ message,
            ∀ parts, msg_content message = ContentParts parts
                     → convertToTokenizerFormat message = None)
    (convertAnthropicToOpenAIMessages anthropicMessages anthropicSystem).
Proof.
  apply Forall_forall. intros message Hin parts Hparts.
  destruct (translated_parts _ _ _ _ Hin Hparts) as (blocks & ->).
  apply (convertToTokenizerFormat_parts message _ Hparts).
  eapply Forall_impl; [apply userParts_types|].
  by intros part [-> | ->].
Qed.

Lemma visionEnable_convertMessage (msg : AnthropicMessage) :
  existsb (λ x,
             match msg_content x with
             | ContentParts parts =>
                 existsb (λ x, String.eqb (part_type x) "image_url") parts
             | ContentString _ | ContentNull => false
             end)
    (convertMessage [] msg)
  = hasBase64Image msg.
Proof.
  unfold hasBase64Image.
  destruct (am_content msg) as [content|[|block blocks]] eqn:Hcontent.
  - unfold convertMessage. rewrite Hcontent. simpl. by rewrite andb_false_r.
  - unfold convertMessage. rewrite Hcontent. simpl. by rewrite andb_false_r.
  - rewrite (convertMessage_blocks _ msg (block :: blocks)) by done.
    destruct (String.eqb_spec (am_role msg) "user") as [Huser|Huser].
    + rewrite Huser. cbn [String.eqb Ascii.eqb Bool.eqb andb app].
      rewrite app_nil_r, existsb_app.
      assert (existsb (λ x,
                match msg_content x with
                | ContentParts parts =>
                    existsb (λ x, String.eqb (part_type x) "image_url") parts
                | ContentString _ | ContentNull => false
                end)
                (omap toolMessageOf (block :: blocks)) = false) as ->.
      { apply not_true_is_false. intros (message & Hin & Himage)%existsb_exists.
        apply list_elem_of_In in Hin.
        destruct (msg_content message) as [content|parts|] eqn:Hparts;
          [done| |done].
        by destruct (toolMessages_no_parts _ _ parts Hin). }
      rewrite <- existsb_image_userParts. cbn [orb].
      destruct (omap userPartOf (block :: blocks)) as [|part parts]; [done|].
      unfold userMessages. set (parts' := part :: parts). clearbody parts'.
      destruct (existsb _ parts') eqn:Himage.
      * cbn [orb existsb plainMessage msg_content]. by rewrite Himage.
      * cbn [orb]. case_bool_decide.
        -- cbn [existsb plainMessage msg_content]. by rewrite Himage.
        -- by destruct (String.eqb _ "text").
    + cbn [andb app].
      destruct (String.eqb _ "assistant"); [|done].
      apply not_true_is_false.
      intros (message & Hin & Himage)%existsb_exists.
      apply list_elem_of_In in Hin.
      destruct (msg_content message) as [content|parts|] eqn:Hparts;
        [done| |done].
      by destruct (assistantMessages_no_parts _ _ _ parts Hin).
Qed.

(** [createChatCompletions] leaves the messages of a translated request as
    they are, and asks for vision exactly when a user turn of the request
    has a base64 image among its blocks. *)
Theorem translated_request_vision (anthropicMessages : list AnthropicMessage)
    (anthropicSystem : option AnthropicSystem) :
  let openaiMessages :=
    convertAnthropicToOpenAIMessages anthropicMessages anthropicSystem in
  copilotMessages openaiMessages = openaiMessages
  ∧ visionEnable openaiMessages = existsb hasBase64Image anthropicMessages.
Proof.
  assert (Hsame :
    copilotMessages
      (convertAnthropicToOpenAIMessages anthropicMessages anthropicSystem)
    = convertAnthropicToOpenAIMessages anthropicMessages anthropicSystem).
  { unfold copilotMessages. rewrite <- (map_id (convertAnthropicToOpenAIMessages _ _)) at 2.
    apply map_ext_in. intros message Hin%list_elem_of_In.
    destruct (msg_content message) as [content|parts|] eqn:Hparts.
    - apply intoCopilotMessage_no_parts. intros parts. by rewrite Hparts.
    - apply (intoCopilotMessage_parts _ parts Hparts).
      destruct (translated_parts _ _ _ _ Hin Hparts) as (blocks & ->).
      eapply Forall_impl; [apply userParts_types|].
      by intros part [-> | ->].
    - apply intoCopilotMessage_no_parts. intros parts. by rewrite Hparts. }
  simpl. split; [exact Hsame|].
  unfold visionEnable. rewrite Hsame, convertAnthropicToOpenAIMessages_eq.
  rewrite existsb_app.
  assert (existsb (λ x,
            match msg_content x with
            | ContentParts parts =>
                existsb (λ x, String.eqb (part_type x) "image_url") parts
            | ContentString _ | ContentNull => false
            end)
            (systemMessages anthropicSystem) = false) as ->.
  { unfold systemMessages. by destruct (String.eqb _ ""). }
  cbn [orb]. clear Hsame.
  induction anthropicMessages as [|msg anthropicMessages IH]; [done|].
  cbn [map concat existsb].
  by rewrite existsb_app, visionEnable_convertMessage, IH.
Qed.

End translated.

(** [createChatCompletions] asks for vision exactly when a message has a
    part of type [image_url], or a message of another role than
    [assistant] and [tool] has a part of type [input_image]. *)
Theorem vision_enabled_iff (messages : list Message) :
  visionEnable messages = true
  ↔ ∃ message parts part,
      message ∈ messages
      ∧ msg_content message = ContentParts parts
      ∧ part ∈ parts
      ∧ countsAsImage message part.
Proof.
  unfold visionEnable, copilotMessages, countsAsImage.
  rewrite existsb_exists. split.
  - intros (message' & (message & <- & Hin)%in_map_iff & Himage).
    apply list_elem_of_In in Hin. exists message.
    destruct (msg_content message) as [content|parts|] eqn:Hparts.
    { rewrite intoCopilotMessage_no_parts, Hparts in Himage; [done|].
      intros parts. by rewrite Hparts. }
    2:{ rewrite intoCopilotMessage_no_parts, Hparts in Himage; [done|].
        intros parts. by rewrite Hparts. }
    exists parts. unfold intoCopilotMessage in Himage. rewrite Hparts in Himage.
    destruct (String.eqb_spec (msg_role message) "assistant") as [Hrole|Hrole].
    { rewrite Hparts in Himage.
      apply existsb_exists in Himage as (part & Hpart%list_elem_of_In & Htype).
      apply String.eqb_eq in Htype. exists part. auto. }
    destruct (String.eqb_spec (msg_role message) "tool") as [Hrole'|Hrole'].
    { rewrite Hparts in Himage.
      apply existsb_exists in Himage as (part & Hpart%list_elem_of_In & Htype).
      apply String.eqb_eq in Htype. exists part. auto. }
    simpl in Himage.
    apply existsb_exists in Himage
      as (part' & (part & <- & Hpart)%in_map_iff & Htype).
    apply list_elem_of_In in Hpart. exists part.
    repeat split; [done..|].
    destruct (String.eqb_spec (part_type part) "input_image") as [Himg|Himg].
    + by right.
    + left. by apply String.eqb_eq.
  - intros (message & parts & part & Hin & Hparts & Hpart & Himage).
    exists (intoCopilotMessage message). split.
    { apply in_map, list_elem_of_In, Hin. }
    unfold intoCopilotMessage. rewrite Hparts.
    destruct (String.eqb_spec (msg_role message) "assistant") as [Hrole|Hrole].
    { rewrite Hparts. apply existsb_exists. exists part.
      split; [by apply list_elem_of_In|].
      destruct Himage as [->|(_ & ? & _)]; done. }
    destruct (String.eqb_spec (msg_role message) "tool") as [Hrole'|Hrole'].
    { rewrite Hparts. apply existsb_exists. exists part.
      split; [by apply list_elem_of_In|].
      destruct Himage as [->|(_ & _ & ?)]; done. }
    simpl. apply existsb_exists.
    eexists. split; [apply in_map, list_elem_of_In, Hpart|].
    destruct Himage as [Htype|(Htype & _)]; rewrite Htype; simpl;
      by rewrite ?Htype.
Qed.

(** ** Tools, tool results and the choice of the model *)

(** The tool list is absent exactly when the request gives no tool, and
    then [createChatCompletions] takes the request as one without tools;
    otherwise every tool is translated, in order, with its name and its
    schema, as a [function] with a description. *)
Theorem tools_are_translated_in_order (anthropicTools : option (list AnthropicTool)) :
  (convertAnthropicToolsToOpenAI anthropicTools = None
   ↔ anthropicTools = None ∨ anthropicTools = Some [])
  ∧ toolsEnable (convertAnthropicToolsToOpenAI anthropicTools)
    = bool_decide (convertAnthropicToolsToOpenAI anthropicTools ≠ None)
  ∧ ∀ tools,
      convertAnthropicToolsToOpenAI anthropicTools = Some tools
      → map (λ tool, (tf_name (tool_function tool),
                      tf_parameters (tool_function tool)))
          tools
        = map (λ tool, (at_name tool, Some (at_input_schema tool)))
            (default [] anthropicTools)
        ∧ Forall (λ tool,
                    tool_type tool = "function"
                    ∧ is_Some (tf_description (tool_function tool)))
            tools.
Proof.
  destruct anthropicTools as [[|tool anthropicTools]|]; simpl.
  - split; [split; auto|]. split; [done|]. by intros tools.
  - split; [split; [done|by intros [|]]|]. split; [done|].
    intros tools [= <-]. split.
    + simpl. f_equal. clear tool.
      induction anthropicTools as [|tool anthropicTools IH]; [done|].
      simpl. by rewrite IH.
    + constructor; [eauto|]. apply Forall_map, Forall_forall. eauto.
  - split; [split; auto|]. split; [done|]. by intros tools.
Qed.

Section tool_results.
Context `{Serializer}.

Lemma serializeToolResultItem_text (item : JSValue) (text : string) :
  textOfItem item = Some (JStr text) →
  serializeToolResultItem item = text.
Proof.
  intros Htext. unfold serializeToolResultItem. rewrite Htext.
  apply stringOf_string.
Qed.

(** A tool result given as a list of text items, objects with [type: "text"]
    and a string [text], is serialized as the texts joined by line feeds,
    whatever other fields the items have; [JSON.stringify] is not
    called. *)
Theorem text_items_are_joined (items : list JSValue) (texts : list string) :
  Forall2 (λ item text, textOfItem item = Some (JStr text)) items texts →
  serializeToolResultContent (ResultArray items) = String.concat newline texts.
Proof.
  intros Hitems. simpl. f_equal.
  induction Hitems as [|item text items texts Hitem _ IH]; [done|].
  simpl. by rewrite (serializeToolResultItem_text item text), IH.
Qed.

End tool_results.

Lemma toLowerCase_nonempty (s : string) :
  includes "claude" (toLowerCase s) = true → s ≠ "".
Proof. by intros Hincludes ->. Qed.

(** The model sent upstream is never the empty string and does not depend
    on the model the request names: it is the id of the first cached model
    whose id contains [claude] in any case, if there is one, and otherwise
    the id of the first cached model or, without one,
    [claude-3-5-sonnet-20241022]. *)
Theorem selected_model (models : option (list Model))
    (anthropicModel otherModel : string) :
  let model := selectCopilotModel models anthropicModel in
  model ≠ ""
  ∧ model = selectCopilotModel models otherModel
  ∧ (model = "claude-3-5-sonnet-20241022"
     ∨ ∃ data cached,
         models = Some data ∧ cached ∈ data ∧ model_id cached = model)
  ∧ ∀ data before cached after,
      models = Some data
      → data = before ++ cached :: after
      → Forall (λ other, includes "claude" (toLowerCase (model_id other)) = false)
          before
      → includes "claude" (toLowerCase (model_id cached)) = true
      → model = model_id cached.
Proof.
  unfold selectCopilotModel. destruct models as [data|]; simpl.
  2:{ split; [done|]. split; [done|]. split; [by left|]. by intros. }
  destruct (find _ data) as [claudeModel|] eqn:Hfind.
  - apply find_some in Hfind as Hclaude. destruct Hclaude as [Hin Hclaude].
    split; [by apply toLowerCase_nonempty|]. split; [done|].
    split; [right; exists data, claudeModel; by rewrite list_elem_of_In|].
    intros ? before cached after [= <-] -> Hbefore Hcached.
    clear Hin Hclaude. induction Hbefore as [|other before Hother _ IH].
    + simpl in Hfind. rewrite Hcached in Hfind. by injection Hfind as <-.
    + simpl in Hfind. rewrite Hother in Hfind. by apply IH.
  - split; [|split; [done|split]].
    + unfold orElse. destruct (truthy _) as [id|] eqn:Hid; [|done].
      intros ->. unfold truthy in Hid.
      destruct (model_id <$> head data) as [id|]; [|done].
      destruct (String.eqb_spec id "") as [|Hne]; [done|].
      by injection Hid.
    + destruct data as [|first data]; [by left|].
      unfold orElse, truthy. simpl.
      destruct (String.eqb (model_id first) ""); [by left|].
      right. exists (first :: data), first. split; [done|]. split; [|done].
      apply list_elem_of_here.
    + intros ? before cached after [= <-] -> _ Hcached.
      eapply find_none in Hfind; [|apply in_or_app; right; by left].
      by rewrite Hcached in Hfind.
Qed.

Section round_trip.
Context {builtins : Builtins} {serializer : Serializer}.

Lemma roundTrips_assistantTextOf (blocks : list AnthropicBlock) :
  Forall roundTrips blocks → omap assistantTextOf blocks = [].
Proof.
  induction 1 as [|block blocks Hblock _ IH]; [done|].
  csimpl. rewrite IH. by destruct block.
Qed.

Lemma roundTrips_toolUseBlocks (blocks : list AnthropicBlock) :
  Forall roundTrips blocks →
  concat (map toolUseBlocks (omap toolCallOf blocks))
  = omap responseBlockOf blocks.
Proof.
  induction 1 as [|block blocks Hblock _ IH]; [done|].
  destruct block as [text|source|id name input|tool_use_id content|type];
    try done.
  destruct Hblock as (Hobject & arguments & Hstringify & Hparse).
  csimpl. rewrite IH. unfold toolUseBlocks, toolInputDict. simpl.
  rewrite Hstringify. simpl. by rewrite Hparse, Hobject.
Qed.

(** An assistant turn made of [tool_use] blocks that is sent through the
    request translator and comes back as the message of a response is
    translated into the same blocks, with their ids, names and inputs,
    when every input is an object that [JSON.parse] gets back from what
    [JSON.stringify] makes of it. *)
Theorem tool_use_round_trip (msg : AnthropicMessage)
    (blocks : list AnthropicBlock) (openaiResponse : ChatCompletionResponse)
    (choice : ChoiceNonStreaming) (rest : list ChoiceNonStreaming)
    (originalAnthropicModel : string) (requestId : option string)
    (uuid : string) :
  am_role msg = "assistant" →
  am_content msg = AnthropicBlocks blocks →
  blocks ≠ [] →
  Forall roundTrips blocks →
  ccr_choices openaiResponse = Some (choice :: rest) →
  convertAnthropicToOpenAIMessages [msg] None = [cns_message choice] →
  amr_content
    (convertOpenAIToAnthropicResponse openaiResponse originalAnthropicModel
       requestId uuid)
  = omap responseBlockOf blocks.
Proof.
  intros Hrole Hcontent Hblocks Hround Hchoices Hmessage.
  rewrite convertAnthropicToOpenAIMessages_eq in Hmessage. simpl in Hmessage.
  rewrite (convertMessage_blocks _ msg blocks), Hrole in Hmessage by done.
  simpl in Hmessage. rewrite !app_nil_r in Hmessage.
  rewrite roundTrips_assistantTextOf in Hmessage by done.
  pose proof (roundTrips_toolUseBlocks blocks Hround) as Hback.
  unfold assistantMessages in Hmessage. simpl in Hmessage.
  destruct (omap toolCallOf blocks) as [|call calls] eqn:Hcalls.
  { destruct Hround as [|block blocks Hblock _]; [done|].
    by destruct block. }
  injection Hmessage as Hmessage.
  unfold convertOpenAIToAnthropicResponse.
  rewrite Hchoices, <- Hmessage. simpl.
  change (toolUseBlocks call ++ concat (map toolUseBlocks calls))
    with (concat (map toolUseBlocks (call :: calls))).
  rewrite Hback. destruct (omap responseBlockOf blocks) eqn:Hnone; [|done].
  rewrite <- Hback in Hnone. simpl in Hnone. unfold toolUseBlocks in Hnone.
  destruct Hround as [|block blocks Hblock _]; [done|].
  destruct block as [text|source|id name input|tool_use_id content|type];
    try done.
  csimpl in Hcalls. by injection Hcalls as <- <-.
Qed.

End round_trip.

Lemma response_tool_use_blocks_witness :
  omap toolUseOf
    (amr_content
       (convertOpenAIToAnthropicResponse (H := sampleBuiltins)
          (sampleResponse "{}") "claude" None "uuid"))
  = [("call_1", "lookup")].
Proof.
  exact (response_tool_use_blocks (H := sampleBuiltins) (sampleResponse "{}")
           "claude" None "uuid" _ _ _ eq_refl eq_refl).
Defined.

Lemma user_turn_translation_witness :
  convertAnthropicToOpenAIMessages (H := sampleSerializer) [sampleUserTurn] None
  = [{| msg_role := "tool";
        msg_content := ContentString ("42" +:+ newline +:+ "7");
        msg_tool_calls := None;
        msg_tool_call_id := Some "call_1";
        msg_name := None |};
     plainMessage "user" (ContentString "what is this?")].
Proof.
  assert (Hblocks :
    [BlockText "what is this?";
     BlockToolResult "call_1" (ResultArray [textItem "42"; JNum 7])] ≠ [])
    by discriminate.
  exact (user_turn_translation (H := sampleSerializer) sampleUserTurn
           [BlockText "what is this?";
            BlockToolResult "call_1" (ResultArray [textItem "42"; JNum 7])]
           eq_refl eq_refl Hblocks).
Defined.

Lemma assistant_turn_translation_witness :
  let openaiMessages :=
    convertAnthropicToOpenAIMessages (H := sampleSerializer)
      [sampleAssistantTurn] None in
  openaiMessages
  = [plainMessage "assistant" (ContentString "let me add");
     {| msg_role := "assistant";
        msg_content := ContentNull;
        msg_tool_calls :=
          Some [{| tc_id := "call_1";
                   tc_type := "function";
                   tc_function :=
                     {| fn_name := "sum"; fn_arguments := "{}" |} |}];
        msg_tool_call_id := None;
        msg_name := None |}]
  ∧ (1 ≤ length openaiMessages ≤ 2)%nat
  ∧ Forall (λ message, msg_role message = "assistant") openaiMessages.
Proof.
  assert (Hblocks :
    [BlockToolUse "call_1" "sum" (JObj []); BlockText "let me add"] ≠ [])
    by discriminate.
  exact (assistant_turn_translation (H := sampleSerializer) sampleAssistantTurn
           [BlockToolUse "call_1" "sum" (JObj []); BlockText "let me add"]
           eq_refl eq_refl Hblocks).
Defined.

Lemma turn_without_usable_blocks_is_dropped_witness :
  convertAnthropicToOpenAIMessages (H := sampleSerializer)
    ([sampleUserTurn] ++ samplePictureTurn :: [sampleAssistantTurn])
    (Some (SystemString "be brief"))
  = convertAnthropicToOpenAIMessages (H := sampleSerializer)
      ([sampleUserTurn] ++ [sampleAssistantTurn])
      (Some (SystemString "be brief")).
Proof.
  apply (turn_without_usable_blocks_is_dropped (H := sampleSerializer)
           [sampleUserTurn] [sampleAssistantTurn] samplePictureTurn
           [BlockImage {| src_type := "url";
                          src_media_type := "image/png";
                          src_data := "https://example.org/a.png" |}]
           (Some (SystemString "be brief")) eq_refl).
  - discriminate.
  - right. split; [reflexivity|]. repeat constructor. discriminate.
Defined.

Lemma text_items_are_joined_witness :
  serializeToolResultContent (H := sampleSerializer)
    (ResultArray
       [textItem "42"; JObj [("text", JStr "ok"); ("type", JStr "text")]])
  = "42" +:+ newline +:+ "ok".
Proof.
  apply (text_items_are_joined (H := sampleSerializer)
           [textItem "42"; JObj [("text", JStr "ok"); ("type", JStr "text")]]
           ["42"; "ok"]).
  repeat constructor.
Defined.

Lemma tool_use_round_trip_witness :
  amr_content
    (convertOpenAIToAnthropicResponse (H := sampleBuiltins)
       (responseWith
          {| msg_role := "assistant";
             msg_content := ContentNull;
             msg_tool_calls :=
               Some [{| tc_id := "call_1";
                        tc_type := "function";
                        tc_function :=
                          {| fn_name := "sum"; fn_arguments := "{}" |} |}];
             msg_tool_call_id := None;
             msg_name := None |}
          "tool_calls")
       "claude" None "uuid")
  = [ContentBlockToolUse "call_1" "sum" (JObj [])].
Proof.
  assert (Hblocks : [BlockToolUse "call_1" "sum" (JObj [])] ≠ [])
    by discriminate.
  assert (Hround :
    Forall (roundTrips (builtins := sampleBuiltins) (serializer := sampleSerializer))
      [BlockToolUse "call_1" "sum" (JObj [])]).
  { repeat constructor. by exists "{}". }
  exact (tool_use_round_trip (builtins := sampleBuiltins)
           (serializer := sampleSerializer)
           {| am_role := "assistant";
              am_content :=
                AnthropicBlocks [BlockToolUse "call_1" "sum" (JObj [])] |}
           [BlockToolUse "call_1" "sum" (JObj [])]
           (responseWith
              {| msg_role := "assistant";
                 msg_content := ContentNull;
                 msg_tool_calls :=
                   Some [{| tc_id := "call_1";
                            tc_type := "function";
                            tc_function :=
                              {| fn_name := "sum"; fn_arguments := "{}" |} |}];
                 msg_tool_call_id := None;
                 msg_name := None |}
              "tool_calls")
           _ [] "claude" None "uuid" eq_refl eq_refl Hblocks Hround eq_refl
           eq_refl).
Defined.
